(** * NEORV32 runtime environment (RTE): a shallow embedding of
      [sw/lib/source/neorv32_rte.c] and its trap-routing properties.

    The hart is a 32-bit RISC-V core.  Machine words are integers of [Z]
    with the wrap-around written out, main memory is byte addressed and
    little endian, control and status registers are a finite register
    file.  Every C function of the source file is a function on an
    explicit machine state. *)

From Stdlib Require Import ZArith Lia List Bool Ascii String.
Import ListNotations.
Local Open Scope Z_scope.

(** ** 32-bit machine words *)

Module Word32.

Definition modulus : Z := 2 ^ 32.

(** Truncation of an integer to [uint32_t]. *)
Definition wrap (z : Z) : Z := z mod 2 ^ 32.

(** The values a [uint32_t] can hold. *)
Definition in_range (z : Z) : Prop := 0 <= z < 2 ^ 32.

Definition add (a b : Z) : Z := wrap (a + b).
Definition sub (a b : Z) : Z := wrap (a - b).

(** [a << k] on a 32-bit register. *)
Definition shl (a k : Z) : Z := wrap (Z.shiftl a k).

(** [a >> k] on an unsigned 32-bit register: the RV32 [srl] instruction
    reads the low five bits of the shift amount. *)
Definition srl (a k : Z) : Z := Z.shiftr a (Z.land k 31).

(** [~a] on a 32-bit register. *)
Definition not (a : Z) : Z := wrap (Z.lnot a).

(** The value of a 32-bit pattern read as [int32_t]. *)
Definition signed (a : Z) : Z := if a <? 2 ^ 31 then a else a - 2 ^ 32.

End Word32.


(** ** Main memory: byte addressed, little endian *)

Module Memory.
Import Word32.

Definition memory : Type := Z -> Z.

(** Byte [k] (0 = least significant) of a word. *)
Definition byte_of (v k : Z) : Z := (v / 2 ^ (8 * k)) mod 256.

Definition load_byte (m : memory) (a : Z) : Z := m (wrap a) mod 256.

(** [lw]: the four bytes at [a], [a+1], [a+2], [a+3] (addresses wrap). *)
Definition load_word (m : memory) (a : Z) : Z :=
  load_byte m a
  + 2 ^ 8 * load_byte m (a + 1)
  + 2 ^ 16 * load_byte m (a + 2)
  + 2 ^ 24 * load_byte m (a + 3).

(** [sw]: the byte at distance [k < 4] above [a] becomes byte [k] of [v];
    every other byte keeps its content. *)
Definition store_word (m : memory) (a v : Z) : memory :=
  fun p => let k := wrap (p - a) in
           if k <? 4 then byte_of v k else m p.

(** Two word cells are apart when neither starts inside the other. *)
Definition apart (a b : Z) : Prop := 4 <= wrap (b - a) <= 2 ^ 32 - 4.

End Memory.


(** ** What the source file takes from its headers and from the linker *)

(** The constants [neorv32_rte.c] uses and [neorv32.h] declares, the two
    conditional-compilation switches, the addresses the linker gives to
    the three objects whose address the code takes, and what the [mret]
    instruction of the hart makes of [mstatus].  The development is
    parametric in all of them. *)
Record platform : Type := mkPlatform {
  (* exception codes, as read from [mcause] *)
  TRAP_CODE_I_ACCESS : Z;
  TRAP_CODE_I_ILLEGAL : Z;
  TRAP_CODE_I_MISALIGNED : Z;
  TRAP_CODE_BREAKPOINT : Z;
  TRAP_CODE_L_MISALIGNED : Z;
  TRAP_CODE_L_ACCESS : Z;
  TRAP_CODE_S_MISALIGNED : Z;
  TRAP_CODE_S_ACCESS : Z;
  TRAP_CODE_UENV_CALL : Z;
  TRAP_CODE_MENV_CALL : Z;
  TRAP_CODE_DOUBLE_TRAP : Z;
  (* interrupt codes *)
  TRAP_CODE_MSI : Z;
  TRAP_CODE_MTI : Z;
  TRAP_CODE_MEI : Z;
  TRAP_CODE_FIRQ_0 : Z;
  TRAP_CODE_FIRQ_1 : Z;
  TRAP_CODE_FIRQ_2 : Z;
  TRAP_CODE_FIRQ_3 : Z;
  TRAP_CODE_FIRQ_4 : Z;
  TRAP_CODE_FIRQ_5 : Z;
  TRAP_CODE_FIRQ_6 : Z;
  TRAP_CODE_FIRQ_7 : Z;
  TRAP_CODE_FIRQ_8 : Z;
  TRAP_CODE_FIRQ_9 : Z;
  TRAP_CODE_FIRQ_10 : Z;
  TRAP_CODE_FIRQ_11 : Z;
  TRAP_CODE_FIRQ_12 : Z;
  TRAP_CODE_FIRQ_13 : Z;
  TRAP_CODE_FIRQ_14 : Z;
  TRAP_CODE_FIRQ_15 : Z;
  (* bit positions of the previous-privilege field of [mstatus] *)
  CSR_MSTATUS_MPP_L : Z;
  CSR_MSTATUS_MPP_H : Z;
  (* [#ifdef __riscv_c] and [#ifdef __riscv_32e] *)
  riscv_c : bool;
  riscv_32e : bool;
  (* [&__neorv32_rte_vector_lut], [&neorv32_rte_core],
     [&neorv32_rte_debug_handler] *)
  vector_lut_addr : Z;
  rte_core_addr : Z;
  debug_handler_addr : Z;
  (* [mret]: the new [mstatus] from the old one (MIE <- MPIE, MPIE <- 1,
     MPP <- the least privileged mode of the hart) *)
  mret_mstatus : Z -> Z
}.

(** ** Machine state of one hart *)

(** The control and status registers the runtime touches. *)
Inductive csr_id : Type :=
| CSR_MSTATUS | CSR_MIE | CSR_MTVEC | CSR_MSCRATCH | CSR_MEPC
| CSR_MCAUSE | CSR_MTVAL | CSR_MTINST | CSR_MHARTID.

Definition csr_eq_dec (a b : csr_id) : {a = b} + {a <> b}.
Proof. decide equality. Defined.

Record state : Type := mkState {
  xregs : Z -> Z;            (* general-purpose registers x1..x31 *)
  pc : Z;                    (* program counter *)
  csrs : csr_id -> Z;        (* control and status registers *)
  mem : Memory.memory;       (* main memory, shared by both harts *)
  uart0_present : bool;      (* is UART0 synthesized? *)
  uart0_tx : list ascii      (* characters sent to UART0, oldest first *)
}.

Definition set_xregs (f : Z -> Z) (s : state) : state :=
  mkState f (pc s) (csrs s) (mem s) (uart0_present s) (uart0_tx s).
Definition set_pc (v : Z) (s : state) : state :=
  mkState (xregs s) v (csrs s) (mem s) (uart0_present s) (uart0_tx s).
Definition set_csrs (f : csr_id -> Z) (s : state) : state :=
  mkState (xregs s) (pc s) f (mem s) (uart0_present s) (uart0_tx s).
Definition set_mem (m : Memory.memory) (s : state) : state :=
  mkState (xregs s) (pc s) (csrs s) m (uart0_present s) (uart0_tx s).
Definition set_uart0_tx (l : list ascii) (s : state) : state :=
  mkState (xregs s) (pc s) (csrs s) (mem s) (uart0_present s) l.

(** How a call ends: it returns to its caller, or the hart is still
    inside a loop of the callee when the step budget is used up. *)
Inductive outcome : Type :=
| Returned (s : state)
| Spinning (s : state).

(** ** Collaborators: register, memory and UART primitives *)

(** Modelled from the spec: the control-register read primitive
    [neorv32_cpu_csr_read] of [neorv32_cpu.h] ("control-register
    read/write primitives, addressed by a fixed symbolic name set"). *)
Definition neorv32_cpu_csr_read (c : csr_id) (s : state) : Z := csrs s c.

(** Modelled from the spec: the control-register write primitive
    [neorv32_cpu_csr_write] of [neorv32_cpu.h]. *)
Definition neorv32_cpu_csr_write (c : csr_id) (v : Z) (s : state) : state :=
  set_csrs (fun c' => if csr_eq_dec c' c then v else csrs s c') s.

(** Modelled from the spec: the bit-clear primitive [neorv32_cpu_csr_clr]
    of [neorv32_cpu.h] ("clear its enable bit"): the register keeps
    exactly the bits that are not set in [mask]. *)
Definition neorv32_cpu_csr_clr (c : csr_id) (mask : Z) (s : state) : state :=
  neorv32_cpu_csr_write c (Z.land (csrs s c) (Z.lnot mask)) s.

(** Modelled from the spec: the memory-word load primitive
    [neorv32_cpu_load_unsigned_word] of [neorv32_cpu.h]. *)
Definition neorv32_cpu_load_unsigned_word (addr : Z) (s : state) : Z :=
  Memory.load_word (mem s) addr.

(** Modelled from the spec: the memory-word store primitive
    [neorv32_cpu_store_unsigned_word] of [neorv32_cpu.h]. *)
Definition neorv32_cpu_store_unsigned_word (addr data : Z) (s : state)
  : state :=
  set_mem (Memory.store_word (mem s) addr data) s.

(** Modelled from the spec: the availability check [neorv32_uart0_available]
    of the character-output driver; non-zero when UART0 is there. *)
Definition neorv32_uart0_available (s : state) : Z :=
  if uart0_present s then 1 else 0.

(** Modelled from the spec: the single-character output [neorv32_uart0_putc]
    of the character-output driver. *)
Definition neorv32_uart0_putc (c : ascii) (s : state) : state :=
  set_uart0_tx (uart0_tx s ++ [c]) s.

(** Modelled from the spec: the string output [neorv32_uart0_puts] of the
    character-output driver. *)
Definition neorv32_uart0_puts (str : string) (s : state) : state :=
  set_uart0_tx (uart0_tx s ++ list_ascii_of_string str) s.

(** [asm volatile ("fence")]: orders this hart's memory accesses; a single
    hart's view of its own state does not change. *)
Definition fence (s : state) : state := s.

(** ** Loops *)

(** [for (i = i0; i < bound; i++) body], on any state type; [fuel] bounds
    the number of iterations. *)
Fixpoint for_lt {A : Type} (fuel : nat) (i bound : Z) (body : Z -> A -> A)
  (a : A) : A :=
  match fuel with
  | O => a
  | S fuel' =>
      if i <? bound then for_lt fuel' (i + 1) bound body (body i a) else a
  end.

(** The same loop with the fuel it needs to leave through its condition. *)
Definition for_loop {A : Type} (i0 bound : Z) (body : Z -> A -> A) (a : A)
  : A :=
  for_lt (Z.to_nat (bound - i0)) i0 bound body a.

(** The values the loop variable takes, in order. *)
Fixpoint for_indices (fuel : nat) (i bound : Z) : list Z :=
  match fuel with
  | O => []
  | S fuel' => if i <? bound then i :: for_indices fuel' (i + 1) bound else []
  end.

Definition loop_indices (i0 bound : Z) : list Z :=
  for_indices (Z.to_nat (bound - i0)) i0 bound.

(** [while (1) { asm volatile ("wfi"); }]: [wfi] stalls the hart until an
    interrupt is pending and changes no register; the loop condition is
    the constant 1 and the body has no [break]. *)
Definition wfi (s : state) : state := s.

Fixpoint wfi_loop (fuel : nat) (s : state) : outcome :=
  match fuel with
  | O => Spinning s
  | S fuel' => wfi_loop fuel' (wfi s)
  end.

(** ** The runtime environment *)

Section RTE.

Context (P : platform).

(** *** The trap vector look-up table

    [static volatile uint32_t __neorv32_rte_vector_lut[2][32]]: 64 words
    in main memory.  The cell of [lut[i][j]] is at [lut + 128*i + 4*j],
    computed as the 32-bit hart computes addresses. *)
Definition vector_lut_cell (i j : Z) : Z :=
  Word32.wrap (vector_lut_addr P + 128 * i + 4 * j).

Definition vector_lut_get (i j : Z) (s : state) : Z :=
  Memory.load_word (mem s) (vector_lut_cell i j).

Definition vector_lut_set (i j v : Z) (s : state) : state :=
  set_mem (Memory.store_word (mem s) (vector_lut_cell i j) v) s.

(** *** [neorv32_rte_setup] *)

(** The body of the loop: both slots of one index. *)
Definition setup_install_debug (index : Z) (s : state) : state :=
  let s := vector_lut_set 0 index (debug_handler_addr P) s in
  vector_lut_set 1 index (debug_handler_addr P) s.

Definition neorv32_rte_setup (s : state) : state :=
  (* clear mstatus, set previous privilege level to machine-mode *)
  let s := neorv32_cpu_csr_write CSR_MSTATUS
             (Z.lor (Word32.shl 1 (CSR_MSTATUS_MPP_H P))
                    (Word32.shl 1 (CSR_MSTATUS_MPP_L P))) s in
  (* configure trap handler base address (direct mode) *)
  let s := neorv32_cpu_csr_write CSR_MTVEC
             (Z.land (rte_core_addr P) 0xfffffffc) s in
  (* disable all IRQ channels *)
  let s := neorv32_cpu_csr_write CSR_MIE 0 s in
  (* install debug handler for all trap sources (only on core 0) *)
  let s :=
    if neorv32_cpu_csr_read CSR_MHARTID s =? 0 then
      for_loop 0 32 setup_install_debug s
    else s in
  fence s.

(** *** [neorv32_rte_handler_install]

    Returns the status and the new state. *)
Definition neorv32_rte_handler_install (code handler : Z) (s : state)
  : Z * state :=
  if negb (Z.land code (Word32.not 0x8000001f) =? 0) then
    (-1, s) (* invalid trap code *)
  else
    (0, vector_lut_set (Z.shiftr code 31) code handler s).

(** *** [neorv32_rte_core], the first-level trap handler *)

(** General-purpose registers: [x0] reads as zero and ignores writes. *)
Definition get_xreg (r : Z) (s : state) : Z :=
  if r =? 0 then 0 else xregs s r.

Definition set_xreg (r v : Z) (s : state) : state :=
  if r =? 0 then s
  else set_xregs (fun r' => if r' =? r then v else xregs s r') s.

(** The instructions of the two assembly blocks. *)
Definition asm_csrw (c : csr_id) (rs : Z) (s : state) : state :=
  neorv32_cpu_csr_write c (get_xreg rs s) s.

Definition asm_csrrw (rd : Z) (c : csr_id) (rs : Z) (s : state) : state :=
  let old := neorv32_cpu_csr_read c s in
  let s := neorv32_cpu_csr_write c (get_xreg rs s) s in
  set_xreg rd old s.

Definition asm_addi (rd rs imm : Z) (s : state) : state :=
  set_xreg rd (Word32.add (get_xreg rs s) imm) s.

(** [sw rs, off(sp)] *)
Definition asm_sw (rs off : Z) (s : state) : state :=
  set_mem (Memory.store_word (mem s) (Word32.add (get_xreg 2 s) off)
             (get_xreg rs s)) s.

(** [lw rd, off(sp)] *)
Definition asm_lw (rd off : Z) (s : state) : state :=
  set_xreg rd (Memory.load_word (mem s) (Word32.add (get_xreg 2 s) off)) s.

(** [mret]: the hart pops the privilege and interrupt-enable stack of
    [mstatus], and execution continues at the resume address. *)
Definition asm_mret (s : state) : state :=
  set_pc (neorv32_cpu_csr_read CSR_MEPC s)
    (neorv32_cpu_csr_write CSR_MSTATUS
       (mret_mstatus P (neorv32_cpu_csr_read CSR_MSTATUS s)) s).

(** Number of general-purpose registers: 16 with [__riscv_32e]. *)
Definition num_xregs : Z := if riscv_32e P then 16 else 32.

(** The registers stored and reloaded one after the other by the
    unrolled [sw]/[lw] runs: x3..x15, and x16..x31 on the full file. *)
Definition upper_xregs : list Z :=
  [3; 4; 5; 6; 7; 8; 9; 10; 11; 12; 13; 14; 15]
  ++ (if riscv_32e P then []
      else [16; 17; 18; 19; 20; 21; 22; 23; 24; 25; 26; 27; 28; 29; 30; 31]).

(** save context *)
Definition rte_core_save (s : state) : state :=
  let s := asm_csrw CSR_MSCRATCH 2 s in    (* backup original sp *)
  let s := asm_addi 2 2 (- (num_xregs * 4)) s in
  let s := asm_sw 0 (0 * 4) s in
  let s := asm_sw 1 (1 * 4) s in
  let s := asm_csrrw 1 CSR_MSCRATCH 2 s in (* mscratch = frame base *)
  let s := asm_sw 1 (2 * 4) s in           (* original sp, at x2's slot *)
  fold_left (fun s r => asm_sw r (r * 4) s) upper_xregs s.

(** restore context *)
Definition rte_core_restore (s : state) : state :=
  let s := asm_lw 1 (1 * 4) s in
  let s := fold_left (fun s r => asm_lw r (r * 4) s) upper_xregs s in
  let s := asm_lw 2 (2 * 4) s in           (* original sp, at the end *)
  asm_mret s.

(** get trap handler base address *)
Definition rte_core_lookup (mcause : Z) (s : state) : Z :=
  vector_lut_get (Z.shiftr mcause 31) (Z.land mcause 31) s.

(** compute return address (for exceptions only) *)
Definition rte_core_fixup (mcause : Z) (s : state) : state :=
  if (Z.shiftr mcause 31 =? 0) && negb (mcause =? TRAP_CODE_I_ACCESS P)
  then
    let mepc := neorv32_cpu_csr_read CSR_MEPC s in
    let mepc := Word32.add mepc 4 in
    let mepc :=
      if riscv_c P
         && negb (Z.land (neorv32_cpu_csr_read CSR_MTINST s) 3 =? 3)
      then Word32.sub mepc 2
      else mepc in
    neorv32_cpu_csr_write CSR_MEPC mepc s
  else s.

(** [handlers a] is what a call of the code at address [a] as
    [void f(void)] does to the machine. *)
Definition neorv32_rte_core (handlers : Z -> state -> outcome) (s : state)
  : outcome :=
  let s := rte_core_save s in
  let s := fence s in
  let mcause := neorv32_cpu_csr_read CSR_MCAUSE s in
  let handler_base := rte_core_lookup mcause s in
  (* call handler *)
  let r := if negb (handler_base =? 0) then handlers handler_base s
           else Returned s in
  match r with
  | Returned s => Returned (rte_core_restore (rte_core_fixup mcause s))
  | Spinning s => Spinning s
  end.

(** *** [neorv32_rte_context_get] and [neorv32_rte_context_put] *)

(** The frame cell of register [x]: [mscratch + ((x & mask) << 2)]. *)
Definition context_cell (x : Z) (s : state) : Z :=
  let tmp := neorv32_cpu_csr_read CSR_MSCRATCH s in
  if riscv_32e P then Word32.add tmp (Z.shiftl (Z.land x 15) 2)
  else Word32.add tmp (Z.shiftl (Z.land x 31) 2).

Definition neorv32_rte_context_get (x : Z) (s : state) : Z :=
  neorv32_cpu_load_unsigned_word (context_cell x s) s.

Definition neorv32_rte_context_put (x data : Z) (s : state) : state :=
  neorv32_cpu_store_unsigned_word (context_cell x s) data s.

(** *** [__neorv32_rte_print_hex] *)

Definition hex_symbols : string := "0123456789ABCDEF".

(** [hex_symbols[index]] *)
Definition hex_symbol (index : Z) : ascii :=
  match String.get (Z.to_nat index) hex_symbols with
  | Some c => c
  | None => "000"%char
  end.

(** The shift amount of iteration [i]. *)
Definition print_hex_shift (i : Z) : Z := 28 - 4 * i.

Definition print_hex_body (num : Z) (i : Z) (s : state) : state :=
  let index := Z.land (Word32.srl num (print_hex_shift i)) 0xF in
  neorv32_uart0_putc (hex_symbol index) s.

(** [digits] and [i] are C [int]s: [digits - 8] and [28 - 4*i] are
    written in [Z], which is what the code computes as long as they do
    not overflow, that is for [digits] from [-2^31 + 8] up.  What is
    stated of the printer for a general [digits] is stated for
    [0 <= digits < 2^31]; the callers pass 1 and 8. *)
Definition neorv32_rte_print_hex (num digits : Z) (s : state) : state :=
  if negb (neorv32_uart0_available s =? 0) then
    let s := neorv32_uart0_putc "0"%char s in
    let s := neorv32_uart0_putc "x"%char s in
    for_loop (digits - 8) 8 (print_hex_body num) s
  else s.

(** The shift amounts the loop of the printer computes, in order. *)
Definition print_hex_shifts (digits : Z) : list Z :=
  map print_hex_shift (loop_indices (digits - 8) 8).

(** *** [neorv32_rte_debug_handler] *)

Definition is_fast_irq (trap_cause : Z) : bool :=
  existsb (Z.eqb trap_cause)
    [TRAP_CODE_FIRQ_0 P; TRAP_CODE_FIRQ_1 P; TRAP_CODE_FIRQ_2 P;
     TRAP_CODE_FIRQ_3 P; TRAP_CODE_FIRQ_4 P; TRAP_CODE_FIRQ_5 P;
     TRAP_CODE_FIRQ_6 P; TRAP_CODE_FIRQ_7 P; TRAP_CODE_FIRQ_8 P;
     TRAP_CODE_FIRQ_9 P; TRAP_CODE_FIRQ_10 P; TRAP_CODE_FIRQ_11 P;
     TRAP_CODE_FIRQ_12 P; TRAP_CODE_FIRQ_13 P; TRAP_CODE_FIRQ_14 P;
     TRAP_CODE_FIRQ_15 P].

(** The [switch (trap_cause)]: the case labels of a C switch are
    pairwise distinct, so at most one test of the chain succeeds. *)
Definition debug_print_cause (trap_cause : Z) (s : state) : state :=
  if trap_cause =? TRAP_CODE_I_ACCESS P then
    neorv32_uart0_puts "Instruction access fault" s
  else if trap_cause =? TRAP_CODE_I_ILLEGAL P then
    neorv32_uart0_puts "Illegal instruction" s
  else if trap_cause =? TRAP_CODE_I_MISALIGNED P then
    neorv32_uart0_puts "Instruction address misaligned" s
  else if trap_cause =? TRAP_CODE_BREAKPOINT P then
    neorv32_uart0_puts "Environment breakpoint" s
  else if trap_cause =? TRAP_CODE_L_MISALIGNED P then
    neorv32_uart0_puts "Load address misaligned" s
  else if trap_cause =? TRAP_CODE_L_ACCESS P then
    neorv32_uart0_puts "Load access fault" s
  else if trap_cause =? TRAP_CODE_S_MISALIGNED P then
    neorv32_uart0_puts "Store address misaligned" s
  else if trap_cause =? TRAP_CODE_S_ACCESS P then
    neorv32_uart0_puts "Store access fault" s
  else if trap_cause =? TRAP_CODE_UENV_CALL P then
    neorv32_uart0_puts "Environment call from U-mode" s
  else if trap_cause =? TRAP_CODE_MENV_CALL P then
    neorv32_uart0_puts "Environment call from M-mode" s
  else if trap_cause =? TRAP_CODE_DOUBLE_TRAP P then
    neorv32_uart0_puts "Double-trap" s
  else if trap_cause =? TRAP_CODE_MSI P then
    neorv32_uart0_puts "Machine software IRQ" s
  else if trap_cause =? TRAP_CODE_MTI P then
    neorv32_uart0_puts "Machine timer IRQ" s
  else if trap_cause =? TRAP_CODE_MEI P then
    neorv32_uart0_puts "Machine external IRQ" s
  else if is_fast_irq trap_cause then
    neorv32_rte_print_hex trap_cause 1 (neorv32_uart0_puts "Fast IRQ " s)
  else
    neorv32_rte_print_hex trap_cause 8
      (neorv32_uart0_puts "Unknown trap cause " s).

(** halt if fatal exception *)
Definition is_fatal (trap_cause : Z) : bool :=
  (trap_cause =? TRAP_CODE_I_ACCESS P)
  || (trap_cause =? TRAP_CODE_I_MISALIGNED P)
  || (trap_cause =? TRAP_CODE_DOUBLE_TRAP P).

Definition newline : string := String "010"%char EmptyString.

(** unhandled IRQ - disable interrupt channel *)
Definition debug_disable_irq (trap_cause : Z) (s : state) : state :=
  if Word32.signed trap_cause <? 0 then (* is interrupt *)
    let s := neorv32_uart0_puts " Disabling IRQ source" s in
    neorv32_cpu_csr_clr CSR_MIE (Word32.shl 1 (Z.land trap_cause 0x1f)) s
  else s.

(** halt if fatal exception, else outro; [fuel] is the step budget of
    the [while (1)] loop. *)
Definition debug_halt_or_return (fuel : nat) (trap_cause : Z) (s : state)
  : outcome :=
  if is_fatal trap_cause then
    let s := neorv32_uart0_puts
               (" !!FATAL EXCEPTION!! Halting CPU </NEORV32-RTE>"
                ++ newline) s in
    let s := neorv32_cpu_csr_write CSR_MIE 0 s in
    wfi_loop fuel s
  else
    Returned (neorv32_uart0_puts (" </NEORV32-RTE>" ++ newline) s).

Definition neorv32_rte_debug_handler (fuel : nat) (s : state) : outcome :=
  if neorv32_uart0_available s =? 0 then
    Returned s (* handler cannot output anything without UART0 *)
  else
    (* intro *)
    let s := neorv32_uart0_puts "<NEORV32-RTE> " s in
    (* CPU ID *)
    let s :=
      if negb (Z.land (neorv32_cpu_csr_read CSR_MHARTID s) 1 =? 0)
      then neorv32_uart0_puts "[cpu1|" s
      else neorv32_uart0_puts "[cpu0|" s in
    (* privilege level of the CPU when the trap occurred *)
    let s :=
      if negb (Z.land (neorv32_cpu_csr_read CSR_MSTATUS s)
                 (Word32.shl 3 (CSR_MSTATUS_MPP_L P)) =? 0)
      then neorv32_uart0_puts "M] " s
      else neorv32_uart0_puts "U] " s in
    (* cause *)
    let trap_cause := neorv32_cpu_csr_read CSR_MCAUSE s in
    let s := debug_print_cause trap_cause s in
    (* instruction address *)
    let s := neorv32_uart0_puts " @ PC=" s in
    let s := neorv32_rte_print_hex (neorv32_cpu_csr_read CSR_MEPC s) 8 s in
    (* trapping instruction *)
    let s := neorv32_uart0_puts ", MTINST=" s in
    let s := neorv32_rte_print_hex (neorv32_cpu_csr_read CSR_MTINST s) 8 s in
    (* trap value *)
    let s := neorv32_uart0_puts ", MTVAL=" s in
    let s := neorv32_rte_print_hex (neorv32_cpu_csr_read CSR_MTVAL s) 8 s in
    let s := debug_disable_irq trap_cause s in
    debug_halt_or_return fuel trap_cause s.

End RTE.

(** ** Trap identifiers *)

(** A trap identifier is well formed when no bit other than bit 31 (the
    direction) and bits 4..0 (the index) is set. *)
Definition valid_trap_code (code : Z) : Prop :=
  forall i, 5 <= i < 31 -> Z.testbit code i = false.

(** Two states that differ at most in what was sent to UART0. *)
Definition same_machine (s s' : state) : Prop :=
  xregs s' = xregs s /\ pc s' = pc s /\ csrs s' = csrs s
  /\ mem s' = mem s /\ uart0_present s' = uart0_present s.

(** The three trap causes the debug handler halts on are exception
    codes: their direction bit, bit 31, is clear. *)
Definition fatal_causes_are_exceptions (P : platform) : Prop :=
  0 <= TRAP_CODE_I_ACCESS P < 2 ^ 31
  /\ 0 <= TRAP_CODE_I_MISALIGNED P < 2 ^ 31
  /\ 0 <= TRAP_CODE_DOUBLE_TRAP P < 2 ^ 31.

(** By how much the first-level handler advances the resume address of
    an exception: the width of the trapped instruction, 2 for a
    compressed one (low two bits of [mtinst] not both set) when
    [__riscv_c] is defined, else 4. *)
Definition resume_step (P : platform) (mtinst : Z) : Z :=
  if riscv_c P && negb (Z.land mtinst 3 =? 3) then 2 else 4.

(** The trap frame: [num_xregs] words below the stack pointer of the
    interrupted program, register [r] at word [r]. *)
Definition frame_base (P : platform) (s : state) : Z :=
  Word32.add (get_xreg 2 s) (- (num_xregs P * 4)).

(** Every general-purpose register holds a 32-bit value. *)
Definition xregs_in_range (s : state) : Prop :=
  forall r, Word32.in_range (xregs s r).

(** The resume address a call leaves in [mepc], if it returns. *)
Definition returned_mepc (o : outcome) : option Z :=
  match o with
  | Returned s => Some (neorv32_cpu_csr_read CSR_MEPC s)
  | Spinning _ => None
  end.

(** [mret] on a RISC-V hart with user mode: MIE (bit 3) takes the value
    of MPIE (bit 7), MPIE is set, MPP (bits 12:11) becomes user mode and
    MPRV (bit 17) is cleared. *)
Definition riscv_mret_mstatus (mstatus : Z) : Z :=
  let kept :=
    Z.land mstatus
      (Z.lnot (Z.lor (Z.lor (2 ^ 3) (2 ^ 17)) (Z.lor (2 ^ 11) (2 ^ 12)))) in
  let mie := if Z.testbit mstatus 7 then 2 ^ 3 else 0 in
  Z.lor (Z.lor kept (2 ^ 7)) mie.

(** ** A concrete platform

    The RISC-V cause and field numbers of the NEORV32, compressed
    instructions enabled, the full register file, and some link
    addresses.  Used for the examples below. *)
Definition neorv32_rv32ic : platform :=
  {| TRAP_CODE_I_ACCESS := 0x00000001;
     TRAP_CODE_I_ILLEGAL := 0x00000002;
     TRAP_CODE_I_MISALIGNED := 0x00000000;
     TRAP_CODE_BREAKPOINT := 0x00000003;
     TRAP_CODE_L_MISALIGNED := 0x00000004;
     TRAP_CODE_L_ACCESS := 0x00000005;
     TRAP_CODE_S_MISALIGNED := 0x00000006;
     TRAP_CODE_S_ACCESS := 0x00000007;
     TRAP_CODE_UENV_CALL := 0x00000008;
     TRAP_CODE_MENV_CALL := 0x0000000b;
     TRAP_CODE_DOUBLE_TRAP := 0x00000010;
     TRAP_CODE_MSI := 0x80000003;
     TRAP_CODE_MTI := 0x80000007;
     TRAP_CODE_MEI := 0x8000000b;
     TRAP_CODE_FIRQ_0 := 0x80000010;
     TRAP_CODE_FIRQ_1 := 0x80000011;
     TRAP_CODE_FIRQ_2 := 0x80000012;
     TRAP_CODE_FIRQ_3 := 0x80000013;
     TRAP_CODE_FIRQ_4 := 0x80000014;
     TRAP_CODE_FIRQ_5 := 0x80000015;
     TRAP_CODE_FIRQ_6 := 0x80000016;
     TRAP_CODE_FIRQ_7 := 0x80000017;
     TRAP_CODE_FIRQ_8 := 0x80000018;
     TRAP_CODE_FIRQ_9 := 0x80000019;
     TRAP_CODE_FIRQ_10 := 0x8000001a;
     TRAP_CODE_FIRQ_11 := 0x8000001b;
     TRAP_CODE_FIRQ_12 := 0x8000001c;
     TRAP_CODE_FIRQ_13 := 0x8000001d;
     TRAP_CODE_FIRQ_14 := 0x8000001e;
     TRAP_CODE_FIRQ_15 := 0x8000001f;
     CSR_MSTATUS_MPP_L := 11;
     CSR_MSTATUS_MPP_H := 12;
     riscv_c := true;
     riscv_32e := false;
     vector_lut_addr := 0x80001000;
     rte_core_addr := 0x00000400;
     debug_handler_addr := 0x00000800;
     mret_mstatus := riscv_mret_mstatus |}.

(** A machine just after reset: registers, memory and UART log empty. *)
Definition reset_state (uart : bool) : state :=
  {| xregs := fun _ => 0;
     pc := 0;
     csrs := fun _ => 0;
     mem := fun _ => 0;
     uart0_present := uart;
     uart0_tx := [] |}.

(** A second-level handler, linked at 0x2000, that redirects the
    interrupted program: it writes 0x100 to [mepc] and returns.  Code at
    any other address just returns. *)
Definition redirecting_handlers (a : Z) (s : state) : outcome :=
  if a =? 0x2000 then Returned (neorv32_cpu_csr_write CSR_MEPC 0x100 s)
  else Returned s.

(** A machine that has just trapped on an illegal (uncompressed)
    instruction at 0x40, stack pointer at 0x80010000, with the handler at
    0x2000 installed for that cause. *)
Definition illegal_instruction_trap : state :=
  snd (neorv32_rte_handler_install neorv32_rv32ic 0x00000002 0x2000
         (neorv32_cpu_csr_write CSR_MCAUSE 0x00000002
            (neorv32_cpu_csr_write CSR_MEPC 0x40
               (neorv32_cpu_csr_write CSR_MTINST 0x00000003
                  (set_xregs (fun r => if r =? 2 then 0x80010000 else 0)
                     (reset_state true)))))).

(** ** Regions of memory *)

(** The word at [a] overlaps no word of the trap frame built for [s]. *)
Definition outside_frame (P : platform) (s : state) (a : Z) : Prop :=
  forall r, 0 <= r < num_xregs P ->
    Memory.apart (Word32.add (frame_base P s) (r * 4)) a.

(** The word at [a] overlaps no slot of the vector table. *)
Definition outside_table (P : platform) (a : Z) : Prop :=
  forall d i, 0 <= d < 2 -> 0 <= i < 32 ->
    Memory.apart (vector_lut_cell P d i) a.

(** The number a list of hex digit values, most significant first,
    stands for. *)
Definition hex_digits_value (ds : list Z) : Z :=
  fold_left (fun acc d => 16 * acc + d) ds 0.

(** The machine state a call ends in. *)
Definition outcome_state (o : outcome) : state :=
  match o with
  | Returned s => s
  | Spinning s => s
  end.

(** ** More machines for the examples *)

(** Register [r] holds [0x100 + r], the stack pointer 0x80010000. *)
Definition example_xregs (r : Z) : Z :=
  if r =? 2 then 0x80010000
  else if (0 <=? r) && (r <? 32) then 0x100 + r else 0.

(** A machine on which [neorv32_rte_setup] has not run, the vector
    table all zero, trapped at 0x40 with the given cause. *)
Definition bare_trap (cause : Z) : state :=
  neorv32_cpu_csr_write CSR_MCAUSE cause
    (neorv32_cpu_csr_write CSR_MEPC 0x40
       (neorv32_cpu_csr_write CSR_MTINST 0x00000003
          (set_xregs example_xregs (reset_state true)))).

(** Hart 0 after [neorv32_rte_setup], with every interrupt source
    enabled since, trapped at 0x40 with the given cause. *)
Definition trapped_state (cause : Z) (uart : bool) : state :=
  neorv32_cpu_csr_write CSR_MCAUSE cause
    (neorv32_cpu_csr_write CSR_MEPC 0x40
       (neorv32_cpu_csr_write CSR_MTINST 0x00000003
          (neorv32_cpu_csr_write CSR_MIE 0xffffffff
             (neorv32_rte_setup neorv32_rv32ic
                (set_xregs example_xregs (reset_state uart)))))).

(** The code of the example platform: the debug handler where the
    linker put it, a handler at 0x3000 that puts 0xcafe into register
    x10 of the interrupted program, and a handler at 0x4000 that leaves
    0xdead in every register but the stack pointer. *)
Definition example_handlers (fuel : nat) (a : Z) (s : state) : outcome :=
  if a =? debug_handler_addr neorv32_rv32ic
  then neorv32_rte_debug_handler neorv32_rv32ic fuel s
  else if a =? 0x3000
       then Returned (neorv32_rte_context_put neorv32_rv32ic 10 0xcafe s)
       else if a =? 0x4000
            then Returned
                   (set_xregs (fun r => if r =? 2 then xregs s 2 else 0xdead)
                      s)
            else Returned s.

(** * Properties *)

(** ** 32-bit machine words *)

Module Word32Facts.
Import Word32.

Lemma wrap_range z : in_range (wrap z).
Proof. unfold in_range, wrap. apply Z.mod_pos_bound. lia. Qed.

Lemma wrap_small z : in_range z -> wrap z = z.
Proof. unfold in_range, wrap. intros H. apply Z.mod_small. exact H. Qed.

Lemma wrap_wrap z : wrap (wrap z) = wrap z.
Proof. apply wrap_small, wrap_range. Qed.

Lemma wrap_add_l a b : wrap (wrap a + b) = wrap (a + b).
Proof. unfold wrap. apply Zplus_mod_idemp_l. Qed.

Lemma wrap_add_r a b : wrap (a + wrap b) = wrap (a + b).
Proof. unfold wrap. apply Zplus_mod_idemp_r. Qed.

Lemma wrap_sub_l a b : wrap (wrap a - b) = wrap (a - b).
Proof. unfold wrap. apply Zminus_mod_idemp_l. Qed.

(** Two offsets from one base are that far apart, modulo [2^32]. *)
Lemma wrap_offset_diff base i j :
  wrap (wrap (base + j) - wrap (base + i)) = wrap (j - i).
Proof.
  unfold wrap. rewrite Zminus_mod_idemp_l, Zminus_mod_idemp_r.
  f_equal. lia.
Qed.

End Word32Facts.

(** ** Main memory *)

Module MemoryFacts.
Import Word32 Word32Facts Memory.

Lemma byte_of_range v k : 0 <= byte_of v k < 256.
Proof. unfold byte_of. apply Z.mod_pos_bound. lia. Qed.

Lemma load_byte_range m a : 0 <= load_byte m a < 256.
Proof. unfold load_byte. apply Z.mod_pos_bound. lia. Qed.

Lemma load_word_range m a : in_range (load_word m a).
Proof.
  unfold in_range, load_word.
  pose proof (load_byte_range m a).
  pose proof (load_byte_range m (a + 1)).
  pose proof (load_byte_range m (a + 2)).
  pose proof (load_byte_range m (a + 3)).
  lia.
Qed.

Lemma load_byte_store_hit m a v k :
  0 <= k < 4 -> load_byte (store_word m a v) (a + k) = byte_of v k.
Proof.
  intros Hk. unfold load_byte, store_word.
  assert (E : wrap (wrap (a + k) - a) = k).
  { rewrite wrap_sub_l. replace (a + k - a) with k by lia.
    apply wrap_small. unfold in_range. lia. }
  rewrite E. destruct (Z.ltb_spec k 4) as [_ | H]; [ | lia ].
  apply Z.mod_small, byte_of_range.
Qed.

Lemma bytes_of_word v :
  in_range v ->
  byte_of v 0 + 2 ^ 8 * byte_of v 1 + 2 ^ 16 * byte_of v 2
    + 2 ^ 24 * byte_of v 3 = v.
Proof.
  unfold in_range, byte_of. intros Hv.
  change (2 ^ (8 * 0)) with 1. change (2 ^ (8 * 1)) with 256.
  change (2 ^ (8 * 2)) with 65536. change (2 ^ (8 * 3)) with 16777216.
  change (2 ^ 8) with 256. change (2 ^ 16) with 65536.
  change (2 ^ 24) with 16777216. change (2 ^ 32) with 4294967296 in Hv.
  Z.div_mod_to_equations. lia.
Qed.

(** A word read back from where it was stored. *)
Lemma load_store_same m a v :
  in_range v -> load_word (store_word m a v) a = v.
Proof.
  intros Hv. unfold load_word.
  replace (load_byte (store_word m a v) a)
    with (load_byte (store_word m a v) (a + 0)) by (f_equal; lia).
  rewrite !load_byte_store_hit by lia.
  apply bytes_of_word, Hv.
Qed.

Lemma load_byte_store_miss m a v b k :
  apart a b -> 0 <= k < 4 ->
  load_byte (store_word m a v) (b + k) = load_byte m (b + k).
Proof.
  unfold apart. intros Hab Hk. unfold load_byte, store_word.
  assert (E : wrap (wrap (b + k) - a) = wrap (wrap (b - a) + k)).
  { rewrite wrap_sub_l, wrap_add_l. f_equal. lia. }
  rewrite E.
  destruct (Z.ltb_spec (wrap (wrap (b - a) + k)) 4) as [H | _];
    [ | reflexivity ].
  exfalso. revert H. unfold wrap in *.
  change (2 ^ 32) with 4294967296 in *.
  Z.div_mod_to_equations. lia.
Qed.

(** A store leaves every word cell apart from it as it was. *)
Lemma load_store_other m a v b :
  apart a b -> load_word (store_word m a v) b = load_word m b.
Proof.
  intros Hab. unfold load_word.
  replace (load_byte (store_word m a v) b)
    with (load_byte (store_word m a v) (b + 0)) by (f_equal; lia).
  rewrite !(load_byte_store_miss m a v b) by (auto; lia).
  do 2 f_equal. f_equal. f_equal. lia.
Qed.

(** Cells at distinct multiples of four from one base, less than
    [2^32] bytes apart, are apart. *)
Lemma apart_offsets base i j :
  4 <= j - i <= 2 ^ 32 - 4 \/ 4 <= i - j <= 2 ^ 32 - 4 ->
  apart (wrap (base + i)) (wrap (base + j)).
Proof.
  intros H. unfold apart. rewrite wrap_offset_diff. unfold wrap.
  change (2 ^ 32) with 4294967296 in *.
  Z.div_mod_to_equations. lia.
Qed.

End MemoryFacts.

(** ** Loops *)

(** A [for] loop runs its body once per index, in order. *)
Lemma for_lt_indices {A : Type} (body : Z -> A -> A) bound fuel :
  forall i a,
    for_lt fuel i bound body a
    = fold_left (fun a i => body i a) (for_indices fuel i bound) a.
Proof.
  induction fuel as [ | fuel IH]; intros i a; simpl.
  - reflexivity.
  - destruct (i <? bound); simpl; [ apply IH | reflexivity ].
Qed.

Lemma for_loop_indices {A : Type} (body : Z -> A -> A) i0 bound a :
  for_loop i0 bound body a
  = fold_left (fun a i => body i a) (loop_indices i0 bound) a.
Proof. apply for_lt_indices. Qed.

(** With the fuel [for_loop] gives it, the loop ends because its
    condition fails, not because the fuel is used up. *)
Lemma for_indices_enough bound fuel :
  forall i, bound - i <= Z.of_nat fuel ->
    for_indices (S fuel) i bound = for_indices fuel i bound.
Proof.
  induction fuel as [ | fuel IH]; intros i Hi.
  - simpl. destruct (Z.ltb_spec i bound); [ lia | reflexivity ].
  - change (for_indices (S (S fuel)) i bound)
      with (if i <? bound then i :: for_indices (S fuel) (i + 1) bound
            else []).
    change (for_indices (S fuel) i bound)
      with (if i <? bound then i :: for_indices fuel (i + 1) bound else []).
    destruct (i <? bound); [ | reflexivity ].
    f_equal. apply IH. lia.
Qed.

Lemma for_indices_length bound fuel :
  forall i, Z.of_nat fuel = bound - i ->
    List.length (for_indices fuel i bound) = fuel.
Proof.
  induction fuel as [ | fuel IH]; intros i Hi; simpl.
  - reflexivity.
  - destruct (Z.ltb_spec i bound); [ | lia ].
    simpl. f_equal. apply IH. lia.
Qed.

Lemma loop_indices_length i0 bound :
  i0 <= bound -> Z.of_nat (List.length (loop_indices i0 bound)) = bound - i0.
Proof.
  intros H. unfold loop_indices.
  rewrite for_indices_length; lia.
Qed.

(** The wait loop has no exit. *)
Lemma wfi_loop_spins fuel : forall s, wfi_loop fuel s = Spinning s.
Proof. induction fuel as [ | fuel IH]; intros s; simpl; auto. Qed.

(** ** Trap identifiers *)

Lemma install_mask : Word32.not 0x8000001f = Z.shiftl (Z.ones 26) 5.
Proof. reflexivity. Qed.

Lemma install_mask_testbit i :
  0 <= i ->
  Z.testbit (Word32.not 0x8000001f) i = (5 <=? i) && (i <? 31).
Proof.
  intros Hi. rewrite install_mask, Z.shiftl_spec by lia.
  destruct (Z.leb_spec 5 i) as [H5 | H5]; simpl.
  - destruct (Z.ltb_spec i 31) as [H31 | H31].
    + apply Z.ones_spec_low. lia.
    + apply Z.ones_spec_high. lia.
  - apply Z.testbit_neg_r. lia.
Qed.

(** The test of the installer accepts exactly the well-formed codes. *)
Lemma install_mask_zero code :
  Z.land code (Word32.not 0x8000001f) = 0 <-> valid_trap_code code.
Proof.
  split.
  - intros H i Hi.
    assert (B : Z.testbit (Z.land code (Word32.not 0x8000001f)) i = false)
      by (rewrite H; apply Z.bits_0).
    rewrite Z.land_spec, install_mask_testbit in B by lia.
    destruct (Z.leb_spec 5 i); [ | lia ].
    destruct (Z.ltb_spec i 31); [ | lia ].
    simpl in B. rewrite andb_true_r in B. exact B.
  - intros H. apply Z.bits_inj'. intros i Hi.
    rewrite Z.land_spec, install_mask_testbit, Z.bits_0 by lia.
    destruct (Z.leb_spec 5 i); simpl; [ | apply andb_false_r ].
    destruct (Z.ltb_spec i 31); simpl; [ | apply andb_false_r ].
    rewrite H by lia. reflexivity.
Qed.

(** A well-formed code is its direction bit and its index, nothing else. *)
Lemma valid_trap_code_split code :
  Word32.in_range code -> valid_trap_code code ->
  code = 2 ^ 31 * Z.shiftr code 31 + Z.land code 31
  /\ 0 <= Z.shiftr code 31 < 2 /\ 0 <= Z.land code 31 < 32.
Proof.
  unfold Word32.in_range. intros Hr Hv.
  assert (M : (code / 2 ^ 5) mod 2 ^ 26 = 0).
  { rewrite <- Z.shiftr_div_pow2, <- Z.land_ones by lia.
    apply Z.bits_inj'. intros i Hi.
    rewrite Z.land_spec, Z.shiftr_spec, Z.bits_0 by lia.
    destruct (Z.ltb_spec i 26).
    - rewrite Hv by lia. reflexivity.
    - rewrite Z.ones_spec_high by lia. apply andb_false_r. }
  assert (L : Z.land code 31 = code mod 2 ^ 5)
    by (apply (Z.land_ones code 5); lia).
  rewrite L, Z.shiftr_div_pow2 by lia.
  change (2 ^ 5) with 32 in *. change (2 ^ 26) with 67108864 in *.
  change (2 ^ 31) with 2147483648 in *.
  change (2 ^ 32) with 4294967296 in *.
  Z.div_mod_to_equations. lia.
Qed.

(** ** The vector table *)

Section VectorTable.

Context (P : platform).

(** The installer's cell [lut[code >> 31][code]] is the dispatcher's
    cell [lut[code >> 31][code & 31]]: the direction bit of the second
    index, scaled by four, falls off the 32-bit address. *)
Lemma install_cell code :
  Word32.in_range code -> valid_trap_code code ->
  vector_lut_cell P (Z.shiftr code 31) code
  = vector_lut_cell P (Z.shiftr code 31) (Z.land code 31).
Proof.
  intros Hr Hv.
  destruct (valid_trap_code_split code Hr Hv) as (E & Hd & Hi).
  unfold vector_lut_cell, Word32.wrap.
  set (d := Z.shiftr code 31) in *. set (j := Z.land code 31) in *.
  rewrite E at 1.
  replace (vector_lut_addr P + 128 * d + 4 * (2 ^ 31 * d + j))
    with (vector_lut_addr P + 128 * d + 4 * j + (2 * d) * 2 ^ 32) by lia.
  apply Z_mod_plus_full.
Qed.

(** Distinct slots of the table are distinct, non-overlapping cells. *)
Lemma vector_lut_cells_apart d i d' i' :
  0 <= d < 2 -> 0 <= i < 32 -> 0 <= d' < 2 -> 0 <= i' < 32 ->
  (d', i') <> (d, i) ->
  Memory.apart (vector_lut_cell P d i) (vector_lut_cell P d' i').
Proof.
  intros Hd Hi Hd' Hi' Hne. unfold vector_lut_cell.
  rewrite <- !Z.add_assoc. apply MemoryFacts.apart_offsets.
  assert (d' <> d \/ i' <> i).
  { destruct (Z.eq_dec d' d); [ | auto ].
    destruct (Z.eq_dec i' i); [ | auto ].
    subst. contradiction. }
  lia.
Qed.

Lemma vector_lut_get_set_same d i v s :
  Word32.in_range v ->
  vector_lut_get P d i (vector_lut_set P d i v s) = v.
Proof. intros Hv. apply MemoryFacts.load_store_same, Hv. Qed.

Lemma vector_lut_get_set_other d i d' i' v s :
  0 <= d < 2 -> 0 <= i < 32 -> 0 <= d' < 2 -> 0 <= i' < 32 ->
  (d', i') <> (d, i) ->
  vector_lut_get P d' i' (vector_lut_set P d i v s) = vector_lut_get P d' i' s.
Proof.
  intros. apply MemoryFacts.load_store_other, vector_lut_cells_apart; auto.
Qed.

End VectorTable.

(** ** The installer *)

Lemma install_test_invalid code :
  (exists i, 5 <= i < 31 /\ Z.testbit code i = true) ->
  negb (Z.land code (Word32.not 0x8000001f) =? 0) = true.
Proof.
  intros (i & Hi & Hb).
  destruct (Z.eqb_spec (Z.land code (Word32.not 0x8000001f)) 0) as [E | _];
    [ | reflexivity ].
  apply install_mask_zero in E. rewrite (E i Hi) in Hb. discriminate.
Qed.

Lemma install_test_valid code :
  valid_trap_code code ->
  negb (Z.land code (Word32.not 0x8000001f) =? 0) = false.
Proof.
  intros Hv. apply install_mask_zero in Hv. rewrite Hv. reflexivity.
Qed.

(** What the installer does with a well-formed code. *)
Lemma install_valid_state (P : platform) code handler s :
  Word32.in_range code -> valid_trap_code code ->
  neorv32_rte_handler_install P code handler s
  = (0, vector_lut_set P (Z.shiftr code 31) (Z.land code 31) handler s).
Proof.
  intros Hr Hv. unfold neorv32_rte_handler_install.
  rewrite (install_test_valid code Hv). unfold vector_lut_set.
  rewrite (install_cell P code Hr Hv). reflexivity.
Qed.

(** C2: for a 32-bit identifier with no bit set besides bit 31 and bits
    4..0, [neorv32_rte_handler_install] returns 0, the slot selected by
    (direction, index) holds the handler address afterwards, each of the
    63 other slots holds what it held before, and the look-up the
    first-level handler does for that identifier reads the handler
    address. *)
Theorem install_valid_code (P : platform) (code handler : Z) (s : state) :
  Word32.in_range code ->
  valid_trap_code code ->
  Word32.in_range handler ->
  let r := neorv32_rte_handler_install P code handler s in
  let d := Z.shiftr code 31 in
  let i := Z.land code 31 in
  fst r = 0
  /\ vector_lut_get P d i (snd r) = handler
  /\ (forall d' i', 0 <= d' < 2 -> 0 <= i' < 32 -> (d', i') <> (d, i) ->
        vector_lut_get P d' i' (snd r) = vector_lut_get P d' i' s)
  /\ rte_core_lookup P code (snd r) = handler.
Proof.
  intros Hr Hv Hh r d i. subst r d i.
  rewrite (install_valid_state P code handler s Hr Hv). cbn [fst snd].
  destruct (valid_trap_code_split code Hr Hv) as (_ & Hd & Hi).
  split; [ reflexivity | ].
  split; [ apply vector_lut_get_set_same, Hh | ].
  split; [ | apply vector_lut_get_set_same, Hh ].
  intros d' i' Hd' Hi' Hne.
  apply vector_lut_get_set_other; assumption.
Qed.

(** The identifier of the machine timer interrupt routes to the slot
    [1][7]. *)
Lemma install_valid_code_witness :
  let r := neorv32_rte_handler_install neorv32_rv32ic 0x80000007 0x1234
             (reset_state true) in
  fst r = 0
  /\ vector_lut_get neorv32_rv32ic 1 7 (snd r) = 0x1234
  /\ (forall d' i', 0 <= d' < 2 -> 0 <= i' < 32 -> (d', i') <> (1, 7) ->
        vector_lut_get neorv32_rv32ic d' i' (snd r)
        = vector_lut_get neorv32_rv32ic d' i' (reset_state true))
  /\ rte_core_lookup neorv32_rv32ic 0x80000007 (snd r) = 0x1234.
Proof.
  apply (install_valid_code neorv32_rv32ic 0x80000007 0x1234
           (reset_state true)).
  - unfold Word32.in_range. lia.
  - apply install_mask_zero. reflexivity.
  - unfold Word32.in_range. lia.
Defined.

(** C3: for a 32-bit identifier with a bit set outside bit 31 and bits
    4..0, [neorv32_rte_handler_install] returns -1 and the machine, and so
    every slot of the vector table, is as before. *)
Theorem install_invalid_code (P : platform) (code handler : Z) (s : state) :
  Word32.in_range code ->
  (exists i, 5 <= i < 31 /\ Z.testbit code i = true) ->
  neorv32_rte_handler_install P code handler s = (-1, s)
  /\ (forall d i,
        vector_lut_get P d i
          (snd (neorv32_rte_handler_install P code handler s))
        = vector_lut_get P d i s).
Proof.
  intros _ Hbit. unfold neorv32_rte_handler_install.
  rewrite (install_test_invalid code Hbit). split; reflexivity.
Qed.

Lemma install_invalid_code_witness :
  neorv32_rte_handler_install neorv32_rv32ic 0x80000027 0x1234
    (reset_state true) = (-1, reset_state true)
  /\ (forall d i,
        vector_lut_get neorv32_rv32ic d i
          (snd (neorv32_rte_handler_install neorv32_rv32ic 0x80000027 0x1234
                  (reset_state true)))
        = vector_lut_get neorv32_rv32ic d i (reset_state true)).
Proof.
  apply (install_invalid_code neorv32_rv32ic 0x80000027 0x1234
           (reset_state true)).
  - unfold Word32.in_range. lia.
  - exists 5. split; [ lia | reflexivity ].
Defined.

(** ** Setup *)

Lemma for_indices_bounds bound fuel :
  forall i0 j, In j (for_indices fuel i0 bound) -> i0 <= j < bound.
Proof.
  induction fuel as [ | fuel IH]; intros i0 j; simpl.
  - contradiction.
  - destruct (Z.ltb_spec i0 bound); simpl; [ | contradiction ].
    intros [<- | Hj]; [ lia | ]. apply IH in Hj. lia.
Qed.

Lemma for_indices_complete bound fuel :
  forall i0 j, bound - i0 <= Z.of_nat fuel -> i0 <= j < bound ->
    In j (for_indices fuel i0 bound).
Proof.
  induction fuel as [ | fuel IH]; intros i0 j Hf Hj.
  - lia.
  - simpl. destruct (Z.ltb_spec i0 bound); [ | lia ].
    destruct (Z.eq_dec i0 j) as [-> | Hne]; [ left; reflexivity | ].
    right. apply IH; lia.
Qed.

Lemma existsb_eqb_In j l : In j l -> existsb (Z.eqb j) l = true.
Proof.
  intros H. apply existsb_exists. exists j. split; [ exact H | ].
  apply Z.eqb_refl.
Qed.

Section Setup.

Context (P : platform).

Lemma fill_get d i index s :
  Word32.in_range (debug_handler_addr P) ->
  0 <= d < 2 -> 0 <= i < 32 -> 0 <= index < 32 ->
  vector_lut_get P d i (setup_install_debug P index s)
  = if i =? index then debug_handler_addr P else vector_lut_get P d i s.
Proof.
  intros Hdbg Hd Hi Hx. unfold setup_install_debug.
  destruct (Z.eqb_spec i index) as [-> | Hne].
  - assert (C : d = 0 \/ d = 1) by lia. destruct C as [-> | ->].
    + rewrite vector_lut_get_set_other by (try lia; congruence).
      apply vector_lut_get_set_same, Hdbg.
    + apply vector_lut_get_set_same, Hdbg.
  - rewrite !vector_lut_get_set_other by (try lia; congruence).
    reflexivity.
Qed.

Lemma fill_all_get l :
  forall s d i,
    Word32.in_range (debug_handler_addr P) ->
    (forall j, In j l -> 0 <= j < 32) ->
    0 <= d < 2 -> 0 <= i < 32 ->
    vector_lut_get P d i (fold_left (fun a j => setup_install_debug P j a) l s)
    = if existsb (Z.eqb i) l then debug_handler_addr P
      else vector_lut_get P d i s.
Proof.
  induction l as [ | j l IH]; intros s d i Hdbg Hl Hd Hi; simpl.
  - reflexivity.
  - rewrite IH by (auto; intros; apply Hl; right; assumption).
    rewrite fill_get by (auto; apply Hl; left; reflexivity).
    destruct (i =? j); simpl; destruct (existsb (Z.eqb i) l); reflexivity.
Qed.

Lemma fill_all_csrs l :
  forall s,
    csrs (fold_left (fun a j => setup_install_debug P j a) l s) = csrs s.
Proof.
  induction l as [ | j l IH]; intros s; simpl; [ reflexivity | ].
  rewrite IH. reflexivity.
Qed.

(** The word a 4-aligned address keeps under the mask of [mtvec]. *)
Lemma mtvec_mask_aligned a :
  Word32.in_range a -> a mod 4 = 0 -> Z.land a 0xfffffffc = a.
Proof.
  unfold Word32.in_range. intros Hr Ha.
  change 0xfffffffc with (Z.shiftl (Z.ones 30) 2).
  apply Z.bits_inj'. intros i Hi.
  rewrite Z.land_spec, Z.shiftl_spec by lia.
  destruct (Z.ltb_spec i 2) as [H2 | H2].
  - rewrite (Z.testbit_neg_r _ (i - 2)) by lia. rewrite andb_false_r.
    symmetry. rewrite <- (Z.mod_pow2_bits_low a 2 i) by lia.
    change (2 ^ 2) with 4. rewrite Ha. apply Z.bits_0.
  - destruct (Z.ltb_spec i 32) as [H32 | H32].
    + rewrite Z.ones_spec_low by lia. apply andb_true_r.
    + rewrite Z.ones_spec_high by lia. rewrite andb_false_r.
      symmetry. rewrite <- (Z.mod_small a (2 ^ 32)) by lia.
      apply Z.mod_pow2_bits_high. lia.
Qed.

Lemma setup_state s :
  let s0 :=
    neorv32_cpu_csr_write CSR_MIE 0
      (neorv32_cpu_csr_write CSR_MTVEC (Z.land (rte_core_addr P) 0xfffffffc)
         (neorv32_cpu_csr_write CSR_MSTATUS
            (Z.lor (Word32.shl 1 (CSR_MSTATUS_MPP_H P))
                   (Word32.shl 1 (CSR_MSTATUS_MPP_L P))) s)) in
  neorv32_rte_setup P s
  = if neorv32_cpu_csr_read CSR_MHARTID s =? 0
    then fold_left (fun a j => setup_install_debug P j a) (loop_indices 0 32) s0
    else s0.
Proof.
  intros s0. unfold neorv32_rte_setup, fence.
  fold s0. change (neorv32_cpu_csr_read CSR_MHARTID s0)
    with (neorv32_cpu_csr_read CSR_MHARTID s).
  destruct (neorv32_cpu_csr_read CSR_MHARTID s =? 0); [ | reflexivity ].
  rewrite for_loop_indices. reflexivity.
Qed.

End Setup.

(** C8: [neorv32_rte_setup] leaves the interrupt-enable register at zero
    and the trap-base register at the address of [neorv32_rte_core] (the
    routine is declared 4-aligned) on every hart, and on the hart whose
    [mhartid] reads zero every one of the 64 slots of the vector table
    holds the address of [neorv32_rte_debug_handler] afterwards; on any
    other hart memory is left as it was. *)
Theorem setup_installs_debug_handler (P : platform) (s : state) :
  Word32.in_range (debug_handler_addr P) ->
  Word32.in_range (rte_core_addr P) ->
  rte_core_addr P mod 4 = 0 ->
  let s' := neorv32_rte_setup P s in
  neorv32_cpu_csr_read CSR_MIE s' = 0
  /\ neorv32_cpu_csr_read CSR_MTVEC s' = rte_core_addr P
  /\ (neorv32_cpu_csr_read CSR_MHARTID s = 0 ->
      forall d i, 0 <= d < 2 -> 0 <= i < 32 ->
        vector_lut_get P d i s' = debug_handler_addr P)
  /\ (neorv32_cpu_csr_read CSR_MHARTID s <> 0 -> mem s' = mem s).
Proof.
  intros Hdbg Hcore Hal s'. subst s'. rewrite setup_state.
  destruct (Z.eqb_spec (neorv32_cpu_csr_read CSR_MHARTID s) 0) as [E | E].
  - split; [ | split; [ | split ] ].
    + unfold neorv32_cpu_csr_read. rewrite fill_all_csrs. reflexivity.
    + unfold neorv32_cpu_csr_read. rewrite fill_all_csrs.
      change (Z.land (rte_core_addr P) 0xfffffffc = rte_core_addr P).
      apply mtvec_mask_aligned; assumption.
    + intros _ d i Hd Hi.
      rewrite fill_all_get; auto.
      * rewrite existsb_eqb_In; [ reflexivity | ].
        apply for_indices_complete; simpl; lia.
      * intros j Hj. apply for_indices_bounds in Hj. exact Hj.
    + intros H. contradiction.
  - split; [ | split; [ | split ] ].
    + reflexivity.
    + change (Z.land (rte_core_addr P) 0xfffffffc = rte_core_addr P).
      apply mtvec_mask_aligned; assumption.
    + intros H. contradiction.
    + intros _. reflexivity.
Qed.

Lemma setup_installs_debug_handler_witness :
  let s' := neorv32_rte_setup neorv32_rv32ic (reset_state true) in
  neorv32_cpu_csr_read CSR_MIE s' = 0
  /\ neorv32_cpu_csr_read CSR_MTVEC s' = rte_core_addr neorv32_rv32ic
  /\ (neorv32_cpu_csr_read CSR_MHARTID (reset_state true) = 0 ->
      forall d i, 0 <= d < 2 -> 0 <= i < 32 ->
        vector_lut_get neorv32_rv32ic d i s'
        = debug_handler_addr neorv32_rv32ic)
  /\ (neorv32_cpu_csr_read CSR_MHARTID (reset_state true) <> 0 ->
      mem s' = mem (reset_state true)).
Proof.
  apply (setup_installs_debug_handler neorv32_rv32ic (reset_state true)).
  - unfold Word32.in_range. simpl. lia.
  - unfold Word32.in_range. simpl. lia.
  - reflexivity.
Defined.

(** ** The context accessor *)

(** Masking keeps a register number of the configured register file. *)
Lemma context_mask_valid (P : platform) x :
  0 <= x < num_xregs P ->
  (if riscv_32e P then Z.shiftl (Z.land x 15) 2
   else Z.shiftl (Z.land x 31) 2) = 4 * x.
Proof.
  unfold num_xregs. intros Hx. destruct (riscv_32e P).
  - change 15 with (Z.ones 4).
    rewrite (Z.land_ones x 4), Z.shiftl_mul_pow2 by lia.
    rewrite Z.mod_small by (change (2 ^ 4) with 16; lia). lia.
  - change 31 with (Z.ones 5).
    rewrite (Z.land_ones x 5), Z.shiftl_mul_pow2 by lia.
    rewrite Z.mod_small by (change (2 ^ 5) with 32; lia). lia.
Qed.

Lemma context_cell_valid (P : platform) x s :
  0 <= x < num_xregs P ->
  context_cell P x s
  = Word32.wrap (neorv32_cpu_csr_read CSR_MSCRATCH s + 4 * x).
Proof.
  intros Hx. unfold context_cell, Word32.add.
  pose proof (context_mask_valid P x Hx) as E.
  destruct (riscv_32e P); rewrite E; reflexivity.
Qed.

(** C9: for a register number of the configured register file (0..31, or
    0..15 with [__riscv_32e]) and a 32-bit word [v],
    [neorv32_rte_context_get x] after [neorv32_rte_context_put x v] returns
    [v]; the read and the write both go to the memory word at
    [mscratch + 4*x] (a 32-bit address), and the write leaves [mscratch]
    as it was. *)
Theorem context_get_put (P : platform) (x v : Z) (s : state) :
  0 <= x < num_xregs P ->
  Word32.in_range v ->
  let s' := neorv32_rte_context_put P x v s in
  let cell := Word32.wrap (neorv32_cpu_csr_read CSR_MSCRATCH s + 4 * x) in
  neorv32_rte_context_get P x s' = v
  /\ neorv32_rte_context_get P x s = Memory.load_word (mem s) cell
  /\ mem s' = Memory.store_word (mem s) cell v
  /\ neorv32_cpu_csr_read CSR_MSCRATCH s'
     = neorv32_cpu_csr_read CSR_MSCRATCH s.
Proof.
  intros Hx Hv s' cell. subst s' cell.
  unfold neorv32_rte_context_get, neorv32_rte_context_put,
    neorv32_cpu_load_unsigned_word, neorv32_cpu_store_unsigned_word.
  cbn [mem set_mem].
  change (context_cell P x (set_mem _ s)) with (context_cell P x s).
  rewrite (context_cell_valid P x s Hx).
  split; [ | split; [ | split ] ]; try reflexivity.
  apply MemoryFacts.load_store_same, Hv.
Qed.

Lemma context_get_put_witness :
  let s := reset_state true in
  let s' := neorv32_rte_context_put neorv32_rv32ic 10 0xdeadbeef s in
  let cell := Word32.wrap (neorv32_cpu_csr_read CSR_MSCRATCH s + 4 * 10) in
  neorv32_rte_context_get neorv32_rv32ic 10 s' = 0xdeadbeef
  /\ neorv32_rte_context_get neorv32_rv32ic 10 s
     = Memory.load_word (mem s) cell
  /\ mem s' = Memory.store_word (mem s) cell 0xdeadbeef
  /\ neorv32_cpu_csr_read CSR_MSCRATCH s'
     = neorv32_cpu_csr_read CSR_MSCRATCH s.
Proof.
  apply (context_get_put neorv32_rv32ic 10 0xdeadbeef (reset_state true)).
  - unfold num_xregs. simpl. lia.
  - unfold Word32.in_range. lia.
Defined.

(** ** Diagnostic output changes the UART log only *)

Lemma same_machine_refl s : same_machine s s.
Proof. unfold same_machine. auto. Qed.

Lemma same_machine_trans s1 s2 s3 :
  same_machine s1 s2 -> same_machine s2 s3 -> same_machine s1 s3.
Proof.
  unfold same_machine. intros (A1 & A2 & A3 & A4 & A5) (B1 & B2 & B3 & B4 & B5).
  repeat split; congruence.
Qed.

Lemma putc_same c s : same_machine s (neorv32_uart0_putc c s).
Proof. unfold same_machine. auto. Qed.

Lemma puts_same str s : same_machine s (neorv32_uart0_puts str s).
Proof. unfold same_machine. auto. Qed.

Lemma print_hex_fold_same num l :
  forall s, same_machine s
              (fold_left (fun a i => print_hex_body num i a) l s).
Proof.
  induction l as [ | i l IH]; intros s; simpl.
  - apply same_machine_refl.
  - eapply same_machine_trans; [ | apply IH ]. apply putc_same.
Qed.

Lemma print_hex_same num digits s :
  same_machine s (neorv32_rte_print_hex num digits s).
Proof.
  unfold neorv32_rte_print_hex.
  destruct (negb (neorv32_uart0_available s =? 0)).
  - rewrite for_loop_indices.
    eapply same_machine_trans; [ | apply print_hex_fold_same ].
    eapply same_machine_trans; apply putc_same.
  - apply same_machine_refl.
Qed.

Lemma debug_print_cause_same (P : platform) trap_cause s :
  same_machine s (debug_print_cause P trap_cause s).
Proof.
  unfold debug_print_cause.
  repeat match goal with
         | |- same_machine _ (if ?b then _ else _) => destruct b
         end;
    try apply puts_same;
    (eapply same_machine_trans; [ apply puts_same | apply print_hex_same ]).
Qed.

(** With UART0 there, the debug handler prints its report, which leaves
    the machine as it is, and goes on to the two decisions on the trap
    cause read from [mcause]. *)
Lemma debug_handler_present (P : platform) fuel s :
  uart0_present s = true ->
  exists s_p,
    same_machine s s_p
    /\ neorv32_rte_debug_handler P fuel s
       = debug_halt_or_return P fuel (neorv32_cpu_csr_read CSR_MCAUSE s)
           (debug_disable_irq (neorv32_cpu_csr_read CSR_MCAUSE s) s_p).
Proof.
  intros Hu. unfold neorv32_rte_debug_handler, neorv32_uart0_available.
  rewrite Hu. cbn [Z.eqb]. cbv zeta.
  set (s1 := neorv32_uart0_puts "<NEORV32-RTE> " s).
  assert (H1 : same_machine s s1) by apply puts_same.
  clearbody s1.
  set (s2 := if negb (Z.land (neorv32_cpu_csr_read CSR_MHARTID s1) 1 =? 0)
             then neorv32_uart0_puts "[cpu1|" s1
             else neorv32_uart0_puts "[cpu0|" s1).
  assert (H2 : same_machine s s2).
  { eapply same_machine_trans; [ exact H1 | ].
    subst s2. destruct (negb _); apply puts_same. }
  clearbody s2.
  set (s3 := if negb (Z.land (neorv32_cpu_csr_read CSR_MSTATUS s2)
                        (Word32.shl 3 (CSR_MSTATUS_MPP_L P)) =? 0)
             then neorv32_uart0_puts "M] " s2
             else neorv32_uart0_puts "U] " s2).
  assert (H3 : same_machine s s3).
  { eapply same_machine_trans; [ exact H2 | ].
    subst s3. destruct (negb _); apply puts_same. }
  clearbody s3.
  assert (E : neorv32_cpu_csr_read CSR_MCAUSE s3
              = neorv32_cpu_csr_read CSR_MCAUSE s).
  { unfold neorv32_cpu_csr_read. destruct H3 as (_ & _ & -> & _).
    reflexivity. }
  rewrite E. eexists. split; [ | reflexivity ].
  eapply same_machine_trans; [ exact H3 | ].
  eapply same_machine_trans; [ apply debug_print_cause_same | ].
  eapply same_machine_trans; [ apply puts_same | ].
  eapply same_machine_trans; [ apply print_hex_same | ].
  eapply same_machine_trans; [ apply puts_same | ].
  eapply same_machine_trans; [ apply print_hex_same | ].
  eapply same_machine_trans; [ apply puts_same | ].
  apply print_hex_same.
Qed.

(** ** The debug handler *)

Lemma debug_handler_absent (P : platform) fuel s :
  uart0_present s = false ->
  neorv32_rte_debug_handler P fuel s = Returned s.
Proof.
  intros Hu. unfold neorv32_rte_debug_handler, neorv32_uart0_available.
  rewrite Hu. reflexivity.
Qed.

(** C6: without UART0 the debug handler returns at once, whatever the
    trap cause, and the machine is exactly as it was: no interrupt-enable
    bit is cleared and the halt loop is not entered. *)
Theorem debug_handler_without_uart (P : platform) (fuel : nat) (s : state) :
  neorv32_uart0_available s = 0 ->
  neorv32_rte_debug_handler P fuel s = Returned s.
Proof.
  intros Hu. unfold neorv32_rte_debug_handler. rewrite Hu. reflexivity.
Qed.

Lemma debug_handler_without_uart_witness :
  neorv32_rte_debug_handler neorv32_rv32ic 1
    (neorv32_cpu_csr_write CSR_MCAUSE 1 (reset_state false))
  = Returned (neorv32_cpu_csr_write CSR_MCAUSE 1 (reset_state false)).
Proof.
  apply (debug_handler_without_uart neorv32_rv32ic 1
           (neorv32_cpu_csr_write CSR_MCAUSE 1 (reset_state false))).
  reflexivity.
Defined.

Lemma disable_irq_same_but_mie trap_cause s :
  forall c, c <> CSR_MIE ->
    neorv32_cpu_csr_read c (debug_disable_irq trap_cause s)
    = neorv32_cpu_csr_read c s.
Proof.
  intros c Hc. unfold debug_disable_irq.
  destruct (Word32.signed trap_cause <? 0); [ | reflexivity ].
  unfold neorv32_cpu_csr_clr, neorv32_cpu_csr_write, neorv32_cpu_csr_read.
  cbn [csrs set_csrs neorv32_uart0_puts set_uart0_tx].
  destruct (csr_eq_dec c CSR_MIE); [ contradiction | reflexivity ].
Qed.

(** C4, as the code has it: with UART0 there, the debug handler called
    on a fetch fault, a misaligned fetch or a double trap writes zero to
    the interrupt-enable register and does not return, whatever the step
    budget: the hart stays in the wait loop. *)
Theorem debug_handler_fatal_halts (P : platform) (fuel : nat) (s : state) :
  uart0_present s = true ->
  neorv32_cpu_csr_read CSR_MCAUSE s = TRAP_CODE_I_ACCESS P
  \/ neorv32_cpu_csr_read CSR_MCAUSE s = TRAP_CODE_I_MISALIGNED P
  \/ neorv32_cpu_csr_read CSR_MCAUSE s = TRAP_CODE_DOUBLE_TRAP P ->
  exists s',
    neorv32_rte_debug_handler P fuel s = Spinning s'
    /\ neorv32_cpu_csr_read CSR_MIE s' = 0.
Proof.
  intros Hu Hc.
  destruct (debug_handler_present P fuel s Hu) as (s_p & _ & ->).
  assert (F : is_fatal P (neorv32_cpu_csr_read CSR_MCAUSE s) = true).
  { unfold is_fatal. destruct Hc as [-> | [-> | ->]];
      rewrite Z.eqb_refl; rewrite ?orb_true_r; reflexivity. }
  unfold debug_halt_or_return. rewrite F. cbv zeta.
  rewrite wfi_loop_spins. eexists. split; reflexivity.
Qed.

Lemma debug_handler_fatal_halts_witness :
  exists s',
    neorv32_rte_debug_handler neorv32_rv32ic 5
      (neorv32_cpu_csr_write CSR_MIE 0xffffffff
         (neorv32_cpu_csr_write CSR_MCAUSE 1 (reset_state true)))
    = Spinning s'
    /\ neorv32_cpu_csr_read CSR_MIE s' = 0.
Proof.
  apply (debug_handler_fatal_halts neorv32_rv32ic 5
           (neorv32_cpu_csr_write CSR_MIE 0xffffffff
              (neorv32_cpu_csr_write CSR_MCAUSE 1 (reset_state true)))).
  - reflexivity.
  - left. reflexivity.
Defined.

(** C4 as stated fails: a fetch fault with UART0 absent; the handler
    returns and every interrupt source is still enabled. *)
Lemma debug_handler_fatal_without_uart_returns :
  let s := neorv32_cpu_csr_write CSR_MIE 0xffffffff
             (neorv32_cpu_csr_write CSR_MCAUSE 1 (reset_state false)) in
  neorv32_cpu_csr_read CSR_MCAUSE s = TRAP_CODE_I_ACCESS neorv32_rv32ic
  /\ neorv32_rte_debug_handler neorv32_rv32ic 1 s = Returned s
  /\ neorv32_cpu_csr_read CSR_MIE s = 0xffffffff.
Proof. repeat split. Qed.

(** The mask [1 << (trap_cause & 0x1f)] has bit [trap_cause & 0x1f] and
    no other. *)
Lemma irq_mask trap_cause :
  let idx := Z.land trap_cause 0x1f in
  0 <= idx < 32 /\ Word32.shl 1 idx = 2 ^ idx.
Proof.
  intros idx. subst idx.
  assert (L : Z.land trap_cause 0x1f = trap_cause mod 2 ^ 5)
    by (apply (Z.land_ones trap_cause 5); lia).
  rewrite L.
  assert (B : 0 <= trap_cause mod 2 ^ 5 < 32)
    by (apply Z.mod_pos_bound; lia).
  split; [ exact B | ].
  unfold Word32.shl. rewrite Z.shiftl_1_l.
  apply Word32Facts.wrap_small. unfold Word32.in_range.
  split; [ apply Z.pow_nonneg; lia | ].
  apply Z.pow_lt_mono_r; lia.
Qed.

Lemma interrupt_cause_signed trap_cause :
  Word32.in_range trap_cause -> Z.testbit trap_cause 31 = true ->
  2 ^ 31 <= trap_cause /\ (Word32.signed trap_cause <? 0) = true.
Proof.
  unfold Word32.in_range, Word32.signed. intros Hr Hb.
  apply Z.testbit_true in Hb; [ | lia ].
  assert (G : 2 ^ 31 <= trap_cause).
  { change (2 ^ 31) with 2147483648 in *.
    change (2 ^ 32) with 4294967296 in *.
    revert Hb. Z.div_mod_to_equations. lia. }
  split; [ exact G | ].
  destruct (Z.ltb_spec trap_cause (2 ^ 31)); [ lia | ].
  apply Z.ltb_lt. lia.
Qed.

(** C5, as the code has it: with UART0 there, the debug handler called
    on a cause whose bit 31 is set returns, and in the interrupt-enable
    register the bit whose position is the 5-bit index of the cause is
    clear afterwards while every other bit, and every other control
    register, is as before.  (The three causes the handler halts on are
    exception codes.) *)
Theorem debug_handler_disables_irq (P : platform) (fuel : nat) (s : state) :
  fatal_causes_are_exceptions P ->
  uart0_present s = true ->
  Word32.in_range (neorv32_cpu_csr_read CSR_MCAUSE s) ->
  Z.testbit (neorv32_cpu_csr_read CSR_MCAUSE s) 31 = true ->
  exists s',
    neorv32_rte_debug_handler P fuel s = Returned s'
    /\ (forall i, 0 <= i ->
          Z.testbit (neorv32_cpu_csr_read CSR_MIE s') i
          = if i =? Z.land (neorv32_cpu_csr_read CSR_MCAUSE s) 31 then false
            else Z.testbit (neorv32_cpu_csr_read CSR_MIE s) i)
    /\ (forall c, c <> CSR_MIE ->
          neorv32_cpu_csr_read c s' = neorv32_cpu_csr_read c s).
Proof.
  intros (Fa & Fm & Fd) Hu Hr Hb.
  destruct (debug_handler_present P fuel s Hu) as (s_p & Hs & ->).
  set (cause := neorv32_cpu_csr_read CSR_MCAUSE s) in *.
  destruct (interrupt_cause_signed cause Hr Hb) as (Hge & Hneg).
  assert (F : is_fatal P cause = false).
  { unfold is_fatal.
    destruct (Z.eqb_spec cause (TRAP_CODE_I_ACCESS P)); [ lia | ].
    destruct (Z.eqb_spec cause (TRAP_CODE_I_MISALIGNED P)); [ lia | ].
    destruct (Z.eqb_spec cause (TRAP_CODE_DOUBLE_TRAP P)); [ lia | ].
    reflexivity. }
  unfold debug_halt_or_return. rewrite F.
  eexists. split; [ reflexivity | ].
  destruct Hs as (_ & _ & Hcsr & _).
  split.
  - intros i Hi. unfold debug_disable_irq. rewrite Hneg.
    unfold neorv32_cpu_csr_clr, neorv32_cpu_csr_write, neorv32_cpu_csr_read.
    cbn [csrs set_csrs neorv32_uart0_puts set_uart0_tx].
    destruct (csr_eq_dec CSR_MIE CSR_MIE) as [_ | N]; [ | contradiction ].
    rewrite Hcsr.
    destruct (irq_mask cause) as (Hidx & ->).
    rewrite Z.land_spec, Z.lnot_spec, Z.pow2_bits_eqb by lia.
    rewrite (Z.eqb_sym (Z.land cause 31) i).
    destruct (i =? Z.land cause 31); simpl.
    + apply andb_false_r.
    + apply andb_true_r.
  - intros c Hc.
    change (neorv32_cpu_csr_read c
              (neorv32_uart0_puts (" </NEORV32-RTE>" ++ newline)
                 (debug_disable_irq cause s_p)))
      with (neorv32_cpu_csr_read c (debug_disable_irq cause s_p)).
    rewrite disable_irq_same_but_mie by exact Hc.
    unfold neorv32_cpu_csr_read. rewrite Hcsr. reflexivity.
Qed.

Lemma debug_handler_disables_irq_witness :
  let s := neorv32_cpu_csr_write CSR_MIE 0xffffffff
             (neorv32_cpu_csr_write CSR_MCAUSE 0x80000007
                (reset_state true)) in
  exists s',
    neorv32_rte_debug_handler neorv32_rv32ic 1 s = Returned s'
    /\ (forall i, 0 <= i ->
          Z.testbit (neorv32_cpu_csr_read CSR_MIE s') i
          = if i =? Z.land (neorv32_cpu_csr_read CSR_MCAUSE s) 31 then false
            else Z.testbit (neorv32_cpu_csr_read CSR_MIE s) i)
    /\ (forall c, c <> CSR_MIE ->
          neorv32_cpu_csr_read c s' = neorv32_cpu_csr_read c s).
Proof.
  apply (debug_handler_disables_irq neorv32_rv32ic 1
           (neorv32_cpu_csr_write CSR_MIE 0xffffffff
              (neorv32_cpu_csr_write CSR_MCAUSE 0x80000007
                 (reset_state true)))).
  - unfold fatal_causes_are_exceptions. simpl. lia.
  - reflexivity.
  - unfold Word32.in_range. simpl. lia.
  - reflexivity.
Defined.

(** C5 as stated fails: a machine timer interrupt with UART0 absent; the
    handler returns and bit 7 of the interrupt-enable register is still
    set. *)
Lemma debug_handler_irq_without_uart_keeps_bit :
  let s := neorv32_cpu_csr_write CSR_MIE 0xffffffff
             (neorv32_cpu_csr_write CSR_MCAUSE 0x80000007
                (reset_state false)) in
  Z.testbit (neorv32_cpu_csr_read CSR_MCAUSE s) 31 = true
  /\ Z.land (neorv32_cpu_csr_read CSR_MCAUSE s) 31 = 7
  /\ neorv32_rte_debug_handler neorv32_rv32ic 1 s = Returned s
  /\ Z.testbit (neorv32_cpu_csr_read CSR_MIE s) 7 = true.
Proof. repeat split. Qed.

(** ** The hex printer *)

Lemma print_hex_fold_tx num l :
  forall s,
    uart0_tx (fold_left (fun a i => print_hex_body num i a) l s)
    = uart0_tx s
      ++ map (fun i => hex_symbol
                         (Z.land (Word32.srl num (print_hex_shift i)) 0xF)) l.
Proof.
  induction l as [ | i l IH]; intros s; simpl.
  - symmetry. apply app_nil_r.
  - rewrite IH. unfold print_hex_body, neorv32_uart0_putc.
    cbn [uart0_tx set_uart0_tx]. rewrite <- app_assoc. reflexivity.
Qed.

(** What the printer sends: the prefix, then one symbol per iteration. *)
Lemma print_hex_tx num digits s :
  uart0_present s = true ->
  uart0_tx (neorv32_rte_print_hex num digits s)
  = uart0_tx s
    ++ ["0"%char; "x"%char]
    ++ map (fun k => hex_symbol (Z.land (Word32.srl num k) 0xF))
         (print_hex_shifts digits).
Proof.
  intros Hu. unfold neorv32_rte_print_hex, neorv32_uart0_available.
  rewrite Hu. cbn [Z.eqb negb]. rewrite for_loop_indices, print_hex_fold_tx.
  unfold neorv32_uart0_putc. cbn [uart0_tx set_uart0_tx].
  unfold print_hex_shifts. rewrite map_map, <- !app_assoc. reflexivity.
Qed.

(** The loop runs from [digits - 8] up to 7: [16 - digits] rounds, the
    first with the shift amount [60 - 4 * digits]. *)
Lemma print_hex_shifts_count digits :
  digits <= 16 ->
  Z.of_nat (List.length (print_hex_shifts digits)) = 16 - digits.
Proof.
  intros H. unfold print_hex_shifts.
  rewrite length_map, loop_indices_length; lia.
Qed.

Lemma print_hex_shifts_head digits :
  digits < 16 ->
  exists l, print_hex_shifts digits = (60 - 4 * digits) :: l.
Proof.
  intros H. unfold print_hex_shifts, loop_indices.
  destruct (Z.to_nat (8 - (digits - 8))) as [ | n] eqn:E; [ lia | ].
  cbn [for_indices]. destruct (Z.ltb_spec (digits - 8) 8); [ | lia ].
  cbn [map]. eexists. f_equal. unfold print_hex_shift. lia.
Qed.

(** C10 fails on the code: asked for one digit (the call made for every
    fast interrupt), the printer runs its loop for [i = -7 .. 7]: the
    shift amounts start at 56, seven of them are above 31, and fifteen
    hex symbols follow the prefix. *)
Theorem print_hex_one_digit :
  let s := neorv32_rte_print_hex 0x80000010 1 (reset_state true) in
  print_hex_shifts 1
  = [56; 52; 48; 44; 40; 36; 32; 28; 24; 20; 16; 12; 8; 4; 0]
  /\ List.length (uart0_tx s) = (2 + 15)%nat
  /\ firstn 2 (uart0_tx s) = ["0"%char; "x"%char].
Proof. repeat split. Qed.

(** ** The first-level handler *)

Lemma csr_write_other c c' v s :
  c' <> c ->
  neorv32_cpu_csr_read c' (neorv32_cpu_csr_write c v s)
  = neorv32_cpu_csr_read c' s.
Proof.
  intros H. unfold neorv32_cpu_csr_read, neorv32_cpu_csr_write.
  cbn [csrs set_csrs].
  destruct (csr_eq_dec c' c); [ contradiction | reflexivity ].
Qed.

Lemma csr_write_same c v s :
  neorv32_cpu_csr_read c (neorv32_cpu_csr_write c v s) = v.
Proof.
  unfold neorv32_cpu_csr_read, neorv32_cpu_csr_write. cbn [csrs set_csrs].
  destruct (csr_eq_dec c c); [ reflexivity | contradiction ].
Qed.

Section Core.

Context (P : platform).

Lemma set_xreg_csrs r v s : csrs (set_xreg r v s) = csrs s.
Proof. unfold set_xreg. destruct (r =? 0); reflexivity. Qed.

Lemma asm_sw_fold_csrs l :
  forall s, csrs (fold_left (fun s r => asm_sw r (r * 4) s) l s) = csrs s.
Proof.
  induction l as [ | r l IH]; intros s; simpl; [ reflexivity | ].
  rewrite IH. reflexivity.
Qed.

Lemma asm_lw_fold_csrs l :
  forall s, csrs (fold_left (fun s r => asm_lw r (r * 4) s) l s) = csrs s.
Proof.
  induction l as [ | r l IH]; intros s; simpl; [ reflexivity | ].
  rewrite IH. unfold asm_lw. apply set_xreg_csrs.
Qed.

(** Saving the context writes no control register but [mscratch]. *)
Lemma rte_core_save_csrs s c :
  c <> CSR_MSCRATCH ->
  neorv32_cpu_csr_read c (rte_core_save P s) = neorv32_cpu_csr_read c s.
Proof.
  intros Hc. unfold neorv32_cpu_csr_read, rte_core_save.
  rewrite asm_sw_fold_csrs.
  unfold asm_sw, asm_csrrw, asm_addi, asm_csrw.
  cbn [csrs set_mem]. rewrite set_xreg_csrs.
  unfold neorv32_cpu_csr_write at 1. cbn [csrs set_csrs set_mem].
  destruct (csr_eq_dec c CSR_MSCRATCH) as [E | _]; [ contradiction | ].
  rewrite set_xreg_csrs.
  unfold neorv32_cpu_csr_write. cbn [csrs set_csrs].
  destruct (csr_eq_dec c CSR_MSCRATCH) as [E | _]; [ contradiction | ].
  reflexivity.
Qed.

(** Restoring the context writes no control register but [mstatus],
    which [mret] rewrites. *)
Lemma rte_core_restore_csrs s c :
  c <> CSR_MSTATUS ->
  neorv32_cpu_csr_read c (rte_core_restore P s) = neorv32_cpu_csr_read c s.
Proof.
  intros Hc. unfold rte_core_restore, asm_mret. cbv zeta.
  change (neorv32_cpu_csr_read c (set_pc ?v ?t))
    with (neorv32_cpu_csr_read c t).
  rewrite csr_write_other by exact Hc.
  unfold neorv32_cpu_csr_read.
  unfold asm_lw at 1. rewrite set_xreg_csrs.
  rewrite asm_lw_fold_csrs. unfold asm_lw. rewrite set_xreg_csrs.
  reflexivity.
Qed.

(** [mret] rewrites [mstatus] as the hart does. *)
Lemma rte_core_restore_mstatus s :
  neorv32_cpu_csr_read CSR_MSTATUS (rte_core_restore P s)
  = mret_mstatus P (neorv32_cpu_csr_read CSR_MSTATUS s).
Proof.
  unfold rte_core_restore, asm_mret. cbv zeta.
  change (neorv32_cpu_csr_read CSR_MSTATUS (set_pc ?v ?t))
    with (neorv32_cpu_csr_read CSR_MSTATUS t).
  rewrite csr_write_same.
  unfold neorv32_cpu_csr_read.
  unfold asm_lw at 1. rewrite set_xreg_csrs.
  rewrite asm_lw_fold_csrs. unfold asm_lw. rewrite set_xreg_csrs.
  reflexivity.
Qed.

Lemma resume_step_add mepc mtinst :
  (if riscv_c P && negb (Z.land mtinst 3 =? 3)
   then Word32.sub (Word32.add mepc 4) 2
   else Word32.add mepc 4)
  = Word32.wrap (mepc + resume_step P mtinst).
Proof.
  unfold resume_step.
  destruct (riscv_c P && negb (Z.land mtinst 3 =? 3)); [ | reflexivity ].
  unfold Word32.sub, Word32.add. rewrite Word32Facts.wrap_sub_l.
  f_equal. lia.
Qed.

(** What the fix-up does to the resume address. *)
Lemma rte_core_fixup_mepc mcause s :
  (Z.shiftr mcause 31 = 0 -> mcause <> TRAP_CODE_I_ACCESS P ->
   neorv32_cpu_csr_read CSR_MEPC (rte_core_fixup P mcause s)
   = Word32.wrap (neorv32_cpu_csr_read CSR_MEPC s
                  + resume_step P (neorv32_cpu_csr_read CSR_MTINST s)))
  /\ (Z.shiftr mcause 31 <> 0 \/ mcause = TRAP_CODE_I_ACCESS P ->
      rte_core_fixup P mcause s = s).
Proof.
  unfold rte_core_fixup. split.
  - intros Hd Hc. rewrite Hd. cbn [Z.eqb andb].
    destruct (Z.eqb_spec mcause (TRAP_CODE_I_ACCESS P)); [ contradiction | ].
    cbn [negb]. cbv zeta. rewrite resume_step_add.
    unfold neorv32_cpu_csr_read, neorv32_cpu_csr_write. cbn [csrs set_csrs].
    destruct (csr_eq_dec CSR_MEPC CSR_MEPC); [ reflexivity | contradiction ].
  - intros [Hd | Hc].
    + destruct (Z.eqb_spec (Z.shiftr mcause 31) 0); [ contradiction | ].
      reflexivity.
    + rewrite Hc, Z.eqb_refl. cbn [negb]. rewrite andb_false_r. reflexivity.
Qed.

(** The first-level handler, read as its three phases. *)
Lemma rte_core_phases handlers s :
  let s1 := rte_core_save P s in
  let mcause := neorv32_cpu_csr_read CSR_MCAUSE s in
  let handler_base := rte_core_lookup P mcause s1 in
  neorv32_rte_core P handlers s
  = match (if handler_base =? 0 then Returned s1
           else handlers handler_base s1) with
    | Returned s_h => Returned (rte_core_restore P (rte_core_fixup P mcause s_h))
    | Spinning s_h => Spinning s_h
    end.
Proof.
  intros s1 mcause handler_base. subst s1 mcause handler_base.
  unfold neorv32_rte_core, fence. cbv zeta.
  rewrite (rte_core_save_csrs s CSR_MCAUSE) by discriminate.
  destruct (rte_core_lookup P _ _ =? 0); reflexivity.
Qed.

End Core.

(** C1, as the code has it: the first-level handler reads the resume
    address after the second-level handler has returned.  Saving the
    context leaves [mepc] and [mtinst] alone, so the second-level handler
    is entered with the pre-trap resume address and instruction word.
    For an exception other than the fetch fault the resume address after
    dispatch is the one the second-level handler left, plus 4, or plus 2
    when [mtinst], read at that moment, shows a compressed encoding and
    [__riscv_c] is defined (32-bit addition); for a fetch fault and for an
    interrupt it is the one the second-level handler left.  With a null
    slot, what is left is the pre-trap resume address and [mtinst]; and
    when the handler returns with [mepc] as it found it, the base of the
    addition is the pre-trap resume address. *)
Theorem rte_core_resume_address (P : platform)
  (handlers : Z -> state -> outcome) (s s_h : state) :
  let s1 := rte_core_save P s in
  let mcause := neorv32_cpu_csr_read CSR_MCAUSE s in
  let handler_base := rte_core_lookup P mcause s1 in
  (if handler_base =? 0 then Returned s1 else handlers handler_base s1)
  = Returned s_h ->
  exists s',
    neorv32_rte_core P handlers s = Returned s'
    /\ (Z.shiftr mcause 31 = 0 -> mcause <> TRAP_CODE_I_ACCESS P ->
        neorv32_cpu_csr_read CSR_MEPC s'
        = Word32.wrap (neorv32_cpu_csr_read CSR_MEPC s_h
                       + resume_step P (neorv32_cpu_csr_read CSR_MTINST s_h)))
    /\ (Z.shiftr mcause 31 <> 0 \/ mcause = TRAP_CODE_I_ACCESS P ->
        neorv32_cpu_csr_read CSR_MEPC s'
        = neorv32_cpu_csr_read CSR_MEPC s_h)
    /\ (handler_base = 0 ->
        neorv32_cpu_csr_read CSR_MEPC s_h = neorv32_cpu_csr_read CSR_MEPC s
        /\ neorv32_cpu_csr_read CSR_MTINST s_h
           = neorv32_cpu_csr_read CSR_MTINST s)
    /\ neorv32_cpu_csr_read CSR_MEPC s1 = neorv32_cpu_csr_read CSR_MEPC s
    /\ neorv32_cpu_csr_read CSR_MTINST s1 = neorv32_cpu_csr_read CSR_MTINST s
    /\ (neorv32_cpu_csr_read CSR_MEPC s_h = neorv32_cpu_csr_read CSR_MEPC s1 ->
        (Z.shiftr mcause 31 = 0 -> mcause <> TRAP_CODE_I_ACCESS P ->
         neorv32_cpu_csr_read CSR_MEPC s'
         = Word32.wrap
             (neorv32_cpu_csr_read CSR_MEPC s
              + resume_step P (neorv32_cpu_csr_read CSR_MTINST s_h)))
        /\ (Z.shiftr mcause 31 <> 0 \/ mcause = TRAP_CODE_I_ACCESS P ->
            neorv32_cpu_csr_read CSR_MEPC s'
            = neorv32_cpu_csr_read CSR_MEPC s)).
Proof.
  intros s1 mcause handler_base Hh.
  rewrite rte_core_phases. fold s1 mcause handler_base. rewrite Hh.
  eexists. split; [ reflexivity | ].
  destruct (rte_core_fixup_mepc P mcause s_h) as (Fx & Fn).
  assert (Em : neorv32_cpu_csr_read CSR_MEPC s1
               = neorv32_cpu_csr_read CSR_MEPC s)
    by (apply rte_core_save_csrs; discriminate).
  assert (Et : neorv32_cpu_csr_read CSR_MTINST s1
               = neorv32_cpu_csr_read CSR_MTINST s)
    by (apply rte_core_save_csrs; discriminate).
  split; [ | split; [ | split; [ | split; [ | split ] ] ] ].
  - intros Hd Hc. rewrite rte_core_restore_csrs by discriminate.
    apply Fx; assumption.
  - intros Hc. rewrite rte_core_restore_csrs by discriminate.
    rewrite Fn by exact Hc. reflexivity.
  - intros H0. rewrite H0 in Hh. cbn [Z.eqb] in Hh.
    injection Hh as <-. split; assumption.
  - exact Em.
  - exact Et.
  - intros Hk. split.
    + intros Hd Hc. rewrite rte_core_restore_csrs by discriminate.
      rewrite <- Em, <- Hk. apply Fx; assumption.
    + intros Hc. rewrite rte_core_restore_csrs by discriminate.
      rewrite Fn by exact Hc. rewrite Hk. exact Em.
Qed.

Lemma rte_core_resume_address_witness :
  let P := neorv32_rv32ic in
  let s := illegal_instruction_trap in
  let s1 := rte_core_save P s in
  let s_h := neorv32_cpu_csr_write CSR_MEPC 0x100 s1 in
  let mcause := neorv32_cpu_csr_read CSR_MCAUSE s in
  let handler_base := rte_core_lookup P mcause s1 in
  exists s',
    neorv32_rte_core P redirecting_handlers s = Returned s'
    /\ (Z.shiftr mcause 31 = 0 -> mcause <> TRAP_CODE_I_ACCESS P ->
        neorv32_cpu_csr_read CSR_MEPC s'
        = Word32.wrap (neorv32_cpu_csr_read CSR_MEPC s_h
                       + resume_step P (neorv32_cpu_csr_read CSR_MTINST s_h)))
    /\ (Z.shiftr mcause 31 <> 0 \/ mcause = TRAP_CODE_I_ACCESS P ->
        neorv32_cpu_csr_read CSR_MEPC s'
        = neorv32_cpu_csr_read CSR_MEPC s_h)
    /\ (handler_base = 0 ->
        neorv32_cpu_csr_read CSR_MEPC s_h = neorv32_cpu_csr_read CSR_MEPC s
        /\ neorv32_cpu_csr_read CSR_MTINST s_h
           = neorv32_cpu_csr_read CSR_MTINST s)
    /\ neorv32_cpu_csr_read CSR_MEPC s1 = neorv32_cpu_csr_read CSR_MEPC s
    /\ neorv32_cpu_csr_read CSR_MTINST s1 = neorv32_cpu_csr_read CSR_MTINST s
    /\ (neorv32_cpu_csr_read CSR_MEPC s_h = neorv32_cpu_csr_read CSR_MEPC s1 ->
        (Z.shiftr mcause 31 = 0 -> mcause <> TRAP_CODE_I_ACCESS P ->
         neorv32_cpu_csr_read CSR_MEPC s'
         = Word32.wrap
             (neorv32_cpu_csr_read CSR_MEPC s
              + resume_step P (neorv32_cpu_csr_read CSR_MTINST s_h)))
        /\ (Z.shiftr mcause 31 <> 0 \/ mcause = TRAP_CODE_I_ACCESS P ->
            neorv32_cpu_csr_read CSR_MEPC s'
            = neorv32_cpu_csr_read CSR_MEPC s)).
Proof.
  apply (rte_core_resume_address neorv32_rv32ic redirecting_handlers
           illegal_instruction_trap
           (neorv32_cpu_csr_write CSR_MEPC 0x100
              (rte_core_save neorv32_rv32ic illegal_instruction_trap))).
  assert (E : rte_core_lookup neorv32_rv32ic
                (neorv32_cpu_csr_read CSR_MCAUSE illegal_instruction_trap)
                (rte_core_save neorv32_rv32ic illegal_instruction_trap)
              = 0x2000)
    by (vm_compute; reflexivity).
  rewrite E. reflexivity.
Defined.

(** C1 as stated fails: an illegal instruction at 0x40 whose installed
    handler writes 0x100 to [mepc]; after dispatch the resume address is
    0x104, not 0x44. *)
Lemma rte_core_handler_moves_resume_address :
  neorv32_cpu_csr_read CSR_MCAUSE illegal_instruction_trap
  = TRAP_CODE_I_ILLEGAL neorv32_rv32ic
  /\ Z.shiftr (neorv32_cpu_csr_read CSR_MCAUSE illegal_instruction_trap) 31
     = 0
  /\ neorv32_cpu_csr_read CSR_MCAUSE illegal_instruction_trap
     <> TRAP_CODE_I_ACCESS neorv32_rv32ic
  /\ neorv32_cpu_csr_read CSR_MEPC illegal_instruction_trap = 0x40
  /\ Z.land (neorv32_cpu_csr_read CSR_MTINST illegal_instruction_trap) 3 = 3
  /\ returned_mepc
       (neorv32_rte_core neorv32_rv32ic redirecting_handlers
          illegal_instruction_trap)
     = Some 0x104
  /\ returned_mepc
       (neorv32_rte_core neorv32_rv32ic redirecting_handlers
          illegal_instruction_trap)
     <> Some (Word32.wrap
                (neorv32_cpu_csr_read CSR_MEPC illegal_instruction_trap + 4)).
Proof.
  split; [ vm_compute; reflexivity | ].
  split; [ vm_compute; reflexivity | ].
  split; [ vm_compute; discriminate | ].
  split; [ vm_compute; reflexivity | ].
  split; [ vm_compute; reflexivity | ].
  split; [ vm_compute; reflexivity | vm_compute; discriminate ].
Qed.

(** ** The trap frame *)

Lemma existsb_eqb_notin j l : ~ In j l -> existsb (Z.eqb j) l = false.
Proof.
  intros H. destruct (existsb (Z.eqb j) l) eqn:E; [ | reflexivity ].
  apply existsb_exists in E. destruct E as (k & Hk & Ek).
  apply Z.eqb_eq in Ek. subst k. contradiction.
Qed.

Lemma get_xreg_in_range s r :
  xregs_in_range s -> Word32.in_range (get_xreg r s).
Proof.
  intros H. unfold get_xreg. destruct (r =? 0); [ | apply H ].
  unfold Word32.in_range. lia.
Qed.

Section Frame.

Context (P : platform).

(** The unrolled [sw]/[lw] runs cover the registers from x3 up. *)
Lemma upper_xregs_indices : upper_xregs P = loop_indices 3 (num_xregs P).
Proof. unfold upper_xregs, num_xregs. destruct (riscv_32e P); reflexivity. Qed.

Lemma num_xregs_cases : num_xregs P = 16 \/ num_xregs P = 32.
Proof. unfold num_xregs. destruct (riscv_32e P); auto. Qed.

Lemma upper_xregs_In r : In r (upper_xregs P) <-> 3 <= r < num_xregs P.
Proof.
  rewrite upper_xregs_indices. unfold loop_indices. split.
  - apply for_indices_bounds.
  - intros H. apply for_indices_complete; [ | exact H ].
    destruct num_xregs_cases as [-> | ->]; simpl; lia.
Qed.

(** Frame cells of distinct registers are disjoint words. *)
Lemma frame_cells_apart fp k r :
  0 <= k < 32 -> 0 <= r < 32 -> r <> k ->
  Memory.apart (Word32.add fp (k * 4)) (Word32.add fp (r * 4)).
Proof.
  intros Hk Hr Hne. unfold Word32.add. apply MemoryFacts.apart_offsets. lia.
Qed.

(** One [sw rs, k*4(sp)], seen from the frame cell of register [r]. *)
Lemma asm_sw_load rs k r s :
  0 <= k < 32 -> 0 <= r < 32 -> Word32.in_range (get_xreg rs s) ->
  Memory.load_word (mem (asm_sw rs (k * 4) s))
    (Word32.add (get_xreg 2 s) (r * 4))
  = if r =? k then get_xreg rs s
    else Memory.load_word (mem s) (Word32.add (get_xreg 2 s) (r * 4)).
Proof.
  intros Hk Hr Hv. unfold asm_sw. cbn [mem set_mem].
  destruct (Z.eqb_spec r k) as [-> | Hne].
  - apply MemoryFacts.load_store_same, Hv.
  - apply MemoryFacts.load_store_other, frame_cells_apart; assumption.
Qed.

Lemma asm_sw_xregs rs off s : xregs (asm_sw rs off s) = xregs s.
Proof. reflexivity. Qed.

(** The run of stores [sw xr, r*4(sp)] over a list of registers. *)
Lemma asm_sw_fold_load l :
  forall s r,
    xregs_in_range s ->
    (forall j, In j l -> 0 <= j < 32) -> 0 <= r < 32 ->
    let s' := fold_left (fun s r => asm_sw r (r * 4) s) l s in
    xregs s' = xregs s
    /\ Memory.load_word (mem s') (Word32.add (get_xreg 2 s) (r * 4))
       = if existsb (Z.eqb r) l then get_xreg r s
         else Memory.load_word (mem s) (Word32.add (get_xreg 2 s) (r * 4)).
Proof.
  induction l as [ | j l IH]; intros s r Hs Hl Hr; cbn [fold_left existsb].
  - split; reflexivity.
  - destruct (IH (asm_sw j (j * 4) s) r) as (X & L); auto.
    { intros k Hk. apply Hl. right. exact Hk. }
    split; [ exact X | ].
    change (get_xreg 2 (asm_sw j (j * 4) s)) with (get_xreg 2 s) in L.
    change (get_xreg r (asm_sw j (j * 4) s)) with (get_xreg r s) in L.
    rewrite L, asm_sw_load; auto.
    + destruct (Z.eqb_spec r j) as [-> | _]; cbn [orb].
      * destruct (existsb (Z.eqb j) l); reflexivity.
      * reflexivity.
    + apply Hl. left. reflexivity.
    + apply get_xreg_in_range, Hs.
Qed.

(** The run of loads [lw xr, r*4(sp)] over registers other than x0 and
    the stack pointer. *)
Lemma asm_lw_fold_xregs l :
  forall s,
    ~ In 0 l -> ~ In 2 l ->
    let s' := fold_left (fun s r => asm_lw r (r * 4) s) l s in
    mem s' = mem s
    /\ forall r,
         xregs s' r
         = if existsb (Z.eqb r) l
           then Memory.load_word (mem s) (Word32.add (get_xreg 2 s) (r * 4))
           else xregs s r.
Proof.
  induction l as [ | j l IH]; intros s H0 H2; cbn [fold_left existsb].
  - split; reflexivity.
  - assert (J0 : j <> 0) by (intros ->; apply H0; left; reflexivity).
    assert (J2 : j <> 2) by (intros ->; apply H2; left; reflexivity).
    destruct (IH (asm_lw j (j * 4) s)) as (M & X).
    { intros H. apply H0. right. exact H. }
    { intros H. apply H2. right. exact H. }
    assert (St : asm_lw j (j * 4) s
                 = set_xregs
                     (fun r' => if r' =? j
                                then Memory.load_word (mem s)
                                       (Word32.add (get_xreg 2 s) (j * 4))
                                else xregs s r') s).
    { unfold asm_lw, set_xreg.
      destruct (Z.eqb_spec j 0); [ contradiction | reflexivity ]. }
    assert (Sp : get_xreg 2 (asm_lw j (j * 4) s) = get_xreg 2 s).
    { rewrite St. unfold get_xreg. change (2 =? 0) with false.
      cbn [xregs set_xregs].
      destruct (Z.eqb_spec 2 j); [ congruence | reflexivity ]. }
    split.
    + rewrite M, St. reflexivity.
    + intros r. rewrite X, Sp. rewrite St. cbn [mem xregs set_xregs].
      destruct (Z.eqb_spec r j) as [-> | _]; cbn [orb].
      * destruct (existsb (Z.eqb j) l); reflexivity.
      * reflexivity.
Qed.

End Frame.

Section TrapFrame.

Context (P : platform).

Lemma frame_base_in_range s : Word32.in_range (frame_base P s).
Proof. apply Word32Facts.wrap_range. Qed.

(** What [neorv32_rte_core] has built when it reaches its C code: the
    stack pointer and [mscratch] hold the frame base, word [r] of the
    frame holds register [r] of the interrupted program (word 2 its
    stack pointer, word 0 zero), and no register other than x1 and the
    stack pointer has changed. *)
Lemma rte_core_save_frame s :
  xregs_in_range s ->
  let s1 := rte_core_save P s in
  let fp := frame_base P s in
  get_xreg 2 s1 = fp
  /\ neorv32_cpu_csr_read CSR_MSCRATCH s1 = fp
  /\ (forall r, 0 <= r < num_xregs P ->
        Memory.load_word (mem s1) (Word32.add fp (r * 4)) = get_xreg r s)
  /\ (forall r, r <> 1 -> r <> 2 -> xregs s1 r = xregs s r).
Proof.
  intros Hs s1 fp. subst s1. unfold rte_core_save.
  set (sa := asm_csrw CSR_MSCRATCH 2 s).
  set (sb := asm_addi 2 2 (- (num_xregs P * 4)) sa).
  set (sc := asm_sw 0 (0 * 4) sb).
  set (sd := asm_sw 1 (1 * 4) sc).
  set (se := asm_csrrw 1 CSR_MSCRATCH 2 sd).
  set (sf := asm_sw 1 (2 * 4) se).
  assert (Rb : xregs_in_range sb).
  { intros r. change (xregs sb r) with (if r =? 2 then fp else xregs s r).
    destruct (r =? 2); [ apply frame_base_in_range | apply Hs ]. }
  assert (Re : xregs_in_range se).
  { intros r.
    change (xregs se r)
      with (if r =? 1 then get_xreg 2 s else xregs sb r).
    destruct (r =? 1); [ apply get_xreg_in_range, Hs | apply Rb ]. }
  assert (N : 0 <= num_xregs P <= 32)
    by (destruct (num_xregs_cases P) as [-> | ->]; lia).
  destruct (asm_sw_fold_load (upper_xregs P) sf 0 Re) as (Xg & _);
    [ intros j Hj; apply upper_xregs_In in Hj; lia | lia | ].
  split; [ | split; [ | split ] ].
  - unfold get_xreg. rewrite Xg. reflexivity.
  - unfold neorv32_cpu_csr_read. rewrite asm_sw_fold_csrs. reflexivity.
  - intros r Hr.
    destruct (asm_sw_fold_load (upper_xregs P) sf r Re) as (_ & Lg);
      [ intros j Hj; apply upper_xregs_In in Hj; lia | lia | ].
    change (get_xreg 2 sf) with fp in Lg. rewrite Lg. clear Lg.
    destruct (Z_lt_le_dec r 3) as [Hlow | Hup].
    + rewrite existsb_eqb_notin
        by (intros Hj; apply upper_xregs_In in Hj; lia).
      pose proof (asm_sw_load 1 2 r se) as Lf.
      change (get_xreg 2 se) with fp in Lf. fold sf in Lf.
      rewrite Lf by (try lia; apply get_xreg_in_range, Re). clear Lf.
      pose proof (asm_sw_load 1 1 r sc) as Ld.
      change (get_xreg 2 sc) with fp in Ld. fold sd in Ld.
      change (mem se) with (mem sd). 
      rewrite Ld by (try lia; apply get_xreg_in_range, Rb). clear Ld.
      pose proof (asm_sw_load 0 0 r sb) as Lc.
      change (get_xreg 2 sb) with fp in Lc. fold sc in Lc.
      rewrite Lc by (try lia; apply get_xreg_in_range, Rb). clear Lc.
      assert (C : r = 0 \/ r = 1 \/ r = 2) by lia.
      destruct C as [-> | [-> | ->]]; reflexivity.
    + rewrite existsb_eqb_In by (apply upper_xregs_In; lia).
      unfold get_xreg.
      destruct (Z.eqb_spec r 0); [ lia | ].
      change (xregs sf r)
        with (if r =? 1 then get_xreg 2 s
              else if r =? 2 then fp else xregs s r).
      destruct (Z.eqb_spec r 1); [ lia | ].
      destruct (Z.eqb_spec r 2); [ lia | reflexivity ].
  - intros r H1 H2. rewrite Xg.
    change (xregs sf r)
      with (if r =? 1 then get_xreg 2 s
            else if r =? 2 then fp else xregs s r).
    destruct (Z.eqb_spec r 1); [ contradiction | ].
    destruct (Z.eqb_spec r 2); [ contradiction | reflexivity ].
Qed.

(** What the restore block does to a machine whose stack pointer is at
    a frame: every register from x1 up is loaded from its word of the
    frame, and execution continues at the resume address. *)
Lemma rte_core_restore_frame t :
  let t' := rte_core_restore P t in
  let fp := get_xreg 2 t in
  (forall r, 1 <= r < num_xregs P ->
     xregs t' r = Memory.load_word (mem t) (Word32.add fp (r * 4)))
  /\ (forall r, r < 1 \/ num_xregs P <= r -> xregs t' r = xregs t r)
  /\ pc t' = neorv32_cpu_csr_read CSR_MEPC t
  /\ mem t' = mem t.
Proof.
  intros t' fp. subst t'. unfold rte_core_restore.
  set (ta := asm_lw 1 (1 * 4) t).
  pose proof (num_xregs_cases P) as N.
  destruct (asm_lw_fold_xregs (upper_xregs P) ta) as (Mb & Xb).
  { intros H. apply upper_xregs_In in H. lia. }
  { intros H. apply upper_xregs_In in H. lia. }
  set (tb := fold_left (fun s r => asm_lw r (r * 4) s) (upper_xregs P) ta)
    in *.
  change (get_xreg 2 ta) with fp in Xb. change (mem ta) with (mem t) in *.
  assert (Sb : get_xreg 2 tb = fp).
  { unfold get_xreg at 1. change (2 =? 0) with false. cbv iota.
    rewrite Xb, existsb_eqb_notin
      by (intros H; apply upper_xregs_In in H; lia).
    reflexivity. }
  assert (Xc : forall r,
             xregs (asm_lw 2 (2 * 4) tb) r
             = if r =? 2
               then Memory.load_word (mem t) (Word32.add fp (2 * 4))
               else xregs tb r).
  { intros r. unfold asm_lw. rewrite Sb, Mb. reflexivity. }
  split; [ | split; [ | split ] ].
  - intros r Hr. unfold asm_mret.
    cbn [xregs set_pc neorv32_cpu_csr_write set_csrs]. rewrite Xc.
    destruct (Z.eqb_spec r 2) as [-> | H2]; [ reflexivity | ].
    rewrite Xb.
    destruct (Z.eq_dec r 1) as [-> | H1].
    + rewrite existsb_eqb_notin
        by (intros H; apply upper_xregs_In in H; lia).
      reflexivity.
    + rewrite existsb_eqb_In by (apply upper_xregs_In; lia). reflexivity.
  - intros r Hr. unfold asm_mret.
    cbn [xregs set_pc neorv32_cpu_csr_write set_csrs]. rewrite Xc.
    destruct (Z.eqb_spec r 2) as [-> | H2]; [ lia | ].
    rewrite Xb, existsb_eqb_notin
      by (intros H; apply upper_xregs_In in H; lia).
    change (xregs ta r)
      with (if r =? 1 then Memory.load_word (mem t) (Word32.add fp (1 * 4))
            else xregs t r).
    destruct (Z.eqb_spec r 1); [ lia | reflexivity ].
  - unfold asm_mret. cbn [pc set_pc].
    unfold neorv32_cpu_csr_read. unfold asm_lw at 1. rewrite set_xreg_csrs.
    subst tb. rewrite asm_lw_fold_csrs. reflexivity.
  - unfold asm_mret. cbn [mem set_pc neorv32_cpu_csr_write set_csrs].
    unfold asm_lw at 1.
    change (mem (set_xreg 2 ?v tb)) with (mem tb). exact Mb.
Qed.

End TrapFrame.

(** ** The trap frame, end to end *)

Lemma rte_core_fixup_xregs_mem (P : platform) mcause s :
  xregs (rte_core_fixup P mcause s) = xregs s
  /\ mem (rte_core_fixup P mcause s) = mem s.
Proof.
  unfold rte_core_fixup.
  destruct ((Z.shiftr mcause 31 =? 0)
            && negb (mcause =? TRAP_CODE_I_ACCESS P));
    split; reflexivity.
Qed.

(** When the second-level handler (if any) returns with the registers
    and the memory as the first-level handler passed them, the
    interrupted program gets all its registers back and continues at the
    resume address left in [mepc]. *)
Lemma rte_core_restores_registers (P : platform)
  (handlers : Z -> state -> outcome) (s s_h : state) :
  xregs_in_range s ->
  let s1 := rte_core_save P s in
  let mcause := neorv32_cpu_csr_read CSR_MCAUSE s in
  let handler_base := rte_core_lookup P mcause s1 in
  (if handler_base =? 0 then Returned s1 else handlers handler_base s1)
  = Returned s_h ->
  xregs s_h = xregs s1 ->
  mem s_h = mem s1 ->
  let s' := rte_core_restore P (rte_core_fixup P mcause s_h) in
  neorv32_rte_core P handlers s = Returned s'
  /\ (forall r, get_xreg r s' = get_xreg r s)
  /\ pc s' = neorv32_cpu_csr_read CSR_MEPC s'.
Proof.
  intros Hs s1 mcause handler_base Hh Hx Hm s'. subst s'.
  rewrite rte_core_phases. fold s1 mcause handler_base. rewrite Hh.
  split; [ reflexivity | ]. split; [ | reflexivity ].
  destruct (rte_core_save_frame P s Hs) as (Sp & _ & Fr & Ot).
  fold s1 in Sp, Fr, Ot.
  destruct (rte_core_fixup_xregs_mem P mcause s_h) as (Xf & Mf).
  destruct (rte_core_restore_frame P (rte_core_fixup P mcause s_h))
    as (Xr & Xo & _ & _).
  assert (Sf : get_xreg 2 (rte_core_fixup P mcause s_h) = frame_base P s).
  { unfold get_xreg. rewrite Xf, Hx. exact Sp. }
  rewrite Sf, Mf, Hm in Xr.
  pose proof (num_xregs_cases P) as N.
  intros r. unfold get_xreg.
  destruct (Z.eqb_spec r 0) as [-> | R0]; [ reflexivity | ].
  destruct (Z_lt_le_dec r 1) as [Hlt | Hge].
  - rewrite Xo, Xf, Hx by lia. apply Ot; lia.
  - destruct (Z_lt_le_dec r (num_xregs P)) as [Hin | Hout].
    + rewrite Xr, Fr by lia. unfold get_xreg.
      destruct (Z.eqb_spec r 0); [ contradiction | reflexivity ].
    + rewrite Xo, Xf, Hx by lia. apply Ot; lia.
Qed.

(** With a null slot the interrupted program gets all its registers
    back, and continues at the resume address left in [mepc]. *)
Theorem rte_core_null_handler_registers (P : platform)
  (handlers : Z -> state -> outcome) (s : state) :
  xregs_in_range s ->
  rte_core_lookup P (neorv32_cpu_csr_read CSR_MCAUSE s) (rte_core_save P s)
  = 0 ->
  exists s',
    neorv32_rte_core P handlers s = Returned s'
    /\ (forall r, get_xreg r s' = get_xreg r s)
    /\ pc s' = neorv32_cpu_csr_read CSR_MEPC s'.
Proof.
  intros Hs H0. eexists.
  apply (rte_core_restores_registers P handlers s (rte_core_save P s) Hs);
    try reflexivity.
  rewrite H0. reflexivity.
Qed.

(** Inside a second-level handler, [neorv32_rte_context_get] reads the
    registers of the interrupted program. *)
Theorem context_get_reads_saved_register (P : platform) (x : Z) (s : state) :
  xregs_in_range s ->
  0 <= x < num_xregs P ->
  neorv32_rte_context_get P x (rte_core_save P s) = get_xreg x s.
Proof.
  intros Hs Hx.
  destruct (rte_core_save_frame P s Hs) as (_ & Ms & Fr & _).
  unfold neorv32_rte_context_get, neorv32_cpu_load_unsigned_word.
  rewrite context_cell_valid by exact Hx. rewrite Ms.
  rewrite <- (Fr x Hx). unfold Word32.add. do 2 f_equal. lia.
Qed.

(** A word a second-level handler puts into the frame with
    [neorv32_rte_context_put] is in that register of the interrupted
    program when it resumes. *)
Theorem context_put_reaches_register (P : platform) (x v : Z) (s : state) :
  xregs_in_range s ->
  1 <= x < num_xregs P ->
  Word32.in_range v ->
  xregs (rte_core_restore P
           (neorv32_rte_context_put P x v (rte_core_save P s))) x = v.
Proof.
  intros Hs Hx Hv.
  destruct (rte_core_save_frame P s Hs) as (Sp & Ms & _ & _).
  destruct (rte_core_restore_frame P
              (neorv32_rte_context_put P x v (rte_core_save P s)))
    as (Xr & _).
  rewrite Xr by exact Hx.
  change (get_xreg 2 (neorv32_rte_context_put P x v (rte_core_save P s)))
    with (get_xreg 2 (rte_core_save P s)).
  rewrite Sp.
  unfold neorv32_rte_context_put, neorv32_cpu_store_unsigned_word.
  cbn [mem set_mem].
  rewrite context_cell_valid by lia. rewrite Ms.
  replace (Word32.add (frame_base P s) (x * 4))
    with (Word32.wrap (frame_base P s + 4 * x))
    by (unfold Word32.add; f_equal; lia).
  apply MemoryFacts.load_store_same, Hv.
Qed.

(** ** Install, then trap *)

Section Dispatch.

Context (P : platform).

Lemma asm_sw_fold_other l a :
  forall s,
    (forall j, In j l ->
       Memory.apart (Word32.add (get_xreg 2 s) (j * 4)) a) ->
    Memory.load_word
      (mem (fold_left (fun s r => asm_sw r (r * 4) s) l s)) a
    = Memory.load_word (mem s) a.
Proof.
  induction l as [ | j l IH]; intros s Hl; cbn [fold_left].
  - reflexivity.
  - rewrite IH.
    + unfold asm_sw. cbn [mem set_mem].
      apply MemoryFacts.load_store_other, Hl. left. reflexivity.
    + intros k Hk. apply Hl. right. exact Hk.
Qed.

(** Saving the context writes the frame and no other word. *)
Lemma rte_core_save_other s a :
  (forall r, 0 <= r < num_xregs P ->
     Memory.apart (Word32.add (frame_base P s) (r * 4)) a) ->
  Memory.load_word (mem (rte_core_save P s)) a = Memory.load_word (mem s) a.
Proof.
  intros Ha. pose proof (num_xregs_cases P) as N. unfold rte_core_save.
  set (sa := asm_csrw CSR_MSCRATCH 2 s).
  set (sb := asm_addi 2 2 (- (num_xregs P * 4)) sa).
  set (sc := asm_sw 0 (0 * 4) sb).
  set (sd := asm_sw 1 (1 * 4) sc).
  set (se := asm_csrrw 1 CSR_MSCRATCH 2 sd).
  set (sf := asm_sw 1 (2 * 4) se).
  rewrite asm_sw_fold_other.
  - change (mem sf)
      with (Memory.store_word (mem sd)
              (Word32.add (frame_base P s) (2 * 4)) (get_xreg 1 se)).
    rewrite MemoryFacts.load_store_other by (apply Ha; lia).
    change (mem sd)
      with (Memory.store_word (mem sc)
              (Word32.add (frame_base P s) (1 * 4)) (get_xreg 1 sc)).
    rewrite MemoryFacts.load_store_other by (apply Ha; lia).
    change (mem sc)
      with (Memory.store_word (mem s)
              (Word32.add (frame_base P s) (0 * 4)) (get_xreg 0 sb)).
    rewrite MemoryFacts.load_store_other by (apply Ha; lia).
    reflexivity.
  - intros j Hj. apply upper_xregs_In in Hj.
    change (get_xreg 2 sf) with (frame_base P s). apply Ha. lia.
Qed.

(** A trap whose cause is the identifier a handler was installed for
    runs that handler, then the fix-up and the restore, provided the
    trap frame does not lie on the table slot. *)
Theorem rte_core_calls_installed_handler
  (handlers : Z -> state -> outcome) (code handler : Z) (s : state) :
  Word32.in_range code ->
  valid_trap_code code ->
  Word32.in_range handler ->
  handler <> 0 ->
  neorv32_cpu_csr_read CSR_MCAUSE s = code ->
  (forall r, 0 <= r < num_xregs P ->
     Memory.apart (Word32.add (frame_base P s) (r * 4))
       (vector_lut_cell P (Z.shiftr code 31) (Z.land code 31))) ->
  let s' := snd (neorv32_rte_handler_install P code handler s) in
  neorv32_rte_core P handlers s'
  = match handlers handler (rte_core_save P s') with
    | Returned s_h =>
        Returned (rte_core_restore P (rte_core_fixup P code s_h))
    | Spinning s_h => Spinning s_h
    end.
Proof.
  intros Hr Hv Hh Hn Hc Ha s'. subst s'.
  rewrite (install_valid_state P code handler s Hr Hv). cbn [snd].
  set (s' := vector_lut_set P (Z.shiftr code 31) (Z.land code 31) handler s).
  assert (Ec : neorv32_cpu_csr_read CSR_MCAUSE s' = code) by exact Hc.
  assert (Ef : frame_base P s' = frame_base P s) by reflexivity.
  rewrite rte_core_phases, Ec.
  assert (El : rte_core_lookup P code (rte_core_save P s') = handler).
  { unfold rte_core_lookup, vector_lut_get.
    rewrite rte_core_save_other by (rewrite Ef; exact Ha).
    apply vector_lut_get_set_same, Hh. }
  rewrite El.
  destruct (Z.eqb_spec handler 0); [ contradiction | reflexivity ].
Qed.

End Dispatch.

(** ** An unhandled, recoverable exception *)

(** On an exception it does not halt on, the debug handler returns and
    has changed nothing but the UART log. *)
Lemma debug_handler_recoverable (P : platform) fuel s :
  0 <= neorv32_cpu_csr_read CSR_MCAUSE s < 2 ^ 31 ->
  is_fatal P (neorv32_cpu_csr_read CSR_MCAUSE s) = false ->
  exists s',
    neorv32_rte_debug_handler P fuel s = Returned s' /\ same_machine s s'.
Proof.
  intros Hc Hf. destruct (uart0_present s) eqn:Hu.
  - destruct (debug_handler_present P fuel s Hu) as (s_p & Hs & ->).
    unfold debug_halt_or_return. rewrite Hf.
    eexists. split; [ reflexivity | ].
    eapply same_machine_trans; [ | apply puts_same ].
    unfold debug_disable_irq, Word32.signed.
    destruct (Z.ltb_spec (neorv32_cpu_csr_read CSR_MCAUSE s) (2 ^ 31));
      [ | lia ].
    destruct (Z.ltb_spec (neorv32_cpu_csr_read CSR_MCAUSE s) 0); [ lia | ].
    exact Hs.
  - exists s. split; [ | apply same_machine_refl ].
    apply debug_handler_absent. exact Hu.
Qed.

(** End to end: a trap on an exception the debug handler does not halt
    on, with the debug handler in the slot.  The first-level handler
    returns; the interrupted program has all its registers back and
    resumes behind the trapped instruction. *)
Theorem rte_core_debug_handler_resumes (P : platform)
  (handlers : Z -> state -> outcome) (fuel : nat) (s : state) :
  xregs_in_range s ->
  let mcause := neorv32_cpu_csr_read CSR_MCAUSE s in
  0 <= mcause < 2 ^ 31 ->
  is_fatal P mcause = false ->
  rte_core_lookup P mcause (rte_core_save P s) = debug_handler_addr P ->
  debug_handler_addr P <> 0 ->
  handlers (debug_handler_addr P) = neorv32_rte_debug_handler P fuel ->
  exists s',
    neorv32_rte_core P handlers s = Returned s'
    /\ (forall r, get_xreg r s' = get_xreg r s)
    /\ pc s' = neorv32_cpu_csr_read CSR_MEPC s'
    /\ neorv32_cpu_csr_read CSR_MEPC s'
       = Word32.wrap (neorv32_cpu_csr_read CSR_MEPC s
                      + resume_step P (neorv32_cpu_csr_read CSR_MTINST s)).
Proof.
  intros Hs mcause Hc Hf Hl Hn Hh.
  set (s1 := rte_core_save P s).
  assert (Ec : neorv32_cpu_csr_read CSR_MCAUSE s1 = mcause)
    by (apply rte_core_save_csrs; discriminate).
  destruct (debug_handler_recoverable P fuel s1) as (s_h & Hd & Hsame).
  { rewrite Ec. exact Hc. }
  { rewrite Ec. exact Hf. }
  destruct Hsame as (Hx & _ & Hcs & Hm & _).
  assert (Hret : (if rte_core_lookup P mcause s1 =? 0 then Returned s1
                  else handlers (rte_core_lookup P mcause s1) s1)
                 = Returned s_h).
  { fold s1 in Hl. rewrite Hl.
    destruct (Z.eqb_spec (debug_handler_addr P) 0); [ contradiction | ].
    rewrite Hh. exact Hd. }
  destruct (rte_core_restores_registers P handlers s s_h Hs Hret Hx Hm)
    as (E & Hr & Hpc).
  eexists. split; [ exact E | ]. split; [ exact Hr | ].
  split; [ exact Hpc | ].
  rewrite rte_core_restore_csrs by discriminate. subst mcause.
  destruct (rte_core_fixup_mepc P (neorv32_cpu_csr_read CSR_MCAUSE s) s_h)
    as (Hex & _).
  rewrite Hex.
  - unfold neorv32_cpu_csr_read. rewrite Hcs.
    change (csrs s1 CSR_MEPC) with (neorv32_cpu_csr_read CSR_MEPC s1).
    change (csrs s1 CSR_MTINST) with (neorv32_cpu_csr_read CSR_MTINST s1).
    subst s1. rewrite !rte_core_save_csrs by discriminate. reflexivity.
  - apply Z.shiftr_eq_0_iff.
    destruct (Z.eq_dec (neorv32_cpu_csr_read CSR_MCAUSE s) 0) as [-> | Hnz];
      [ left; reflexivity | ].
    right. split; [ lia | ]. apply Z.log2_lt_pow2; lia.
  - intros Hacc. unfold is_fatal in Hf.
    rewrite Hacc, Z.eqb_refl in Hf. discriminate.
Qed.

(** ** The model at work *)

(** The report of the debug handler for an illegal instruction at 0x40. *)
Example debug_handler_report :
  match neorv32_rte_debug_handler neorv32_rv32ic 1
          (neorv32_cpu_csr_write CSR_MCAUSE 0x00000002
             (neorv32_cpu_csr_write CSR_MEPC 0x40
                (neorv32_cpu_csr_write CSR_MTINST 0x0000007f
                   (reset_state true)))) with
  | Returned s => Some (string_of_list_ascii (uart0_tx s))
  | Spinning _ => None
  end
  = Some ("<NEORV32-RTE> [cpu0|U] Illegal instruction @ PC=0x00000040, "
          ++ "MTINST=0x0000007F, MTVAL=0x00000000 </NEORV32-RTE>"
          ++ newline)%string.
Proof. vm_compute. reflexivity. Qed.

(** Asked for eight digits the printer does what its comment says. *)
Example print_hex_eight_digits :
  print_hex_shifts 8 = [28; 24; 20; 16; 12; 8; 4; 0]
  /\ string_of_list_ascii
       (uart0_tx (neorv32_rte_print_hex 0x89abcdef 8 (reset_state true)))
     = "0x89ABCDEF"%string.
Proof. split; vm_compute; reflexivity. Qed.

(** The timer interrupt and the store access fault have the index 7 in
    common and different slots. *)
Example install_timer_handler :
  let s := snd (neorv32_rte_handler_install neorv32_rv32ic 0x80000007 0x3000
                  (neorv32_rte_setup neorv32_rv32ic (reset_state true))) in
  rte_core_lookup neorv32_rv32ic 0x80000007 s = 0x3000
  /\ rte_core_lookup neorv32_rv32ic 0x00000007 s
     = debug_handler_addr neorv32_rv32ic.
Proof. split; vm_compute; reflexivity. Qed.

(** * Further properties *)

(** ** The machines of the examples *)

Lemma example_xregs_in_range r : Word32.in_range (example_xregs r).
Proof.
  unfold example_xregs, Word32.in_range. change (2 ^ 32) with 4294967296.
  destruct (r =? 2); [ lia | ].
  destruct (Z.leb_spec 0 r); destruct (Z.ltb_spec r 32); cbn [andb]; lia.
Qed.

Lemma setup_fold_xregs (P : platform) l :
  forall s,
    xregs (fold_left (fun a j => setup_install_debug P j a) l s) = xregs s.
Proof.
  induction l as [ | j l IH]; intros s; cbn [fold_left]; [ reflexivity | ].
  rewrite IH. reflexivity.
Qed.

(** Setup touches no general-purpose register. *)
Lemma setup_xregs (P : platform) s :
  xregs (neorv32_rte_setup P s) = xregs s.
Proof.
  rewrite setup_state. cbv zeta.
  destruct (_ =? 0); [ | reflexivity ].
  rewrite setup_fold_xregs. reflexivity.
Qed.

Lemma csr_write_xregs c v s : xregs (neorv32_cpu_csr_write c v s) = xregs s.
Proof. reflexivity. Qed.

Lemma trapped_state_xregs cause uart :
  xregs (trapped_state cause uart) = example_xregs.
Proof.
  unfold trapped_state. rewrite !csr_write_xregs, setup_xregs.
  reflexivity.
Qed.

Lemma trapped_state_in_range cause uart :
  xregs_in_range (trapped_state cause uart).
Proof.
  intros r. rewrite trapped_state_xregs. apply example_xregs_in_range.
Qed.

(** The frame of the example machines lies at 0x8000ff80, the vector
    table at 0x80001000. *)
Lemma trapped_state_frame_base cause uart :
  frame_base neorv32_rv32ic (trapped_state cause uart) = 0x8000ff80.
Proof.
  unfold frame_base, get_xreg. rewrite trapped_state_xregs. reflexivity.
Qed.

Lemma example_table_outside_frame cause uart d i :
  0 <= d < 2 -> 0 <= i < 32 ->
  outside_frame neorv32_rv32ic (trapped_state cause uart)
    (vector_lut_cell neorv32_rv32ic d i).
Proof.
  intros Hd Hi r Hr. rewrite trapped_state_frame_base.
  unfold num_xregs in Hr. cbn in Hr.
  unfold Memory.apart, vector_lut_cell, Word32.add, Word32.wrap.
  cbn [vector_lut_addr neorv32_rv32ic].
  change (2 ^ 32) with 4294967296.
  Z.div_mod_to_equations. lia.
Qed.

(** ** The context accessor and the frame *)

Section Accessor.

Context (P : platform).

(** The masked register number, for any [int] argument. *)
Lemma context_mask_mod x :
  (if riscv_32e P then Z.shiftl (Z.land x 15) 2
   else Z.shiftl (Z.land x 31) 2) = 4 * (x mod num_xregs P).
Proof.
  unfold num_xregs. destruct (riscv_32e P).
  - change 15 with (Z.ones 4).
    rewrite (Z.land_ones x 4), Z.shiftl_mul_pow2 by lia.
    change (2 ^ 4) with 16. change (2 ^ 2) with 4. lia.
  - change 31 with (Z.ones 5).
    rewrite (Z.land_ones x 5), Z.shiftl_mul_pow2 by lia.
    change (2 ^ 5) with 32. change (2 ^ 2) with 4. lia.
Qed.

Lemma context_cell_mod x s :
  context_cell P x s
  = Word32.wrap (neorv32_cpu_csr_read CSR_MSCRATCH s
                 + 4 * (x mod num_xregs P)).
Proof.
  unfold context_cell, Word32.add.
  pose proof (context_mask_mod x) as E.
  destruct (riscv_32e P); rewrite E; reflexivity.
Qed.

Lemma num_xregs_pos : 0 < num_xregs P.
Proof. destruct (num_xregs_cases P) as [-> | ->]; lia. Qed.

(** The accessor cells of distinct registers are disjoint words. *)
Lemma context_cells_apart x y s :
  0 <= x < num_xregs P -> 0 <= y < num_xregs P -> x <> y ->
  Memory.apart (context_cell P x s) (context_cell P y s).
Proof.
  intros Hx Hy Hne. rewrite !context_cell_valid by assumption.
  apply MemoryFacts.apart_offsets.
  pose proof (num_xregs_cases P). lia.
Qed.

End Accessor.

(** Whatever [int] it is given, negative or beyond the register file,
    the accessor addresses a word of the frame: that of the register
    whose number is the argument modulo the size of the register file. *)
Theorem context_accessor_wraps (P : platform) (x data : Z) (s : state) :
  let r := x mod num_xregs P in
  0 <= r < num_xregs P
  /\ neorv32_rte_context_get P x s = neorv32_rte_context_get P r s
  /\ neorv32_rte_context_put P x data s = neorv32_rte_context_put P r data s
  /\ neorv32_rte_context_get P (x + num_xregs P) s
     = neorv32_rte_context_get P x s.
Proof.
  intros r. subst r. pose proof (num_xregs_pos P) as Hn.
  assert (Hr : 0 <= x mod num_xregs P < num_xregs P)
    by (apply Z.mod_pos_bound; exact Hn).
  assert (E : context_cell P x s = context_cell P (x mod num_xregs P) s).
  { rewrite !context_cell_mod. rewrite Z.mod_mod by lia. reflexivity. }
  assert (E' : context_cell P (x + num_xregs P) s = context_cell P x s).
  { rewrite !context_cell_mod. do 3 f_equal.
    rewrite <- (Z.mul_1_l (num_xregs P)) at 1.
    apply Z.mod_add. lia. }
  split; [ exact Hr | ].
  unfold neorv32_rte_context_get, neorv32_rte_context_put.
  rewrite E', E. repeat split.
Qed.

(** Writing one register of the context leaves every other register of
    the context as it was. *)
Theorem context_put_other (P : platform) (x y v : Z) (s : state) :
  0 <= x < num_xregs P ->
  0 <= y < num_xregs P ->
  x <> y ->
  neorv32_rte_context_get P y (neorv32_rte_context_put P x v s)
  = neorv32_rte_context_get P y s.
Proof.
  intros Hx Hy Hne.
  unfold neorv32_rte_context_get, neorv32_rte_context_put,
    neorv32_cpu_load_unsigned_word, neorv32_cpu_store_unsigned_word.
  cbn [mem set_mem].
  change (context_cell P y (set_mem _ s)) with (context_cell P y s).
  apply MemoryFacts.load_store_other, context_cells_apart; assumption.
Qed.

Lemma context_put_other_witness :
  neorv32_rte_context_get neorv32_rv32ic 11
    (neorv32_rte_context_put neorv32_rv32ic 10 0xdeadbeef (reset_state true))
  = neorv32_rte_context_get neorv32_rv32ic 11 (reset_state true).
Proof.
  apply (context_put_other neorv32_rv32ic 10 11 0xdeadbeef
           (reset_state true)).
  - unfold num_xregs. simpl. lia.
  - unfold num_xregs. simpl. lia.
  - lia.
Defined.

Lemma bare_trap_in_range cause : xregs_in_range (bare_trap cause).
Proof. intros r. apply example_xregs_in_range. Qed.

Lemma context_get_reads_saved_register_witness :
  neorv32_rte_context_get neorv32_rv32ic 2
    (rte_core_save neorv32_rv32ic (bare_trap 3))
  = get_xreg 2 (bare_trap 3).
Proof.
  apply (context_get_reads_saved_register neorv32_rv32ic 2 (bare_trap 3)).
  - apply bare_trap_in_range.
  - unfold num_xregs. simpl. lia.
Defined.

Lemma rte_core_null_handler_registers_witness :
  exists s',
    neorv32_rte_core neorv32_rv32ic (example_handlers 1) (bare_trap 3)
    = Returned s'
    /\ (forall r, get_xreg r s' = get_xreg r (bare_trap 3))
    /\ pc s' = neorv32_cpu_csr_read CSR_MEPC s'.
Proof.
  apply (rte_core_null_handler_registers neorv32_rv32ic (example_handlers 1)
           (bare_trap 3)).
  - apply bare_trap_in_range.
  - vm_compute. reflexivity.
Defined.

Lemma rte_core_calls_installed_handler_witness :
  let P := neorv32_rv32ic in
  let s := trapped_state 0x80000007 true in
  let s' := snd (neorv32_rte_handler_install P 0x80000007 0x3000 s) in
  neorv32_rte_core P (example_handlers 1) s'
  = match example_handlers 1 0x3000 (rte_core_save P s') with
    | Returned s_h =>
        Returned (rte_core_restore P (rte_core_fixup P 0x80000007 s_h))
    | Spinning s_h => Spinning s_h
    end.
Proof.
  apply (rte_core_calls_installed_handler neorv32_rv32ic (example_handlers 1)
           0x80000007 0x3000 (trapped_state 0x80000007 true)).
  - unfold Word32.in_range. lia.
  - apply install_mask_zero. reflexivity.
  - unfold Word32.in_range. lia.
  - lia.
  - reflexivity.
  - apply (example_table_outside_frame 0x80000007 true 1 7); lia.
Defined.

Lemma trapped_state_lookup_2 :
  rte_core_lookup neorv32_rv32ic 2
    (rte_core_save neorv32_rv32ic (trapped_state 2 true))
  = debug_handler_addr neorv32_rv32ic.
Proof. vm_compute. reflexivity. Qed.

Lemma rte_core_debug_handler_resumes_witness :
  let P := neorv32_rv32ic in
  let s := trapped_state 2 true in
  exists s',
    neorv32_rte_core P (example_handlers 1) s = Returned s'
    /\ (forall r, get_xreg r s' = get_xreg r s)
    /\ pc s' = neorv32_cpu_csr_read CSR_MEPC s'
    /\ neorv32_cpu_csr_read CSR_MEPC s'
       = Word32.wrap (neorv32_cpu_csr_read CSR_MEPC s
                      + resume_step P (neorv32_cpu_csr_read CSR_MTINST s)).
Proof.
  apply (rte_core_debug_handler_resumes neorv32_rv32ic (example_handlers 1) 1
           (trapped_state 2 true)).
  - apply trapped_state_in_range.
  - change (neorv32_cpu_csr_read CSR_MCAUSE (trapped_state 2 true)) with 2.
    lia.
  - reflexivity.
  - exact trapped_state_lookup_2.
  - discriminate.
  - reflexivity.
Defined.

(** ** What the interrupted program resumes with *)

(** The registers the interrupted program resumes with are the words
    the frame holds when the second-level handler returns, provided the
    handler returns with the stack pointer it was called with. *)
Lemma rte_core_resumes_from_frame (P : platform)
  (handlers : Z -> state -> outcome) (s s_h : state) :
  xregs_in_range s ->
  let s1 := rte_core_save P s in
  let mcause := neorv32_cpu_csr_read CSR_MCAUSE s in
  let handler_base := rte_core_lookup P mcause s1 in
  (if handler_base =? 0 then Returned s1 else handlers handler_base s1)
  = Returned s_h ->
  get_xreg 2 s_h = get_xreg 2 s1 ->
  let s' := rte_core_restore P (rte_core_fixup P mcause s_h) in
  neorv32_rte_core P handlers s = Returned s'
  /\ (forall r, 1 <= r < num_xregs P ->
        xregs s' r
        = Memory.load_word (mem s_h) (Word32.add (frame_base P s) (r * 4)))
  /\ (forall r, r < 1 \/ num_xregs P <= r -> xregs s' r = xregs s_h r)
  /\ mem s' = mem s_h.
Proof.
  intros Hs s1 mcause handler_base Hh Hsp s'. subst s'.
  rewrite rte_core_phases. fold s1 mcause handler_base. rewrite Hh.
  split; [ reflexivity | ].
  destruct (rte_core_save_frame P s Hs) as (Sp & _).
  fold s1 in Sp.
  destruct (rte_core_fixup_xregs_mem P mcause s_h) as (Xf & Mf).
  destruct (rte_core_restore_frame P (rte_core_fixup P mcause s_h))
    as (Xr & Xo & _ & Mr).
  assert (Sf : get_xreg 2 (rte_core_fixup P mcause s_h) = frame_base P s).
  { unfold get_xreg in *. rewrite Xf. rewrite Hsp. exact Sp. }
  rewrite Sf, Mf in Xr. rewrite Mf in Mr.
  split; [ exact Xr | ]. split; [ | exact Mr ].
  intros r Hr. rewrite Xo by exact Hr. rewrite Xf. reflexivity.
Qed.

(** C7: when the slot selected by the trap cause holds zero, the
    first-level handler calls no second-level handler (what it does is
    the same whatever code the handlers are) and returns: it saves the
    context, fixes the resume address up and restores the context.  For
    an exception other than the fetch fault the resume address is
    advanced by the width of the trapped instruction.  The restore loads
    every register from x1 up from its word of the trap frame, so the
    interrupted program gets every register back, the stack pointer
    included.  With a non-null slot whose handler returns, the same
    fix-up and the same restore are applied to the state the handler
    returns in: the registers are loaded from the frame as the handler
    left it. *)
Theorem rte_core_null_handler (P : platform)
  (handlers : Z -> state -> outcome) (s : state) :
  let s1 := rte_core_save P s in
  let mcause := neorv32_cpu_csr_read CSR_MCAUSE s in
  rte_core_lookup P mcause s1 = 0 ->
  let s' := rte_core_restore P (rte_core_fixup P mcause s1) in
  neorv32_rte_core P handlers s = Returned s'
  /\ (forall handlers', neorv32_rte_core P handlers' s = Returned s')
  /\ (Z.shiftr mcause 31 = 0 -> mcause <> TRAP_CODE_I_ACCESS P ->
      neorv32_cpu_csr_read CSR_MEPC s'
      = Word32.wrap (neorv32_cpu_csr_read CSR_MEPC s
                     + resume_step P (neorv32_cpu_csr_read CSR_MTINST s)))
  /\ pc s' = neorv32_cpu_csr_read CSR_MEPC s'
  /\ (forall t t_h,
        let t1 := rte_core_save P t in
        let tcause := neorv32_cpu_csr_read CSR_MCAUSE t in
        rte_core_lookup P tcause t1 <> 0 ->
        handlers (rte_core_lookup P tcause t1) t1 = Returned t_h ->
        neorv32_rte_core P handlers t
        = Returned (rte_core_restore P (rte_core_fixup P tcause t_h)))
  /\ (xregs_in_range s ->
      (forall r, get_xreg r s' = get_xreg r s)
      /\ (forall r, 1 <= r < num_xregs P ->
            xregs s' r
            = Memory.load_word (mem s1)
                (Word32.add (frame_base P s) (r * 4))))
  /\ (forall t t_h,
        let t1 := rte_core_save P t in
        let tcause := neorv32_cpu_csr_read CSR_MCAUSE t in
        rte_core_lookup P tcause t1 <> 0 ->
        handlers (rte_core_lookup P tcause t1) t1 = Returned t_h ->
        xregs_in_range t ->
        get_xreg 2 t_h = get_xreg 2 t1 ->
        forall r, 1 <= r < num_xregs P ->
          xregs (rte_core_restore P (rte_core_fixup P tcause t_h)) r
          = Memory.load_word (mem t_h)
              (Word32.add (frame_base P t) (r * 4))).
Proof.
  intros s1 mcause H0 s'.
  assert (A : forall h, neorv32_rte_core P h s = Returned s').
  { intros h. rewrite rte_core_phases. fold s1 mcause. rewrite H0.
    reflexivity. }
  assert (Hnull : forall h,
             (if rte_core_lookup P mcause s1 =? 0 then Returned s1
              else h (rte_core_lookup P mcause s1) s1) = Returned s1).
  { intros h. rewrite H0. reflexivity. }
  split; [ apply A | ]. split; [ exact A | ].
  split; [ | split; [ | split; [ | split ] ] ].
  - intros Hd Hc. subst s'. rewrite rte_core_restore_csrs by discriminate.
    destruct (rte_core_fixup_mepc P mcause s1) as (Fx & _).
    rewrite Fx by assumption. subst s1.
    rewrite !rte_core_save_csrs by discriminate. reflexivity.
  - reflexivity.
  - intros t t_h t1 tcause Hne Hh. rewrite rte_core_phases.
    fold t1 tcause.
    destruct (Z.eqb_spec (rte_core_lookup P tcause t1) 0);
      [ contradiction | ].
    rewrite Hh. reflexivity.
  - intros Hs. split.
    + apply (rte_core_restores_registers P handlers s s1 Hs (Hnull handlers)
               eq_refl eq_refl).
    + apply (rte_core_resumes_from_frame P handlers s s1 Hs (Hnull handlers)
               eq_refl).
  - intros t t_h t1 tcause Hne Hh Ht Hsp.
    assert (Hret : (if rte_core_lookup P tcause t1 =? 0 then Returned t1
                    else handlers (rte_core_lookup P tcause t1) t1)
                   = Returned t_h).
    { destruct (Z.eqb_spec (rte_core_lookup P tcause t1) 0);
        [ contradiction | exact Hh ]. }
    apply (rte_core_resumes_from_frame P handlers t t_h Ht Hret Hsp).
Qed.

(** The table all zero: a breakpoint at 0x40 with 0x100 + r in register
    r and the stack pointer at 0x80010000.  The program resumes at 0x44
    with these registers. *)
Lemma rte_core_null_handler_witness :
  let P := neorv32_rv32ic in
  let handlers := example_handlers 1 in
  let s := bare_trap 3 in
  let s1 := rte_core_save P s in
  let mcause := neorv32_cpu_csr_read CSR_MCAUSE s in
  let s' := rte_core_restore P (rte_core_fixup P mcause s1) in
  neorv32_rte_core P handlers s = Returned s'
  /\ (forall handlers', neorv32_rte_core P handlers' s = Returned s')
  /\ (Z.shiftr mcause 31 = 0 -> mcause <> TRAP_CODE_I_ACCESS P ->
      neorv32_cpu_csr_read CSR_MEPC s'
      = Word32.wrap (neorv32_cpu_csr_read CSR_MEPC s
                     + resume_step P (neorv32_cpu_csr_read CSR_MTINST s)))
  /\ pc s' = neorv32_cpu_csr_read CSR_MEPC s'
  /\ (forall t t_h,
        let t1 := rte_core_save P t in
        let tcause := neorv32_cpu_csr_read CSR_MCAUSE t in
        rte_core_lookup P tcause t1 <> 0 ->
        handlers (rte_core_lookup P tcause t1) t1 = Returned t_h ->
        neorv32_rte_core P handlers t
        = Returned (rte_core_restore P (rte_core_fixup P tcause t_h)))
  /\ (xregs_in_range s ->
      (forall r, get_xreg r s' = get_xreg r s)
      /\ (forall r, 1 <= r < num_xregs P ->
            xregs s' r
            = Memory.load_word (mem s1)
                (Word32.add (frame_base P s) (r * 4))))
  /\ (forall t t_h,
        let t1 := rte_core_save P t in
        let tcause := neorv32_cpu_csr_read CSR_MCAUSE t in
        rte_core_lookup P tcause t1 <> 0 ->
        handlers (rte_core_lookup P tcause t1) t1 = Returned t_h ->
        xregs_in_range t ->
        get_xreg 2 t_h = get_xreg 2 t1 ->
        forall r, 1 <= r < num_xregs P ->
          xregs (rte_core_restore P (rte_core_fixup P tcause t_h)) r
          = Memory.load_word (mem t_h)
              (Word32.add (frame_base P t) (r * 4))).
Proof.
  apply (rte_core_null_handler neorv32_rv32ic (example_handlers 1)
           (bare_trap 3)).
  vm_compute. reflexivity.
Defined.

(** On that machine the registers are in range, so the program gets
    them back: x10 holds 0x10a and the stack pointer 0x80010000 again,
    and the resume address is 0x44. *)
Lemma rte_core_null_handler_example :
  let s' := rte_core_restore neorv32_rv32ic
              (rte_core_fixup neorv32_rv32ic 3
                 (rte_core_save neorv32_rv32ic (bare_trap 3))) in
  neorv32_rte_core neorv32_rv32ic (example_handlers 1) (bare_trap 3)
  = Returned s'
  /\ get_xreg 10 s' = 0x10a
  /\ get_xreg 2 s' = 0x80010000
  /\ neorv32_cpu_csr_read CSR_MEPC s' = 0x44.
Proof.
  intros s'.
  assert (H0 : rte_core_lookup neorv32_rv32ic
                 (neorv32_cpu_csr_read CSR_MCAUSE (bare_trap 3))
                 (rte_core_save neorv32_rv32ic (bare_trap 3)) = 0)
    by (vm_compute; reflexivity).
  assert (Hn : (if rte_core_lookup neorv32_rv32ic
                     (neorv32_cpu_csr_read CSR_MCAUSE (bare_trap 3))
                     (rte_core_save neorv32_rv32ic (bare_trap 3)) =? 0
                then Returned (rte_core_save neorv32_rv32ic (bare_trap 3))
                else example_handlers 1
                       (rte_core_lookup neorv32_rv32ic
                          (neorv32_cpu_csr_read CSR_MCAUSE (bare_trap 3))
                          (rte_core_save neorv32_rv32ic (bare_trap 3)))
                       (rte_core_save neorv32_rv32ic (bare_trap 3)))
               = Returned (rte_core_save neorv32_rv32ic (bare_trap 3)))
    by (rewrite H0; reflexivity).
  destruct (rte_core_restores_registers neorv32_rv32ic (example_handlers 1)
              (bare_trap 3) (rte_core_save neorv32_rv32ic (bare_trap 3))
              (bare_trap_in_range 3) Hn eq_refl eq_refl) as (E & R & _).
  change (neorv32_cpu_csr_read CSR_MCAUSE (bare_trap 3)) with 3 in E, R.
  fold s' in E, R.
  split; [ exact E | ]. split; [ | split ].
  - rewrite R. reflexivity.
  - rewrite R. reflexivity.
  - subst s'. rewrite rte_core_restore_csrs by discriminate.
    destruct (rte_core_fixup_mepc neorv32_rv32ic 3
                (rte_core_save neorv32_rv32ic (bare_trap 3))) as (Fx & _).
    rewrite Fx by (vm_compute; (reflexivity || discriminate)).
    rewrite !rte_core_save_csrs by discriminate.
    vm_compute. reflexivity.
Qed.

(** A second-level handler that puts [v] into register [x] of the
    context and returns: the interrupted program resumes with [v] in
    that register (unless it is x0, which stays zero) and with every
    other register as it was. *)
Theorem rte_core_handler_puts_register (P : platform)
  (handlers : Z -> state -> outcome) (x v : Z) (s : state) :
  xregs_in_range s ->
  0 <= x < num_xregs P ->
  Word32.in_range v ->
  let s1 := rte_core_save P s in
  let handler_base :=
    rte_core_lookup P (neorv32_cpu_csr_read CSR_MCAUSE s) s1 in
  handler_base <> 0 ->
  handlers handler_base s1 = Returned (neorv32_rte_context_put P x v s1) ->
  exists s',
    neorv32_rte_core P handlers s = Returned s'
    /\ forall r,
         get_xreg r s'
         = if (r =? x) && negb (r =? 0) then v else get_xreg r s.
Proof.
  intros Hs Hx Hv s1 handler_base Hn Hh.
  set (s_h := neorv32_rte_context_put P x v s1) in *.
  assert (Hret : (if handler_base =? 0 then Returned s1
                  else handlers handler_base s1) = Returned s_h).
  { destruct (Z.eqb_spec handler_base 0); [ contradiction | exact Hh ]. }
  destruct (rte_core_resumes_from_frame P handlers s s_h Hs Hret)
    as (E & Xr & Xo & _); [ reflexivity | ].
  eexists. split; [ exact E | ].
  destruct (rte_core_save_frame P s Hs) as (_ & Ms & Fr & Ot).
  fold s1 in Ms, Fr, Ot.
  pose proof (num_xregs_cases P) as N.
  assert (Mh : mem s_h
               = Memory.store_word (mem s1)
                   (Word32.add (frame_base P s) (x * 4)) v).
  { subst s_h. unfold neorv32_rte_context_put,
      neorv32_cpu_store_unsigned_word. cbn [mem set_mem].
    rewrite context_cell_valid by exact Hx. rewrite Ms.
    unfold Word32.add. do 3 f_equal. lia. }
  intros r. unfold get_xreg at 1.
  destruct (Z.eqb_spec r 0) as [-> | R0].
  { rewrite andb_false_r. reflexivity. }
  cbn [negb]. rewrite andb_true_r.
  destruct (Z_lt_le_dec r 1) as [Hlt | Hge];
    [ | destruct (Z_lt_le_dec r (num_xregs P)) as [Hin | Hout] ].
  - rewrite Xo by lia.
    destruct (Z.eqb_spec r x); [ lia | ].
    change (xregs s_h r) with (xregs s1 r). rewrite Ot by lia.
    unfold get_xreg. destruct (Z.eqb_spec r 0); [ lia | reflexivity ].
  - rewrite Xr, Mh by lia.
    destruct (Z.eqb_spec r x) as [-> | Hne].
    + apply MemoryFacts.load_store_same, Hv.
    + rewrite MemoryFacts.load_store_other
        by (apply frame_cells_apart; lia).
      apply Fr. lia.
  - rewrite Xo by lia.
    destruct (Z.eqb_spec r x); [ lia | ].
    change (xregs s_h r) with (xregs s1 r). rewrite Ot by lia.
    unfold get_xreg. destruct (Z.eqb_spec r 0); [ lia | reflexivity ].
Qed.

(** The installer writes memory only. *)
Lemma install_xregs_csrs (P : platform) code handler s :
  xregs (snd (neorv32_rte_handler_install P code handler s)) = xregs s
  /\ csrs (snd (neorv32_rte_handler_install P code handler s)) = csrs s.
Proof.
  unfold neorv32_rte_handler_install.
  destruct (negb _); split; reflexivity.
Qed.

Lemma installed_put_handler_lookup :
  rte_core_lookup neorv32_rv32ic 0x80000007
    (rte_core_save neorv32_rv32ic
       (snd (neorv32_rte_handler_install neorv32_rv32ic 0x80000007 0x3000
               (trapped_state 0x80000007 true))))
  = 0x3000.
Proof. vm_compute. reflexivity. Qed.

Lemma rte_core_handler_puts_register_witness :
  let P := neorv32_rv32ic in
  let s := snd (neorv32_rte_handler_install P 0x80000007 0x3000
                  (trapped_state 0x80000007 true)) in
  exists s',
    neorv32_rte_core P (example_handlers 1) s = Returned s'
    /\ forall r,
         get_xreg r s'
         = if (r =? 10) && negb (r =? 0) then 0xcafe else get_xreg r s.
Proof.
  apply (rte_core_handler_puts_register neorv32_rv32ic (example_handlers 1)
           10 0xcafe
           (snd (neorv32_rte_handler_install neorv32_rv32ic 0x80000007 0x3000
                   (trapped_state 0x80000007 true)))).
  - intros r.
    destruct (install_xregs_csrs neorv32_rv32ic 0x80000007 0x3000
                (trapped_state 0x80000007 true)) as (-> & _).
    apply trapped_state_in_range.
  - unfold num_xregs. simpl. lia.
  - unfold Word32.in_range. lia.
  - unfold neorv32_cpu_csr_read at 1.
    destruct (install_xregs_csrs neorv32_rv32ic 0x80000007 0x3000
                (trapped_state 0x80000007 true)) as (_ & ->).
    change (csrs (trapped_state 0x80000007 true) CSR_MCAUSE)
      with 0x80000007.
    rewrite installed_put_handler_lookup. discriminate.
  - unfold neorv32_cpu_csr_read at 1.
    destruct (install_xregs_csrs neorv32_rv32ic 0x80000007 0x3000
                (trapped_state 0x80000007 true)) as (_ & ->).
    change (csrs (trapped_state 0x80000007 true) CSR_MCAUSE)
      with 0x80000007.
    rewrite installed_put_handler_lookup. reflexivity.
Defined.

(** ** The debug handler, whatever the cause *)

(** The debug handler returns unless UART0 is there and the cause is one
    of the three it halts on. *)
Theorem debug_handler_returns_iff (P : platform) (fuel : nat) (s : state) :
  (exists s', neorv32_rte_debug_handler P fuel s = Returned s')
  <-> uart0_present s = false
      \/ is_fatal P (neorv32_cpu_csr_read CSR_MCAUSE s) = false.
Proof.
  destruct (uart0_present s) eqn:Hu.
  - destruct (debug_handler_present P fuel s Hu) as (s_p & _ & ->).
    unfold debug_halt_or_return.
    destruct (is_fatal P (neorv32_cpu_csr_read CSR_MCAUSE s)).
    + cbv zeta. rewrite wfi_loop_spins. split.
      * intros (s' & H). discriminate.
      * intros [H | H]; discriminate.
    + split; [ intros _; right; reflexivity | ].
      intros _. eexists. reflexivity.
  - rewrite (debug_handler_absent P fuel s Hu). split.
    + intros _. left. reflexivity.
    + intros _. exists s. reflexivity.
Qed.

(** Whatever the cause and however it ends, the debug handler writes
    no control register other than the interrupt-enable register, and
    in that register it only clears bits: it never enables an interrupt
    source. *)
Theorem debug_handler_footprint (P : platform) (fuel : nat) (s : state) :
  let s' := outcome_state (neorv32_rte_debug_handler P fuel s) in
  (forall c, c <> CSR_MIE ->
     neorv32_cpu_csr_read c s' = neorv32_cpu_csr_read c s)
  /\ (forall i, 0 <= i ->
        Z.testbit (neorv32_cpu_csr_read CSR_MIE s') i = true ->
        Z.testbit (neorv32_cpu_csr_read CSR_MIE s) i = true).
Proof.
  intros s'. subst s'. destruct (uart0_present s) eqn:Hu.
  - destruct (debug_handler_present P fuel s Hu) as (s_p & Hs & ->).
    destruct Hs as (_ & _ & Hc & _).
    set (cause := neorv32_cpu_csr_read CSR_MCAUSE s).
    assert (D : forall i, 0 <= i ->
                Z.testbit
                  (neorv32_cpu_csr_read CSR_MIE (debug_disable_irq cause s_p))
                  i = true ->
                Z.testbit (neorv32_cpu_csr_read CSR_MIE s) i = true).
    { intros i Hi. unfold debug_disable_irq.
      destruct (Word32.signed cause <? 0).
      - unfold neorv32_cpu_csr_clr. rewrite csr_write_same.
        change (csrs (neorv32_uart0_puts ?m s_p) CSR_MIE)
          with (csrs s_p CSR_MIE).
        rewrite Hc, Z.land_spec. intros H.
        apply andb_true_iff in H. apply H.
      - unfold neorv32_cpu_csr_read. rewrite Hc. auto. }
    unfold debug_halt_or_return. destruct (is_fatal P cause).
    + cbv zeta. rewrite wfi_loop_spins. cbn [outcome_state]. split.
      * intros c Hne. rewrite csr_write_other by exact Hne.
        change (neorv32_cpu_csr_read c (neorv32_uart0_puts ?m ?t))
          with (neorv32_cpu_csr_read c t).
        rewrite disable_irq_same_but_mie by exact Hne.
        unfold neorv32_cpu_csr_read. rewrite Hc. reflexivity.
      * intros i Hi. rewrite csr_write_same, Z.bits_0. discriminate.
    + cbn [outcome_state]. split.
      * intros c Hne.
        change (neorv32_cpu_csr_read c (neorv32_uart0_puts ?m ?t))
          with (neorv32_cpu_csr_read c t).
        rewrite disable_irq_same_but_mie by exact Hne.
        unfold neorv32_cpu_csr_read. rewrite Hc. reflexivity.
      * intros i Hi.
        change (neorv32_cpu_csr_read CSR_MIE (neorv32_uart0_puts ?m ?t))
          with (neorv32_cpu_csr_read CSR_MIE t).
        apply D. exact Hi.
  - rewrite (debug_handler_absent P fuel s Hu). cbn [outcome_state].
    split; [ intros c Hne; reflexivity | intros i Hi H; exact H ].
Qed.

(** ** Traps that reach the debug handler *)

Section DebugTraps.

Context (P : platform).

Lemma set_xreg_uart r v s :
  uart0_present (set_xreg r v s) = uart0_present s
  /\ uart0_tx (set_xreg r v s) = uart0_tx s.
Proof. unfold set_xreg. destruct (r =? 0); split; reflexivity. Qed.

Lemma asm_sw_fold_uart l :
  forall s,
    uart0_present (fold_left (fun s r => asm_sw r (r * 4) s) l s)
    = uart0_present s
    /\ uart0_tx (fold_left (fun s r => asm_sw r (r * 4) s) l s)
       = uart0_tx s.
Proof.
  induction l as [ | r l IH]; intros s; cbn [fold_left].
  - split; reflexivity.
  - destruct (IH (asm_sw r (r * 4) s)) as (-> & ->). split; reflexivity.
Qed.

(** Saving the context prints nothing. *)
Lemma rte_core_save_uart s :
  uart0_present (rte_core_save P s) = uart0_present s
  /\ uart0_tx (rte_core_save P s) = uart0_tx s.
Proof.
  unfold rte_core_save.
  set (sa := asm_csrw CSR_MSCRATCH 2 s).
  set (sb := asm_addi 2 2 (- (num_xregs P * 4)) sa).
  set (sc := asm_sw 0 (0 * 4) sb).
  set (sd := asm_sw 1 (1 * 4) sc).
  set (se := asm_csrrw 1 CSR_MSCRATCH 2 sd).
  set (sf := asm_sw 1 (2 * 4) se).
  destruct (asm_sw_fold_uart (upper_xregs P) sf) as (-> & ->).
  split; reflexivity.
Qed.

(** The debug handler on an interrupt, with UART0 there. *)
Lemma debug_handler_interrupt_state fuel s :
  fatal_causes_are_exceptions P ->
  uart0_present s = true ->
  Word32.in_range (neorv32_cpu_csr_read CSR_MCAUSE s) ->
  Z.testbit (neorv32_cpu_csr_read CSR_MCAUSE s) 31 = true ->
  exists s',
    neorv32_rte_debug_handler P fuel s = Returned s'
    /\ xregs s' = xregs s
    /\ mem s' = mem s
    /\ neorv32_cpu_csr_read CSR_MIE s'
       = Z.land (neorv32_cpu_csr_read CSR_MIE s)
           (Z.lnot (2 ^ Z.land (neorv32_cpu_csr_read CSR_MCAUSE s) 31))
    /\ (forall c, c <> CSR_MIE ->
          neorv32_cpu_csr_read c s' = neorv32_cpu_csr_read c s).
Proof.
  intros (Fa & Fm & Fd) Hu Hr Hb.
  destruct (debug_handler_present P fuel s Hu) as (s_p & Hs & ->).
  set (cause := neorv32_cpu_csr_read CSR_MCAUSE s) in *.
  destruct (interrupt_cause_signed cause Hr Hb) as (Hge & Hneg).
  assert (F : is_fatal P cause = false).
  { unfold is_fatal.
    destruct (Z.eqb_spec cause (TRAP_CODE_I_ACCESS P)); [ lia | ].
    destruct (Z.eqb_spec cause (TRAP_CODE_I_MISALIGNED P)); [ lia | ].
    destruct (Z.eqb_spec cause (TRAP_CODE_DOUBLE_TRAP P)); [ lia | ].
    reflexivity. }
  unfold debug_halt_or_return. rewrite F.
  eexists. split; [ reflexivity | ].
  destruct Hs as (Hx & _ & Hcsr & Hm & _).
  unfold debug_disable_irq. rewrite Hneg.
  split; [ exact Hx | ]. split; [ exact Hm | ]. split.
  - unfold neorv32_cpu_csr_clr, neorv32_cpu_csr_write, neorv32_cpu_csr_read.
    cbn [csrs set_csrs neorv32_uart0_puts set_uart0_tx].
    destruct (csr_eq_dec CSR_MIE CSR_MIE) as [_ | N]; [ | contradiction ].
    rewrite Hcsr. destruct (irq_mask cause) as (_ & ->). reflexivity.
  - intros c Hc.
    unfold neorv32_cpu_csr_clr, neorv32_cpu_csr_write, neorv32_cpu_csr_read.
    cbn [csrs set_csrs neorv32_uart0_puts set_uart0_tx].
    destruct (csr_eq_dec c CSR_MIE); [ contradiction | ].
    rewrite Hcsr. reflexivity.
Qed.

(** The debug handler on one of the three causes it halts on. *)
Lemma debug_handler_fatal_state fuel s :
  uart0_present s = true ->
  is_fatal P (neorv32_cpu_csr_read CSR_MCAUSE s) = true ->
  exists s',
    neorv32_rte_debug_handler P fuel s = Spinning s'
    /\ neorv32_cpu_csr_read CSR_MIE s' = 0.
Proof.
  intros Hu F.
  destruct (debug_handler_present P fuel s Hu) as (s_p & _ & ->).
  unfold debug_halt_or_return. rewrite F. cbv zeta.
  rewrite wfi_loop_spins. eexists. split; reflexivity.
Qed.

Lemma interrupt_cause_direction mcause :
  2 ^ 31 <= mcause -> Z.shiftr mcause 31 <> 0.
Proof.
  intros H. rewrite Z.shiftr_div_pow2 by lia.
  change (2 ^ 31) with 2147483648 in *.
  Z.div_mod_to_equations. lia.
Qed.

End DebugTraps.

(** End to end: an interrupt nobody installed a handler for, with UART0
    there.  The first-level handler returns; the interrupted program
    has all its registers back and resumes where it was interrupted,
    and the enable bit of that interrupt, and no other, has been
    cleared. *)
Theorem rte_core_unhandled_interrupt (P : platform)
  (handlers : Z -> state -> outcome) (fuel : nat) (s : state) :
  xregs_in_range s ->
  fatal_causes_are_exceptions P ->
  uart0_present s = true ->
  let mcause := neorv32_cpu_csr_read CSR_MCAUSE s in
  Word32.in_range mcause ->
  Z.testbit mcause 31 = true ->
  rte_core_lookup P mcause (rte_core_save P s) = debug_handler_addr P ->
  debug_handler_addr P <> 0 ->
  handlers (debug_handler_addr P) = neorv32_rte_debug_handler P fuel ->
  exists s',
    neorv32_rte_core P handlers s = Returned s'
    /\ (forall r, get_xreg r s' = get_xreg r s)
    /\ pc s' = neorv32_cpu_csr_read CSR_MEPC s
    /\ neorv32_cpu_csr_read CSR_MEPC s' = neorv32_cpu_csr_read CSR_MEPC s
    /\ (forall i, 0 <= i ->
          Z.testbit (neorv32_cpu_csr_read CSR_MIE s') i
          = if i =? Z.land mcause 31 then false
            else Z.testbit (neorv32_cpu_csr_read CSR_MIE s) i).
Proof.
  intros Hs Hf Hu mcause Hr Hb Hl Hn Hh.
  set (s1 := rte_core_save P s).
  assert (Ec : neorv32_cpu_csr_read CSR_MCAUSE s1 = mcause)
    by (apply rte_core_save_csrs; discriminate).
  destruct (rte_core_save_uart P s) as (Hu1 & _). fold s1 in Hu1.
  destruct (debug_handler_interrupt_state P fuel s1 Hf)
    as (s_h & Hd & Hx & Hm & Hmie & Hoth).
  { rewrite Hu1. exact Hu. }
  { rewrite Ec. exact Hr. }
  { rewrite Ec. exact Hb. }
  assert (Hret : (if rte_core_lookup P mcause s1 =? 0 then Returned s1
                  else handlers (rte_core_lookup P mcause s1) s1)
                 = Returned s_h).
  { fold s1 in Hl. rewrite Hl.
    destruct (Z.eqb_spec (debug_handler_addr P) 0); [ contradiction | ].
    rewrite Hh. exact Hd. }
  destruct (rte_core_restores_registers P handlers s s_h Hs Hret Hx Hm)
    as (E & Hregs & Hpc).
  fold mcause in E, Hregs, Hpc.
  destruct (interrupt_cause_signed mcause Hr Hb) as (Hge & _).
  destruct (rte_core_fixup_mepc P mcause s_h) as (_ & Fn).
  assert (Fx : rte_core_fixup P mcause s_h = s_h).
  { apply Fn. left. apply interrupt_cause_direction, Hge. }
  assert (Em : neorv32_cpu_csr_read CSR_MEPC s_h
               = neorv32_cpu_csr_read CSR_MEPC s).
  { rewrite Hoth by discriminate. subst s1.
    apply rte_core_save_csrs. discriminate. }
  eexists. split; [ exact E | ]. split; [ exact Hregs | ].
  fold mcause. rewrite Fx in *.
  split; [ rewrite Hpc, rte_core_restore_csrs by discriminate; exact Em | ].
  split; [ rewrite rte_core_restore_csrs by discriminate; exact Em | ].
  intros i Hi. rewrite rte_core_restore_csrs by discriminate.
  rewrite Hmie, Ec.
  subst s1. rewrite rte_core_save_csrs by discriminate.
  destruct (irq_mask mcause) as (Hidx & _).
  rewrite Z.land_spec, Z.lnot_spec, Z.pow2_bits_eqb by lia.
  rewrite (Z.eqb_sym (Z.land mcause 31) i).
  destruct (i =? Z.land mcause 31); simpl.
  - apply andb_false_r.
  - apply andb_true_r.
Qed.

(** End to end: a fetch fault, a misaligned fetch or a double trap with
    the debug handler in its slot and UART0 there.  The first-level
    handler does not return: the hart stays in the wait loop of the
    debug handler, every interrupt source disabled, and the interrupted
    program is not resumed. *)
Theorem rte_core_fatal_halts (P : platform)
  (handlers : Z -> state -> outcome) (fuel : nat) (s : state) :
  uart0_present s = true ->
  let mcause := neorv32_cpu_csr_read CSR_MCAUSE s in
  mcause = TRAP_CODE_I_ACCESS P
  \/ mcause = TRAP_CODE_I_MISALIGNED P
  \/ mcause = TRAP_CODE_DOUBLE_TRAP P ->
  rte_core_lookup P mcause (rte_core_save P s) = debug_handler_addr P ->
  debug_handler_addr P <> 0 ->
  handlers (debug_handler_addr P) = neorv32_rte_debug_handler P fuel ->
  exists s',
    neorv32_rte_core P handlers s = Spinning s'
    /\ neorv32_cpu_csr_read CSR_MIE s' = 0.
Proof.
  intros Hu mcause Hc Hl Hn Hh.
  set (s1 := rte_core_save P s).
  assert (Ec : neorv32_cpu_csr_read CSR_MCAUSE s1 = mcause)
    by (apply rte_core_save_csrs; discriminate).
  destruct (rte_core_save_uart P s) as (Hu1 & _). fold s1 in Hu1.
  assert (F : is_fatal P mcause = true).
  { unfold is_fatal. destruct Hc as [-> | [-> | ->]];
      rewrite Z.eqb_refl; rewrite ?orb_true_r; reflexivity. }
  destruct (debug_handler_fatal_state P fuel s1) as (s_h & Hd & Hmie).
  { rewrite Hu1. exact Hu. }
  { rewrite Ec. exact F. }
  exists s_h. split; [ | exact Hmie ].
  rewrite rte_core_phases. fold s1 mcause. fold s1 in Hl. rewrite Hl.
  destruct (Z.eqb_spec (debug_handler_addr P) 0); [ contradiction | ].
  rewrite Hh, Hd. reflexivity.
Qed.

Lemma setup_fold_uart (P : platform) l :
  forall s,
    uart0_present (fold_left (fun a j => setup_install_debug P j a) l s)
    = uart0_present s
    /\ uart0_tx (fold_left (fun a j => setup_install_debug P j a) l s)
       = uart0_tx s
    /\ pc (fold_left (fun a j => setup_install_debug P j a) l s) = pc s.
Proof.
  induction l as [ | j l IH]; intros s; cbn [fold_left].
  - repeat split.
  - destruct (IH (setup_install_debug P j s)) as (-> & -> & ->).
    repeat split.
Qed.

(** Setup prints nothing and does not know whether UART0 is there. *)
Lemma setup_uart (P : platform) s :
  uart0_present (neorv32_rte_setup P s) = uart0_present s
  /\ uart0_tx (neorv32_rte_setup P s) = uart0_tx s
  /\ pc (neorv32_rte_setup P s) = pc s.
Proof.
  rewrite setup_state. cbv zeta.
  destruct (_ =? 0); [ | repeat split ].
  destruct (setup_fold_uart P (loop_indices 0 32)
              (neorv32_cpu_csr_write CSR_MIE 0
                 (neorv32_cpu_csr_write CSR_MTVEC
                    (Z.land (rte_core_addr P) 0xfffffffc)
                    (neorv32_cpu_csr_write CSR_MSTATUS
                       (Z.lor (Word32.shl 1 (CSR_MSTATUS_MPP_H P))
                          (Word32.shl 1 (CSR_MSTATUS_MPP_L P))) s))))
    as (-> & -> & ->).
  repeat split.
Qed.

Lemma csr_write_uart c v s :
  uart0_present (neorv32_cpu_csr_write c v s) = uart0_present s.
Proof. reflexivity. Qed.

Lemma trapped_state_uart cause uart :
  uart0_present (trapped_state cause uart) = uart.
Proof.
  unfold trapped_state. rewrite !csr_write_uart.
  destruct (setup_uart neorv32_rv32ic
              (set_xregs example_xregs (reset_state uart))) as (-> & _).
  reflexivity.
Qed.

Lemma trapped_state_lookup_timer :
  rte_core_lookup neorv32_rv32ic 0x80000007
    (rte_core_save neorv32_rv32ic (trapped_state 0x80000007 true))
  = debug_handler_addr neorv32_rv32ic.
Proof. vm_compute. reflexivity. Qed.

Lemma trapped_state_lookup_fetch_fault :
  rte_core_lookup neorv32_rv32ic 1
    (rte_core_save neorv32_rv32ic (trapped_state 1 true))
  = debug_handler_addr neorv32_rv32ic.
Proof. vm_compute. reflexivity. Qed.

Lemma rte_core_unhandled_interrupt_witness :
  let P := neorv32_rv32ic in
  let s := trapped_state 0x80000007 true in
  exists s',
    neorv32_rte_core P (example_handlers 1) s = Returned s'
    /\ (forall r, get_xreg r s' = get_xreg r s)
    /\ pc s' = neorv32_cpu_csr_read CSR_MEPC s
    /\ neorv32_cpu_csr_read CSR_MEPC s' = neorv32_cpu_csr_read CSR_MEPC s
    /\ (forall i, 0 <= i ->
          Z.testbit (neorv32_cpu_csr_read CSR_MIE s') i
          = if i =? Z.land (neorv32_cpu_csr_read CSR_MCAUSE s) 31 then false
            else Z.testbit (neorv32_cpu_csr_read CSR_MIE s) i).
Proof.
  apply (rte_core_unhandled_interrupt neorv32_rv32ic (example_handlers 1) 1
           (trapped_state 0x80000007 true)).
  - apply trapped_state_in_range.
  - unfold fatal_causes_are_exceptions. simpl. lia.
  - apply trapped_state_uart.
  - change (neorv32_cpu_csr_read CSR_MCAUSE (trapped_state 0x80000007 true))
      with 0x80000007.
    unfold Word32.in_range. lia.
  - reflexivity.
  - exact trapped_state_lookup_timer.
  - discriminate.
  - reflexivity.
Defined.

Lemma rte_core_fatal_halts_witness :
  let P := neorv32_rv32ic in
  exists s',
    neorv32_rte_core P (example_handlers 7) (trapped_state 1 true)
    = Spinning s'
    /\ neorv32_cpu_csr_read CSR_MIE s' = 0.
Proof.
  apply (rte_core_fatal_halts neorv32_rv32ic (example_handlers 7) 7
           (trapped_state 1 true)).
  - apply trapped_state_uart.
  - left. reflexivity.
  - exact trapped_state_lookup_fetch_fault.
  - discriminate.
  - reflexivity.
Defined.

(** ** What the first-level handler leaves alone *)

Section CoreFootprint.

Context (P : platform).

Lemma asm_lw_fold_uart l :
  forall s,
    uart0_tx (fold_left (fun s r => asm_lw r (r * 4) s) l s) = uart0_tx s.
Proof.
  induction l as [ | r l IH]; intros s; cbn [fold_left]; [ reflexivity | ].
  rewrite IH. unfold asm_lw. apply set_xreg_uart.
Qed.

Lemma rte_core_restore_uart s :
  uart0_tx (rte_core_restore P s) = uart0_tx s.
Proof.
  unfold rte_core_restore, asm_mret.
  cbn [uart0_tx set_pc neorv32_cpu_csr_write set_csrs].
  unfold asm_lw at 1.
  destruct (set_xreg_uart 2
              (Memory.load_word
                 (mem (fold_left (fun s r => asm_lw r (r * 4) s)
                         (upper_xregs P) (asm_lw 1 (1 * 4) s)))
                 (Word32.add
                    (get_xreg 2
                       (fold_left (fun s r => asm_lw r (r * 4) s)
                          (upper_xregs P) (asm_lw 1 (1 * 4) s)))
                    (2 * 4)))
              (fold_left (fun s r => asm_lw r (r * 4) s)
                 (upper_xregs P) (asm_lw 1 (1 * 4) s))) as (_ & ->).
  rewrite asm_lw_fold_uart. unfold asm_lw. apply set_xreg_uart.
Qed.

Lemma rte_core_fixup_other mcause s c :
  c <> CSR_MEPC ->
  neorv32_cpu_csr_read c (rte_core_fixup P mcause s)
  = neorv32_cpu_csr_read c s.
Proof.
  intros Hc. unfold rte_core_fixup.
  destruct ((Z.shiftr mcause 31 =? 0)
            && negb (mcause =? TRAP_CODE_I_ACCESS P)); [ | reflexivity ].
  cbv zeta. apply csr_write_other. exact Hc.
Qed.

Lemma rte_core_fixup_uart mcause s :
  uart0_tx (rte_core_fixup P mcause s) = uart0_tx s.
Proof.
  unfold rte_core_fixup.
  destruct ((Z.shiftr mcause 31 =? 0)
            && negb (mcause =? TRAP_CODE_I_ACCESS P)); reflexivity.
Qed.

End CoreFootprint.

(** With a null slot the first-level handler writes the words of the
    trap frame and no other memory, no control register other than
    [mscratch], the resume address and [mstatus], which the final [mret]
    rewrites as the hart does, and sends nothing to UART0. *)
Theorem rte_core_null_handler_footprint (P : platform)
  (handlers : Z -> state -> outcome) (s : state) :
  rte_core_lookup P (neorv32_cpu_csr_read CSR_MCAUSE s) (rte_core_save P s)
  = 0 ->
  exists s',
    neorv32_rte_core P handlers s = Returned s'
    /\ (forall a, outside_frame P s a ->
          Memory.load_word (mem s') a = Memory.load_word (mem s) a)
    /\ (forall c, c <> CSR_MSCRATCH -> c <> CSR_MEPC -> c <> CSR_MSTATUS ->
          neorv32_cpu_csr_read c s' = neorv32_cpu_csr_read c s)
    /\ neorv32_cpu_csr_read CSR_MSTATUS s'
       = mret_mstatus P (neorv32_cpu_csr_read CSR_MSTATUS s)
    /\ uart0_tx s' = uart0_tx s.
Proof.
  intros H0. rewrite rte_core_phases. rewrite H0. cbn [Z.eqb].
  eexists. split; [ reflexivity | ].
  set (mcause := neorv32_cpu_csr_read CSR_MCAUSE s).
  set (s1 := rte_core_save P s).
  destruct (rte_core_restore_frame P (rte_core_fixup P mcause s1))
    as (_ & _ & _ & Mr).
  destruct (rte_core_fixup_xregs_mem P mcause s1) as (_ & Mf).
  split; [ | split; [ | split ] ].
  - intros a Ha. rewrite Mr, Mf. apply rte_core_save_other. exact Ha.
  - intros c H1 H2 H3.
    rewrite rte_core_restore_csrs by exact H3.
    rewrite rte_core_fixup_other by exact H2.
    apply rte_core_save_csrs. exact H1.
  - rewrite rte_core_restore_mstatus.
    rewrite rte_core_fixup_other by discriminate.
    unfold s1. rewrite rte_core_save_csrs by discriminate. reflexivity.
  - rewrite rte_core_restore_uart, rte_core_fixup_uart.
    apply rte_core_save_uart.
Qed.

Lemma rte_core_null_handler_footprint_witness :
  exists s',
    neorv32_rte_core neorv32_rv32ic (example_handlers 1) (bare_trap 3)
    = Returned s'
    /\ (forall a, outside_frame neorv32_rv32ic (bare_trap 3) a ->
          Memory.load_word (mem s') a
          = Memory.load_word (mem (bare_trap 3)) a)
    /\ (forall c, c <> CSR_MSCRATCH -> c <> CSR_MEPC -> c <> CSR_MSTATUS ->
          neorv32_cpu_csr_read c s'
          = neorv32_cpu_csr_read c (bare_trap 3))
    /\ neorv32_cpu_csr_read CSR_MSTATUS s'
       = riscv_mret_mstatus (neorv32_cpu_csr_read CSR_MSTATUS (bare_trap 3))
    /\ uart0_tx s' = uart0_tx (bare_trap 3).
Proof.
  apply (rte_core_null_handler_footprint neorv32_rv32ic (example_handlers 1)
           (bare_trap 3)).
  vm_compute. reflexivity.
Defined.

(** ** Installing, again and again *)

(** Distinct well-formed identifiers select distinct slots. *)
Lemma valid_codes_slots c c' :
  Word32.in_range c -> valid_trap_code c ->
  Word32.in_range c' -> valid_trap_code c' ->
  c <> c' ->
  (Z.shiftr c 31, Z.land c 31) <> (Z.shiftr c' 31, Z.land c' 31).
Proof.
  intros Hr Hv Hr' Hv' Hne E. injection E as Ed Ei.
  destruct (valid_trap_code_split c Hr Hv) as (Ec & _).
  destruct (valid_trap_code_split c' Hr' Hv') as (Ec' & _).
  apply Hne. rewrite Ec, Ec', Ed, Ei. reflexivity.
Qed.

(** The look-up of one identifier after the installation of another. *)
Lemma lookup_install (P : platform) c c' handler s :
  Word32.in_range c -> valid_trap_code c ->
  Word32.in_range c' -> valid_trap_code c' ->
  Word32.in_range handler ->
  rte_core_lookup P c (snd (neorv32_rte_handler_install P c' handler s))
  = if c =? c' then handler else rte_core_lookup P c s.
Proof.
  intros Hr Hv Hr' Hv' Hh.
  rewrite (install_valid_state P c' handler s Hr' Hv'). cbn [snd].
  unfold rte_core_lookup.
  destruct (valid_trap_code_split c Hr Hv) as (_ & Hd & Hi).
  destruct (valid_trap_code_split c' Hr' Hv') as (_ & Hd' & Hi').
  destruct (Z.eqb_spec c c') as [-> | Hne].
  - apply vector_lut_get_set_same, Hh.
  - apply vector_lut_get_set_other; try assumption.
    apply valid_codes_slots; assumption.
Qed.

(** Two installations in a row: the later one wins on its identifier,
    the earlier one stands on a different identifier, and every other
    identifier routes as before. *)
Theorem install_then_install (P : platform) (c1 h1 c2 h2 c : Z) (s : state) :
  Word32.in_range c1 -> valid_trap_code c1 -> Word32.in_range h1 ->
  Word32.in_range c2 -> valid_trap_code c2 -> Word32.in_range h2 ->
  Word32.in_range c -> valid_trap_code c ->
  let s1 := snd (neorv32_rte_handler_install P c1 h1 s) in
  let s2 := snd (neorv32_rte_handler_install P c2 h2 s1) in
  rte_core_lookup P c s2
  = if c =? c2 then h2 else if c =? c1 then h1 else rte_core_lookup P c s.
Proof.
  intros R1 V1 H1 R2 V2 H2 R V s1 s2. subst s1 s2.
  rewrite lookup_install by assumption.
  destruct (c =? c2); [ reflexivity | ].
  apply lookup_install; assumption.
Qed.

Lemma install_then_install_witness :
  let P := neorv32_rv32ic in
  let s1 := snd (neorv32_rte_handler_install P 0x80000007 0x3000
                   (reset_state true)) in
  let s2 := snd (neorv32_rte_handler_install P 0x00000007 0x2000 s1) in
  rte_core_lookup P 0x80000007 s2
  = if 0x80000007 =? 0x00000007 then 0x2000
    else if 0x80000007 =? 0x80000007 then 0x3000
         else rte_core_lookup P 0x80000007 (reset_state true).
Proof.
  apply (install_then_install neorv32_rv32ic 0x80000007 0x3000
           0x00000007 0x2000 0x80000007 (reset_state true)).
  - unfold Word32.in_range. lia.
  - apply install_mask_zero. reflexivity.
  - unfold Word32.in_range. lia.
  - unfold Word32.in_range. lia.
  - apply install_mask_zero. reflexivity.
  - unfold Word32.in_range. lia.
  - unfold Word32.in_range. lia.
  - apply install_mask_zero. reflexivity.
Defined.

(** Installing the null address for an identifier: the next trap with
    that cause runs no second-level handler at all, whatever code is
    linked where, provided the trap frame does not lie on the table
    slot. *)
Theorem rte_core_skips_uninstalled (P : platform)
  (handlers : Z -> state -> outcome) (code : Z) (s : state) :
  Word32.in_range code ->
  valid_trap_code code ->
  neorv32_cpu_csr_read CSR_MCAUSE s = code ->
  outside_frame P s (vector_lut_cell P (Z.shiftr code 31) (Z.land code 31)) ->
  let s' := snd (neorv32_rte_handler_install P code 0 s) in
  neorv32_rte_core P handlers s'
  = Returned (rte_core_restore P (rte_core_fixup P code (rte_core_save P s'))).
Proof.
  intros Hr Hv Hc Ha s'. subst s'.
  rewrite (install_valid_state P code 0 s Hr Hv). cbn [snd].
  set (s' := vector_lut_set P (Z.shiftr code 31) (Z.land code 31) 0 s).
  assert (Ec : neorv32_cpu_csr_read CSR_MCAUSE s' = code) by exact Hc.
  rewrite rte_core_phases, Ec.
  assert (El : rte_core_lookup P code (rte_core_save P s') = 0).
  { unfold rte_core_lookup, vector_lut_get.
    rewrite rte_core_save_other by exact Ha.
    apply vector_lut_get_set_same. unfold Word32.in_range. lia. }
  rewrite El. reflexivity.
Qed.

Lemma rte_core_skips_uninstalled_witness :
  let P := neorv32_rv32ic in
  let s' := snd (neorv32_rte_handler_install P 0x80000007 0
                   (trapped_state 0x80000007 true)) in
  neorv32_rte_core P (example_handlers 1) s'
  = Returned (rte_core_restore P
                (rte_core_fixup P 0x80000007 (rte_core_save P s'))).
Proof.
  apply (rte_core_skips_uninstalled neorv32_rv32ic (example_handlers 1)
           0x80000007 (trapped_state 0x80000007 true)).
  - unfold Word32.in_range. lia.
  - apply install_mask_zero. reflexivity.
  - reflexivity.
  - apply (example_table_outside_frame 0x80000007 true 1 7); lia.
Defined.

(** ** Setup, seen from outside *)

Section SetupFootprint.

Context (P : platform).

Lemma setup_fold_other l a :
  forall s,
    (forall j, In j l -> 0 <= j < 32) ->
    outside_table P a ->
    Memory.load_word
      (mem (fold_left (fun a j => setup_install_debug P j a) l s)) a
    = Memory.load_word (mem s) a.
Proof.
  induction l as [ | j l IH]; intros s Hl Ha; cbn [fold_left].
  - reflexivity.
  - rewrite IH by (auto; intros k Hk; apply Hl; right; exact Hk).
    unfold setup_install_debug, vector_lut_set. cbn [mem set_mem].
    assert (Hj : 0 <= j < 32) by (apply Hl; left; reflexivity).
    rewrite !MemoryFacts.load_store_other by (apply Ha; lia).
    reflexivity.
Qed.

(** The table after setup on hart 0, read by identifier. *)
Lemma setup_lookup code s :
  Word32.in_range (debug_handler_addr P) ->
  neorv32_cpu_csr_read CSR_MHARTID s = 0 ->
  Word32.in_range code -> valid_trap_code code ->
  rte_core_lookup P code (neorv32_rte_setup P s) = debug_handler_addr P.
Proof.
  intros Hdbg Hh Hr Hv.
  destruct (valid_trap_code_split code Hr Hv) as (_ & Hd & Hi).
  rewrite setup_state. cbv zeta. rewrite Hh. cbn [Z.eqb].
  unfold rte_core_lookup. rewrite fill_all_get; auto.
  - rewrite existsb_eqb_In; [ reflexivity | ].
    apply for_indices_complete; simpl; lia.
  - intros j Hj. apply for_indices_bounds in Hj. exact Hj.
Qed.

(** A power of two that fits the register. *)
Lemma shl_one k : 0 <= k < 32 -> Word32.shl 1 k = 2 ^ k.
Proof.
  intros Hk. unfold Word32.shl. rewrite Z.shiftl_1_l.
  apply Word32Facts.wrap_small. unfold Word32.in_range.
  split; [ apply Z.pow_nonneg; lia | apply Z.pow_lt_mono_r; lia ].
Qed.

End SetupFootprint.

(** After setup [mstatus] has the two bits of the previous-privilege
    field set and every other bit clear: the previous privilege is
    machine mode and the global interrupt enable is off. *)
Theorem setup_mstatus (P : platform) (s : state) :
  0 <= CSR_MSTATUS_MPP_L P < 32 ->
  0 <= CSR_MSTATUS_MPP_H P < 32 ->
  forall i, 0 <= i ->
    Z.testbit (neorv32_cpu_csr_read CSR_MSTATUS (neorv32_rte_setup P s)) i
    = (i =? CSR_MSTATUS_MPP_H P) || (i =? CSR_MSTATUS_MPP_L P).
Proof.
  intros HL HH i Hi. rewrite setup_state. cbv zeta.
  assert (E : forall t,
             neorv32_cpu_csr_read CSR_MSTATUS
               (if neorv32_cpu_csr_read CSR_MHARTID s =? 0
                then fold_left (fun a j => setup_install_debug P j a)
                       (loop_indices 0 32) t
                else t)
             = neorv32_cpu_csr_read CSR_MSTATUS t).
  { intros t. destruct (_ =? 0); [ | reflexivity ].
    unfold neorv32_cpu_csr_read. rewrite fill_all_csrs. reflexivity. }
  rewrite E. rewrite !csr_write_other by discriminate.
  rewrite csr_write_same.
  rewrite !shl_one by assumption.
  rewrite Z.lor_spec, !Z.pow2_bits_eqb by lia.
  rewrite (Z.eqb_sym (CSR_MSTATUS_MPP_H P)), (Z.eqb_sym (CSR_MSTATUS_MPP_L P)).
  reflexivity.
Qed.

Lemma setup_mstatus_witness :
  Z.testbit
    (neorv32_cpu_csr_read CSR_MSTATUS
       (neorv32_rte_setup neorv32_rv32ic (reset_state true))) 12
  = (12 =? CSR_MSTATUS_MPP_H neorv32_rv32ic)
    || (12 =? CSR_MSTATUS_MPP_L neorv32_rv32ic).
Proof.
  apply (setup_mstatus neorv32_rv32ic (reset_state true)).
  - simpl. lia.
  - simpl. lia.
  - lia.
Defined.

(** Setup writes the three control registers and, on hart 0, the 64
    words of the table: every other control register, the UART log and
    every word of memory that overlaps no slot of the table are as
    before. *)
Theorem setup_footprint (P : platform) (s : state) :
  let s' := neorv32_rte_setup P s in
  (forall c, c <> CSR_MSTATUS -> c <> CSR_MTVEC -> c <> CSR_MIE ->
     neorv32_cpu_csr_read c s' = neorv32_cpu_csr_read c s)
  /\ uart0_tx s' = uart0_tx s
  /\ (forall a, outside_table P a ->
        Memory.load_word (mem s') a = Memory.load_word (mem s) a).
Proof.
  intros s'. subst s'. split; [ | split ].
  - intros c H1 H2 H3. rewrite setup_state. cbv zeta.
    destruct (_ =? 0).
    + unfold neorv32_cpu_csr_read at 1. rewrite fill_all_csrs.
      change (csrs ?t c) with (neorv32_cpu_csr_read c t).
      rewrite !csr_write_other by assumption. reflexivity.
    + rewrite !csr_write_other by assumption. reflexivity.
  - apply setup_uart.
  - intros a Ha. rewrite setup_state. cbv zeta.
    destruct (_ =? 0); [ | reflexivity ].
    rewrite setup_fold_other; [ reflexivity | | exact Ha ].
    intros j Hj. apply for_indices_bounds in Hj. exact Hj.
Qed.

(** Setup on hart 0, then one installation: the identifier installed
    routes to its handler, every other identifier to the debug
    handler. *)
Theorem setup_then_install (P : platform) (code handler c : Z) (s : state) :
  Word32.in_range (debug_handler_addr P) ->
  neorv32_cpu_csr_read CSR_MHARTID s = 0 ->
  Word32.in_range code -> valid_trap_code code ->
  Word32.in_range handler ->
  Word32.in_range c -> valid_trap_code c ->
  rte_core_lookup P c
    (snd (neorv32_rte_handler_install P code handler (neorv32_rte_setup P s)))
  = if c =? code then handler else debug_handler_addr P.
Proof.
  intros Hdbg Hh Hr Hv Hha Hrc Hvc.
  rewrite lookup_install by assumption.
  destruct (c =? code); [ reflexivity | ].
  apply setup_lookup; assumption.
Qed.

Lemma setup_then_install_witness :
  let P := neorv32_rv32ic in
  rte_core_lookup P 0x00000007
    (snd (neorv32_rte_handler_install P 0x80000007 0x3000
            (neorv32_rte_setup P (reset_state true))))
  = if 0x00000007 =? 0x80000007 then 0x3000 else debug_handler_addr P.
Proof.
  apply (setup_then_install neorv32_rv32ic 0x80000007 0x3000 0x00000007
           (reset_state true)).
  - unfold Word32.in_range. simpl. lia.
  - reflexivity.
  - unfold Word32.in_range. lia.
  - apply install_mask_zero. reflexivity.
  - unfold Word32.in_range. lia.
  - unfold Word32.in_range. lia.
  - apply install_mask_zero. reflexivity.
Defined.

(** ** The hex printer, in general *)

Lemma loop_indices_count i0 bound :
  List.length (loop_indices i0 bound) = Z.to_nat (bound - i0).
Proof.
  unfold loop_indices. destruct (Z_le_gt_dec i0 bound) as [H | H].
  - apply for_indices_length. lia.
  - destruct (Z.to_nat (bound - i0)) eqn:E; [ reflexivity | lia ].
Qed.

(** Every index into [hex_symbols] is within the sixteen symbols. *)
Lemma hex_symbol_in_table z :
  In (hex_symbol (Z.land z 0xF)) (list_ascii_of_string hex_symbols).
Proof.
  assert (L : Z.land z 0xF = z mod 2 ^ 4)
    by (apply (Z.land_ones z 4); lia).
  rewrite L. change (2 ^ 4) with 16.
  pose proof (Z.mod_pos_bound z 16 ltac:(lia)) as B.
  set (k := z mod 16) in *. clearbody k.
  assert (C : k = 0 \/ k = 1 \/ k = 2 \/ k = 3 \/ k = 4 \/ k = 5 \/ k = 6
              \/ k = 7 \/ k = 8 \/ k = 9 \/ k = 10 \/ k = 11 \/ k = 12
              \/ k = 13 \/ k = 14 \/ k = 15) by lia.
  repeat (destruct C as [-> | C]; [ cbv; auto 20 | ]).
  subst k. cbv. auto 20.
Qed.

(** With UART0 there and a non-negative [int] for [digits] (so that
    [digits - 8] and the shift amounts are computed without overflow),
    the printer appends the prefix and then [16 - digits] symbols to the
    UART log (none when [digits] is 16 or more), each one of the sixteen
    hex symbols. *)
Theorem print_hex_emits (num digits : Z) (s : state) :
  uart0_present s = true ->
  0 <= digits < 2 ^ 31 ->
  exists syms,
    uart0_tx (neorv32_rte_print_hex num digits s)
    = uart0_tx s ++ ["0"%char; "x"%char] ++ syms
    /\ List.length syms = Z.to_nat (16 - digits)
    /\ Forall (fun c => In c (list_ascii_of_string hex_symbols)) syms
    /\ Forall (fun k => 0 <= k <= 60) (print_hex_shifts digits).
Proof.
  intros Hu Hd. eexists. split; [ apply print_hex_tx, Hu | ].
  split; [ | split ].
  - unfold print_hex_shifts. rewrite !length_map, loop_indices_count.
    f_equal. lia.
  - apply Forall_forall. intros c Hc. apply in_map_iff in Hc.
    destruct Hc as (k & <- & _). apply hex_symbol_in_table.
  - apply Forall_forall. intros k Hk. unfold print_hex_shifts in Hk.
    apply in_map_iff in Hk. destruct Hk as (i & <- & Hi).
    apply for_indices_bounds in Hi. unfold print_hex_shift. lia.
Qed.

Lemma print_hex_emits_witness :
  exists syms,
    uart0_tx (neorv32_rte_print_hex 0x80000010 1 (reset_state true))
    = uart0_tx (reset_state true) ++ ["0"%char; "x"%char] ++ syms
    /\ List.length syms = Z.to_nat (16 - 1)
    /\ Forall (fun c => In c (list_ascii_of_string hex_symbols)) syms
    /\ Forall (fun k => 0 <= k <= 60) (print_hex_shifts 1).
Proof.
  apply (print_hex_emits 0x80000010 1 (reset_state true)).
  - reflexivity.
  - lia.
Defined.

Lemma hex_symbol_injective a b :
  0 <= a < 16 -> 0 <= b < 16 -> hex_symbol a = hex_symbol b -> a = b.
Proof.
  intros Ha Hb.
  assert (A : a = 0 \/ a = 1 \/ a = 2 \/ a = 3 \/ a = 4 \/ a = 5 \/ a = 6
              \/ a = 7 \/ a = 8 \/ a = 9 \/ a = 10 \/ a = 11 \/ a = 12
              \/ a = 13 \/ a = 14 \/ a = 15) by lia.
  assert (B : b = 0 \/ b = 1 \/ b = 2 \/ b = 3 \/ b = 4 \/ b = 5 \/ b = 6
              \/ b = 7 \/ b = 8 \/ b = 9 \/ b = 10 \/ b = 11 \/ b = 12
              \/ b = 13 \/ b = 14 \/ b = 15) by lia.
  clear Ha Hb.
  repeat (destruct A as [-> | A]);
    try subst a;
    repeat (destruct B as [-> | B]);
    try subst b;
    intros H; try reflexivity; cbv in H; discriminate H.
Qed.

Lemma nibbles_of_word num :
  Word32.in_range num ->
  hex_digits_value
    (map (fun k => Z.land (Word32.srl num k) 0xF)
       [28; 24; 20; 16; 12; 8; 4; 0]) = num.
Proof.
  unfold Word32.in_range. intros Hr.
  unfold hex_digits_value, Word32.srl. cbn [map fold_left].
  change (Z.land 28 31) with 28. change (Z.land 24 31) with 24.
  change (Z.land 20 31) with 20. change (Z.land 16 31) with 16.
  change (Z.land 12 31) with 12. change (Z.land 8 31) with 8.
  change (Z.land 4 31) with 4. change (Z.land 0 31) with 0.
  change 15 with (Z.ones 4).
  rewrite !Z.land_ones, !Z.shiftr_div_pow2 by lia.
  change (2 ^ 28) with 268435456. change (2 ^ 24) with 16777216.
  change (2 ^ 20) with 1048576. change (2 ^ 16) with 65536.
  change (2 ^ 12) with 4096. change (2 ^ 8) with 256.
  change (2 ^ 4) with 16. change (2 ^ 0) with 1.
  change (2 ^ 32) with 4294967296 in Hr.
  Z.div_mod_to_equations. lia.
Qed.

(** Asked for eight digits the printer writes the word: eight hex
    digits, most significant first, whose value is the number printed;
    distinct digit values have distinct symbols, so the text determines
    the word. *)
Theorem print_hex_word (num : Z) (s : state) :
  uart0_present s = true ->
  Word32.in_range num ->
  exists ds,
    uart0_tx (neorv32_rte_print_hex num 8 s)
    = uart0_tx s ++ ["0"%char; "x"%char] ++ map hex_symbol ds
    /\ List.length ds = 8%nat
    /\ Forall (fun d => 0 <= d < 16) ds
    /\ hex_digits_value ds = num
    /\ (forall a b, 0 <= a < 16 -> 0 <= b < 16 ->
          hex_symbol a = hex_symbol b -> a = b).
Proof.
  intros Hu Hr.
  exists (map (fun k => Z.land (Word32.srl num k) 0xF)
            [28; 24; 20; 16; 12; 8; 4; 0]).
  split; [ | split; [ | split; [ | split ] ] ].
  - rewrite print_hex_tx by exact Hu.
    change (print_hex_shifts 8) with [28; 24; 20; 16; 12; 8; 4; 0].
    rewrite map_map. reflexivity.
  - reflexivity.
  - apply Forall_forall. intros d Hd. apply in_map_iff in Hd.
    destruct Hd as (k & <- & _).
    assert (L : Z.land (Word32.srl num k) 0xF = Word32.srl num k mod 2 ^ 4)
      by (apply (Z.land_ones _ 4); lia).
    rewrite L. apply Z.mod_pos_bound. lia.
  - apply nibbles_of_word, Hr.
  - apply hex_symbol_injective.
Qed.

Lemma print_hex_word_witness :
  exists ds,
    uart0_tx (neorv32_rte_print_hex 0x89abcdef 8 (reset_state true))
    = uart0_tx (reset_state true) ++ ["0"%char; "x"%char]
      ++ map hex_symbol ds
    /\ List.length ds = 8%nat
    /\ Forall (fun d => 0 <= d < 16) ds
    /\ hex_digits_value ds = 0x89abcdef
    /\ (forall a b, 0 <= a < 16 -> 0 <= b < 16 ->
          hex_symbol a = hex_symbol b -> a = b).
Proof.
  apply (print_hex_word 0x89abcdef (reset_state true)).
  - reflexivity.
  - unfold Word32.in_range. lia.
Defined.

(** ** The resume address *)

(** The fix-up keeps the resume address a 32-bit value and keeps it
    even; without compressed instructions it keeps it a multiple of 4. *)
Theorem rte_core_fixup_alignment (P : platform) (mcause : Z) (s : state) :
  Word32.in_range (neorv32_cpu_csr_read CSR_MEPC s) ->
  let mepc := neorv32_cpu_csr_read CSR_MEPC s in
  let mepc' := neorv32_cpu_csr_read CSR_MEPC (rte_core_fixup P mcause s) in
  Word32.in_range mepc'
  /\ (mepc mod 2 = 0 -> mepc' mod 2 = 0)
  /\ (riscv_c P = false -> mepc mod 4 = 0 -> mepc' mod 4 = 0).
Proof.
  intros Hr mepc mepc'. subst mepc'.
  destruct (rte_core_fixup_mepc P mcause s) as (Fx & Fn).
  destruct (Z.eq_dec (Z.shiftr mcause 31) 0) as [Hd | Hd];
    [ destruct (Z.eq_dec mcause (TRAP_CODE_I_ACCESS P)) as [Hc | Hc] | ].
  - rewrite Fn by (right; exact Hc). fold mepc. auto.
  - rewrite Fx by assumption. fold mepc.
    split; [ apply Word32Facts.wrap_range | ].
    unfold resume_step, Word32.wrap. change (2 ^ 32) with 4294967296.
    split.
    + intros He.
      destruct (riscv_c P && negb (_ =? 3));
        Z.div_mod_to_equations; lia.
    + intros Hc0 He. rewrite Hc0. cbn [andb].
      Z.div_mod_to_equations. lia.
  - rewrite Fn by (left; exact Hd). fold mepc. auto.
Qed.

Lemma rte_core_fixup_alignment_witness :
  let s := bare_trap 3 in
  let mepc := neorv32_cpu_csr_read CSR_MEPC s in
  let mepc' :=
    neorv32_cpu_csr_read CSR_MEPC (rte_core_fixup neorv32_rv32ic 3 s) in
  Word32.in_range mepc'
  /\ (mepc mod 2 = 0 -> mepc' mod 2 = 0)
  /\ (riscv_c neorv32_rv32ic = false -> mepc mod 4 = 0 -> mepc' mod 4 = 0).
Proof.
  apply (rte_core_fixup_alignment neorv32_rv32ic 3 (bare_trap 3)).
  unfold Word32.in_range. simpl. lia.
Defined.

(** ** The report of the debug handler *)

Lemma puts_tx str s :
  uart0_tx (neorv32_uart0_puts str s)
  = uart0_tx s ++ list_ascii_of_string str.
Proof. reflexivity. Qed.

Lemma print_hex_extends num digits s :
  exists l, uart0_tx (neorv32_rte_print_hex num digits s) = uart0_tx s ++ l.
Proof.
  unfold neorv32_rte_print_hex.
  destruct (negb (neorv32_uart0_available s =? 0)).
  - rewrite for_loop_indices, print_hex_fold_tx.
    unfold neorv32_uart0_putc. cbn [uart0_tx set_uart0_tx].
    rewrite <- !app_assoc. eexists. reflexivity.
  - exists []. symmetry. apply app_nil_r.
Qed.

Lemma debug_print_cause_extends (P : platform) trap_cause s :
  exists l, uart0_tx (debug_print_cause P trap_cause s) = uart0_tx s ++ l.
Proof.
  unfold debug_print_cause.
  repeat match goal with
         | |- exists l, uart0_tx (if ?b then _ else _) = _ => destruct b
         end;
    try (eexists; apply puts_tx).
  - destruct (print_hex_extends trap_cause 1
                (neorv32_uart0_puts "Fast IRQ " s)) as (l & ->).
    rewrite puts_tx, <- app_assoc. eexists. reflexivity.
  - destruct (print_hex_extends trap_cause 8
                (neorv32_uart0_puts "Unknown trap cause " s)) as (l & ->).
    rewrite puts_tx, <- app_assoc. eexists. reflexivity.
Qed.

Lemma debug_disable_irq_extends trap_cause s :
  exists l, uart0_tx (debug_disable_irq trap_cause s) = uart0_tx s ++ l.
Proof.
  unfold debug_disable_irq. destruct (Word32.signed trap_cause <? 0).
  - eexists. reflexivity.
  - exists []. symmetry. apply app_nil_r.
Qed.

(** With UART0 there, the debug handler appends one report to what was
    sent before: it opens with the tag of the runtime and, when the
    handler returns, closes with the closing tag and a newline; on a
    cause the handler halts on it closes with the fatal marker. *)
Theorem debug_handler_report_brackets (P : platform) (fuel : nat) (s : state) :
  uart0_present s = true ->
  exists body,
    uart0_tx (outcome_state (neorv32_rte_debug_handler P fuel s))
    = uart0_tx s
      ++ list_ascii_of_string "<NEORV32-RTE> "
      ++ body
      ++ list_ascii_of_string
           (if is_fatal P (neorv32_cpu_csr_read CSR_MCAUSE s)
            then " !!FATAL EXCEPTION!! Halting CPU </NEORV32-RTE>" ++ newline
            else " </NEORV32-RTE>" ++ newline).
Proof.
  intros Hu. unfold neorv32_rte_debug_handler, neorv32_uart0_available.
  rewrite Hu. cbn [Z.eqb]. cbv zeta.
  set (s1 := neorv32_uart0_puts "<NEORV32-RTE> " s).
  assert (T1 : uart0_tx s1
               = uart0_tx s ++ list_ascii_of_string "<NEORV32-RTE> ")
    by reflexivity.
  assert (H1 : same_machine s s1) by apply puts_same.
  clearbody s1.
  set (s2 := if negb (Z.land (neorv32_cpu_csr_read CSR_MHARTID s1) 1 =? 0)
             then neorv32_uart0_puts "[cpu1|" s1
             else neorv32_uart0_puts "[cpu0|" s1).
  assert (T2 : exists l, uart0_tx s2 = uart0_tx s1 ++ l)
    by (subst s2; destruct (negb _); eexists; apply puts_tx).
  assert (H2 : same_machine s s2).
  { eapply same_machine_trans; [ exact H1 | ].
    subst s2. destruct (negb _); apply puts_same. }
  clearbody s2.
  set (s3 := if negb (Z.land (neorv32_cpu_csr_read CSR_MSTATUS s2)
                        (Word32.shl 3 (CSR_MSTATUS_MPP_L P)) =? 0)
             then neorv32_uart0_puts "M] " s2
             else neorv32_uart0_puts "U] " s2).
  assert (T3 : exists l, uart0_tx s3 = uart0_tx s2 ++ l)
    by (subst s3; destruct (negb _); eexists; apply puts_tx).
  assert (H3 : same_machine s s3).
  { eapply same_machine_trans; [ exact H2 | ].
    subst s3. destruct (negb _); apply puts_same. }
  clearbody s3.
  assert (E : neorv32_cpu_csr_read CSR_MCAUSE s3
              = neorv32_cpu_csr_read CSR_MCAUSE s).
  { unfold neorv32_cpu_csr_read. destruct H3 as (_ & _ & -> & _).
    reflexivity. }
  rewrite E. set (cause := neorv32_cpu_csr_read CSR_MCAUSE s).
  set (s4 := debug_print_cause P cause s3).
  destruct (debug_print_cause_extends P cause s3) as (l4 & T4). fold s4 in T4.
  clearbody s4.
  set (s5 := neorv32_uart0_puts " @ PC=" s4).
  set (s6 := neorv32_rte_print_hex (neorv32_cpu_csr_read CSR_MEPC s5) 8 s5).
  destruct (print_hex_extends (neorv32_cpu_csr_read CSR_MEPC s5) 8 s5)
    as (l6 & T6). fold s6 in T6.
  assert (T5 : uart0_tx s5 = uart0_tx s4 ++ list_ascii_of_string " @ PC=")
    by reflexivity.
  clearbody s5. clearbody s6.
  set (s7 := neorv32_uart0_puts ", MTINST=" s6).
  set (s8 := neorv32_rte_print_hex (neorv32_cpu_csr_read CSR_MTINST s7) 8 s7).
  destruct (print_hex_extends (neorv32_cpu_csr_read CSR_MTINST s7) 8 s7)
    as (l8 & T8). fold s8 in T8.
  assert (T7 : uart0_tx s7 = uart0_tx s6 ++ list_ascii_of_string ", MTINST=")
    by reflexivity.
  clearbody s7. clearbody s8.
  set (s9 := neorv32_uart0_puts ", MTVAL=" s8).
  set (s10 := neorv32_rte_print_hex (neorv32_cpu_csr_read CSR_MTVAL s9) 8 s9).
  destruct (print_hex_extends (neorv32_cpu_csr_read CSR_MTVAL s9) 8 s9)
    as (l10 & T10). fold s10 in T10.
  assert (T9 : uart0_tx s9 = uart0_tx s8 ++ list_ascii_of_string ", MTVAL=")
    by reflexivity.
  clearbody s9. clearbody s10.
  destruct (debug_disable_irq_extends cause s10) as (l11 & T11).
  set (s11 := debug_disable_irq cause s10) in *. clearbody s11.
  destruct T2 as (l2 & T2). destruct T3 as (l3 & T3).
  assert (T : uart0_tx s11
              = uart0_tx s ++ list_ascii_of_string "<NEORV32-RTE> "
                ++ (l2 ++ l3 ++ l4 ++ list_ascii_of_string " @ PC=" ++ l6
                    ++ list_ascii_of_string ", MTINST=" ++ l8
                    ++ list_ascii_of_string ", MTVAL=" ++ l10 ++ l11)).
  { rewrite T11, T10, T9, T8, T7, T6, T5, T4, T3, T2, T1.
    rewrite <- !app_assoc. reflexivity. }
  exists (l2 ++ l3 ++ l4 ++ list_ascii_of_string " @ PC=" ++ l6
          ++ list_ascii_of_string ", MTINST=" ++ l8
          ++ list_ascii_of_string ", MTVAL=" ++ l10 ++ l11).
  unfold debug_halt_or_return. destruct (is_fatal P cause).
  - cbv zeta. rewrite wfi_loop_spins. cbn [outcome_state].
    change (uart0_tx (neorv32_cpu_csr_write CSR_MIE 0 ?t)) with (uart0_tx t).
    rewrite puts_tx, T, <- !app_assoc. reflexivity.
  - cbn [outcome_state]. rewrite puts_tx, T, <- !app_assoc. reflexivity.
Qed.

Lemma debug_handler_report_brackets_witness :
  exists body,
    uart0_tx (outcome_state
                (neorv32_rte_debug_handler neorv32_rv32ic 1 (bare_trap 3)))
    = uart0_tx (bare_trap 3)
      ++ list_ascii_of_string "<NEORV32-RTE> "
      ++ body
      ++ list_ascii_of_string
           (if is_fatal neorv32_rv32ic
                 (neorv32_cpu_csr_read CSR_MCAUSE (bare_trap 3))
            then " !!FATAL EXCEPTION!! Halting CPU </NEORV32-RTE>" ++ newline
            else " </NEORV32-RTE>" ++ newline).
Proof.
  apply (debug_handler_report_brackets neorv32_rv32ic 1 (bare_trap 3)).
  reflexivity.
Defined.

(** ** Handlers that use the registers *)

(** A second-level handler may leave anything in the general-purpose
    registers: if it returns with the stack pointer it was called with
    and has not written the frame, the interrupted program resumes with
    every register of the register file as it was when it trapped. *)
Theorem rte_core_discards_handler_registers (P : platform)
  (handlers : Z -> state -> outcome) (s s_h : state) :
  xregs_in_range s ->
  let s1 := rte_core_save P s in
  let handler_base :=
    rte_core_lookup P (neorv32_cpu_csr_read CSR_MCAUSE s) s1 in
  handler_base <> 0 ->
  handlers handler_base s1 = Returned s_h ->
  get_xreg 2 s_h = get_xreg 2 s1 ->
  (forall r, 0 <= r < num_xregs P ->
     Memory.load_word (mem s_h) (Word32.add (frame_base P s) (r * 4))
     = Memory.load_word (mem s1) (Word32.add (frame_base P s) (r * 4))) ->
  exists s',
    neorv32_rte_core P handlers s = Returned s'
    /\ forall r, 0 <= r < num_xregs P -> get_xreg r s' = get_xreg r s.
Proof.
  intros Hs s1 handler_base Hn Hh Hsp Hfr.
  assert (Hret : (if handler_base =? 0 then Returned s1
                  else handlers handler_base s1) = Returned s_h).
  { destruct (Z.eqb_spec handler_base 0); [ contradiction | exact Hh ]. }
  destruct (rte_core_resumes_from_frame P handlers s s_h Hs Hret Hsp)
    as (E & Xr & _).
  eexists. split; [ exact E | ].
  destruct (rte_core_save_frame P s Hs) as (_ & _ & Fr & _).
  fold s1 in Fr.
  intros r Hr. unfold get_xreg at 1.
  destruct (Z.eqb_spec r 0) as [-> | R0]; [ reflexivity | ].
  rewrite Xr, Hfr by lia. apply Fr. exact Hr.
Qed.

Lemma clobber_keeps_sp t :
  get_xreg 2 (set_xregs (fun r => if r =? 2 then xregs t 2 else 0xdead) t)
  = get_xreg 2 t.
Proof. reflexivity. Qed.

Lemma set_xregs_mem f t : mem (set_xregs f t) = mem t.
Proof. reflexivity. Qed.

Lemma installed_clobber_handler_lookup :
  rte_core_lookup neorv32_rv32ic 0x80000007
    (rte_core_save neorv32_rv32ic
       (snd (neorv32_rte_handler_install neorv32_rv32ic 0x80000007 0x4000
               (trapped_state 0x80000007 true))))
  = 0x4000.
Proof. vm_compute. reflexivity. Qed.

Lemma rte_core_discards_handler_registers_witness :
  let P := neorv32_rv32ic in
  let s := snd (neorv32_rte_handler_install P 0x80000007 0x4000
                  (trapped_state 0x80000007 true)) in
  exists s',
    neorv32_rte_core P (example_handlers 1) s = Returned s'
    /\ forall r, 0 <= r < num_xregs P -> get_xreg r s' = get_xreg r s.
Proof.
  apply (rte_core_discards_handler_registers neorv32_rv32ic
           (example_handlers 1)
           (snd (neorv32_rte_handler_install neorv32_rv32ic 0x80000007 0x4000
                   (trapped_state 0x80000007 true)))
           (set_xregs
              (fun r =>
                 if r =? 2
                 then xregs
                        (rte_core_save neorv32_rv32ic
                           (snd (neorv32_rte_handler_install neorv32_rv32ic
                                   0x80000007 0x4000
                                   (trapped_state 0x80000007 true)))) 2
                 else 0xdead)
              (rte_core_save neorv32_rv32ic
                 (snd (neorv32_rte_handler_install neorv32_rv32ic
                         0x80000007 0x4000
                         (trapped_state 0x80000007 true)))))).
  - intros r.
    destruct (install_xregs_csrs neorv32_rv32ic 0x80000007 0x4000
                (trapped_state 0x80000007 true)) as (-> & _).
    apply trapped_state_in_range.
  - unfold neorv32_cpu_csr_read at 1.
    destruct (install_xregs_csrs neorv32_rv32ic 0x80000007 0x4000
                (trapped_state 0x80000007 true)) as (_ & ->).
    change (csrs (trapped_state 0x80000007 true) CSR_MCAUSE)
      with 0x80000007.
    rewrite installed_clobber_handler_lookup. discriminate.
  - unfold neorv32_cpu_csr_read at 1.
    destruct (install_xregs_csrs neorv32_rv32ic 0x80000007 0x4000
                (trapped_state 0x80000007 true)) as (_ & ->).
    change (csrs (trapped_state 0x80000007 true) CSR_MCAUSE)
      with 0x80000007.
    rewrite installed_clobber_handler_lookup. reflexivity.
  - apply clobber_keeps_sp.
  - intros r Hr. rewrite set_xregs_mem. reflexivity.
Defined.

(** ** What the installer leaves alone *)

(** The installer writes one word of memory: every word that does not
    overlap the slot of the identifier, every control register and the
    UART log are as before. *)
Theorem install_footprint (P : platform) (code handler : Z) (s : state) :
  Word32.in_range code ->
  valid_trap_code code ->
  let s' := snd (neorv32_rte_handler_install P code handler s) in
  (forall a,
     Memory.apart (vector_lut_cell P (Z.shiftr code 31) (Z.land code 31)) a ->
     Memory.load_word (mem s') a = Memory.load_word (mem s) a)
  /\ csrs s' = csrs s
  /\ uart0_tx s' = uart0_tx s.
Proof.
  intros Hr Hv s'. subst s'.
  rewrite (install_valid_state P code handler s Hr Hv). cbn [snd].
  split; [ | repeat split ].
  intros a Ha. unfold vector_lut_set. cbn [mem set_mem].
  apply MemoryFacts.load_store_other, Ha.
Qed.

Lemma install_footprint_witness :
  let P := neorv32_rv32ic in
  let s := reset_state true in
  let s' := snd (neorv32_rte_handler_install P 0x80000007 0x3000 s) in
  (forall a,
     Memory.apart
       (vector_lut_cell P (Z.shiftr 0x80000007 31) (Z.land 0x80000007 31)) a ->
     Memory.load_word (mem s') a = Memory.load_word (mem s) a)
  /\ csrs s' = csrs s
  /\ uart0_tx s' = uart0_tx s.
Proof.
  apply (install_footprint neorv32_rv32ic 0x80000007 0x3000
           (reset_state true)).
  - unfold Word32.in_range. lia.
  - apply install_mask_zero. reflexivity.
Defined.
